(** * HR-Copilot: orchestration core

    A shallow embedding of the orchestration core of the HR-Copilot
    repository (src/agents/orchestrator.py, src/agents/task_decomposer.py,
    src/services/llm_service.py, src/services/memory_service.py,
    src/models/conversation.py, src/models/schemas.py) together with the
    properties of its specification.

    Conventions of the embedding.
    - A Python [str] is a [string]; one character stands for one code point
      (code points below 256).
    - A Python [int] is a [Z].
    - A Python [dict] with arbitrary keys ([Dict[str, Any]]) is a
      [gmap string pyval]; a dict built with a fixed set of keys is a record.
    - [datetime.utcnow()] and the text-generation endpoint are the two
      sources of external input.  Their successive answers are part of the
      program state ([utcnow_readings], [api_outcomes]), each with a counter
      of the answers consumed so far.
    - A function that can raise returns an [outcome]; the state reached when
      the exception leaves the function is kept, as in Python. *)

From Stdlib Require Import ZArith Lia Ascii String Permutation Sorted.
From stdpp Require Import gmap strings list fin_maps pretty sorting.

Set Warnings "-register-all".
Local Open Scope Z_scope.

(** ** Python values *)

(** The values that travel through [Dict[str, Any]] dictionaries: JSON data
    decoded by [json.loads], handler results, context entries.  A float is
    kept as its IEEE-754 binary64 bit pattern. *)
Inductive pyval : Type :=
| VNone
| VBool (b : bool)
| VInt (z : Z)
| VFloat (bits : Z)
| VStr (s : string)
| VList (l : list pyval)
| VDict (d : gmap string pyval).

Module Py.

(** Truth value testing ([if x:], [not x]). *)
Definition truthy (v : pyval) : bool :=
  match v with
  | VNone => false
  | VBool b => b
  | VInt z => negb (z =? 0)
  | VFloat bits => negb ((bits =? 0) || (bits =? 2 ^ 63))
  | VStr s => negb (String.eqb s "")
  | VList l => match l with [] => false | _ => true end
  | VDict d => negb (bool_decide (d = ∅))
  end.

(** [d.get(k)] and [d.get(k, dflt)]. *)
Definition get (d : gmap string pyval) (k : string) : pyval :=
  default VNone (d !! k).
Definition get_or (d : gmap string pyval) (k : string) (dflt : pyval) : pyval :=
  default dflt (d !! k).

(** [l[i:]] and [l[:j]] with Python's treatment of negative and
    out-of-range bounds. *)
Definition slice_from {A} (i : Z) (l : list A) : list A :=
  let n := Z.of_nat (length l) in
  let start := if i <? 0 then Z.max 0 (n + i) else Z.min i n in
  drop (Z.to_nat start) l.
Definition slice_to {A} (j : Z) (l : list A) : list A :=
  let n := Z.of_nat (length l) in
  let stop := if j <? 0 then Z.max 0 (n + j) else Z.min j n in
  take (Z.to_nat stop) l.

Definition chars (s : string) : list ascii := list_ascii_of_string s.
Definition of_chars (l : list ascii) : string := string_of_list_ascii l.

Definition str_slice_from (i : Z) (s : string) : string :=
  of_chars (slice_from i (chars s)).
Definition str_slice_to (j : Z) (s : string) : string :=
  of_chars (slice_to j (chars s)).

(** The newline character. *)
Definition nl : string := String (ascii_of_nat 10) "".

(** [str.isspace] on one character. *)
Definition isspace (c : ascii) : bool :=
  let n := nat_of_ascii c in
  ((9 <=? n) && (n <=? 13) || (28 <=? n) && (n <=? 32)
   || (n =? 133) || (n =? 160))%nat.

Fixpoint lstrip (s : string) : string :=
  match s with
  | EmptyString => EmptyString
  | String c s' => if isspace c then lstrip s' else s
  end.
Definition rstrip (s : string) : string := String.rev (lstrip (String.rev s)).
Definition strip (s : string) : string := rstrip (lstrip s).

Definition startswith (s p : string) : bool := String.prefix p s.
Definition endswith (s p : string) : bool :=
  String.prefix (String.rev p) (String.rev s).

(** [sub in s] for strings. *)
Fixpoint contains (sub s : string) : bool :=
  String.prefix sub s
  || match s with
     | EmptyString => false
     | String _ s' => contains sub s'
     end.

(** [sep.join(parts)]. *)
Fixpoint join (sep : string) (parts : list string) : string :=
  match parts with
  | [] => ""
  | [p] => p
  | p :: rest => p +:+ sep +:+ join sep rest
  end.

(** [re.search(r'\{.*\}', s, re.DOTALL)]: the match, when there is one,
    runs from the first opening brace to the last closing brace after it. *)
Fixpoint drop_until_open (l : list ascii) : option (list ascii) :=
  match l with
  | [] => None
  | c :: l' => if Ascii.eqb c "{" then Some l else drop_until_open l'
  end.
Fixpoint keep_through_last_close (l : list ascii) : option (list ascii) :=
  match l with
  | [] => None
  | c :: l' =>
      match keep_through_last_close l' with
      | Some m => Some (c :: m)
      | None => if Ascii.eqb c "}" then Some [c] else None
      end
  end.
Definition search_braces (s : string) : option string :=
  match drop_until_open (chars s) with
  | None => None
  | Some l => of_chars <$> keep_through_last_close l
  end.

(** Iteration ([for x in v], [list.extend(v)]): the elements of a list, the
    characters of a string, the keys of a dict; other values are not
    iterable. *)
Definition iter (v : pyval) : option (list pyval) :=
  match v with
  | VList l => Some l
  | VStr s => Some ((fun c => VStr (String c "")) <$> chars s)
  | VDict d => Some ((fun kv => VStr kv.1) <$> map_to_list d)
  | _ => None
  end.

Definition as_str (v : pyval) : option string :=
  match v with VStr s => Some s | _ => None end.

End Py.

(** ** Exceptions and results *)

(** The exception classes that occur on the modelled paths.  The texts of
    exceptions raised by the interpreter or by library code are shortened. *)
Inductive exn : Type :=
| Exception (msg : string)
| KeyError (key : string)
| ValueError (msg : string)
| TypeError (msg : string)
| AttributeError (msg : string)
| ValidationError (msg : string)
| OverflowError (msg : string).

(** [str(e)]. *)
Definition str_exn (e : exn) : string :=
  match e with
  | KeyError k => "'" +:+ k +:+ "'"
  | Exception m | ValueError m | TypeError m | AttributeError m
  | ValidationError m | OverflowError m => m
  end.

Inductive outcome (A : Type) : Type :=
| Returned (a : A)
| Raised (e : exn).
Arguments Returned {A} a.
Arguments Raised {A} e.

Definition is_returned {A} (o : outcome A) : bool :=
  match o with Returned _ => true | Raised _ => false end.

(** The returned value, or [d] when an exception was raised. *)
Definition returned_or {A} (d : A) (o : outcome A) : A :=
  match o with Returned a => a | Raised _ => d end.

Definition is_dict (v : pyval) : bool :=
  match v with VDict _ => true | _ => false end.

Definition dict_or_empty (v : pyval) : gmap string pyval :=
  match v with VDict d => d | _ => ∅ end.

(** ** src/models/schemas.py *)

Inductive TaskType : Type :=
| JOB_DESCRIPTION
| RESUME_SCREENING
| INTERVIEW_SCHEDULING
| EMAIL_COMMUNICATION
| ANALYTICS
| OFFER_GENERATION.

Global Instance TaskType_eq_dec : EqDecision TaskType.
Proof. solve_decision. Defined.

(** [task_type.value]. *)
Definition TaskType_value (t : TaskType) : string :=
  match t with
  | JOB_DESCRIPTION => "job_description"
  | RESUME_SCREENING => "resume_screening"
  | INTERVIEW_SCHEDULING => "interview_scheduling"
  | EMAIL_COMMUNICATION => "email_communication"
  | ANALYTICS => "analytics"
  | OFFER_GENERATION => "offer_generation"
  end.

Definition all_task_types : list TaskType :=
  [JOB_DESCRIPTION; RESUME_SCREENING; INTERVIEW_SCHEDULING;
   EMAIL_COMMUNICATION; ANALYTICS; OFFER_GENERATION].

(** [TaskType(s)]: lookup of a member by value; [None] stands for the
    [ValueError] the constructor raises. *)
Definition TaskType_of_value (s : string) : option TaskType :=
  List.find (fun t => String.eqb (TaskType_value t) s) all_task_types.

(** [AgentTask]; the defaulted fields [status], [result] and [created_at]
    are never read by the orchestration path and are left out. *)
Record AgentTask : Type := mkAgentTask {
  task_id : string;
  task_type : TaskType;
  description : string;
  input_data : gmap string pyval;
  priority : Z
}.

Record ConversationMessage : Type := mkConversationMessage {
  role : string;
  content : string;
  timestamp : Z;
  metadata : gmap string pyval
}.

Record ConversationState : Type := mkConversationState {
  session_id : string;
  messages : list ConversationMessage;
  context : gmap string pyval;
  active_tasks : list string;
  created_at : Z;
  updated_at : Z
}.

Record AgentResponse : Type := mkAgentResponse {
  success : bool;
  message : string;
  data : option (gmap string pyval);
  suggestions : option (list string);
  next_actions : option (list string)
}.

(** Validation of an [Optional[List[str]]] field: [None] stands for the
    [ValidationError]. *)
Definition validate_opt_str_list (v : pyval) : option (option (list string)) :=
  match v with
  | VNone => Some None
  | VList l => Some <$> mapM Py.as_str l
  | _ => None
  end.

(** ** Program state *)

(** One entry of [MemoryService.short_term_memory[session_id]]. *)
Record MemEntry : Type := mkMemEntry {
  entry_key : string;
  entry_value : pyval;
  entry_timestamp : Z;
  entry_expires_at : Z
}.

(** One entry of [MemoryService.context_cache[session_id]]. *)
Record ContextEntry : Type := mkContextEntry {
  ctx_data : gmap string pyval;
  ctx_timestamp : Z
}.

(** The answer of one call of [client.models.generate_content]: the text of
    the response, or an exception with its [str]. *)
Inductive ApiOutcome : Type :=
| ApiText (text : string)
| ApiError (error_msg : string).

(** What a capability handler's [execute] does with a task input: it returns
    a dict or raises.  (A returned value that is not a mapping makes the
    caller's [**result] raise inside the same [try]; it is an [HRaise].) *)
Inductive HandlerOutcome : Type :=
| HReturn (result : gmap string pyval)
| HRaise (e : exn).

Section State.

(** Everything the capability handlers act on (database, files, ...). *)
Context {Ext : Type}.

Record State : Type := mkState {
  (** [utcnow_readings k] is what the [k]-th call of [datetime.utcnow()]
      returns, in microseconds counted from [datetime.min]. *)
  utcnow_readings : nat -> Z;
  clock_reads : nat;
  (** [api_outcomes k] is the answer of the [k]-th call of
      [generate_content]. *)
  api_outcomes : nat -> ApiOutcome;
  api_calls : nat;
  (** [conversation_manager]: [sessions] and [max_history]. *)
  sessions : gmap string ConversationState;
  max_history : Z;
  (** [memory_service]. *)
  short_term_memory : gmap string (list MemEntry);
  context_cache : gmap string (gmap string ContextEntry);
  external : Ext;
  (** Record of the handler invocations so far, oldest first: the task id,
      the input view handed to [execute], and what [execute] did. *)
  handler_calls : list (string * gmap string pyval * HandlerOutcome)
}.

Definition set_clock_reads (n : nat) (st : State) : State :=
  mkState (utcnow_readings st) n (api_outcomes st) (api_calls st)
    (sessions st) (max_history st) (short_term_memory st) (context_cache st)
    (external st) (handler_calls st).
Definition set_api_calls (n : nat) (st : State) : State :=
  mkState (utcnow_readings st) (clock_reads st) (api_outcomes st) n
    (sessions st) (max_history st) (short_term_memory st) (context_cache st)
    (external st) (handler_calls st).
Definition set_sessions (m : gmap string ConversationState) (st : State) : State :=
  mkState (utcnow_readings st) (clock_reads st) (api_outcomes st) (api_calls st)
    m (max_history st) (short_term_memory st) (context_cache st)
    (external st) (handler_calls st).
Definition set_short_term_memory (m : gmap string (list MemEntry)) (st : State) : State :=
  mkState (utcnow_readings st) (clock_reads st) (api_outcomes st) (api_calls st)
    (sessions st) (max_history st) m (context_cache st)
    (external st) (handler_calls st).
Definition set_context_cache (m : gmap string (gmap string ContextEntry)) (st : State) : State :=
  mkState (utcnow_readings st) (clock_reads st) (api_outcomes st) (api_calls st)
    (sessions st) (max_history st) (short_term_memory st) m
    (external st) (handler_calls st).
Definition set_external (x : Ext) (st : State) : State :=
  mkState (utcnow_readings st) (clock_reads st) (api_outcomes st) (api_calls st)
    (sessions st) (max_history st) (short_term_memory st) (context_cache st)
    x (handler_calls st).
Definition set_handler_calls
    (l : list (string * gmap string pyval * HandlerOutcome)) (st : State) : State :=
  mkState (utcnow_readings st) (clock_reads st) (api_outcomes st) (api_calls st)
    (sessions st) (max_history st) (short_term_memory st) (context_cache st)
    (external st) l.

(** *** The monad of stateful code that can raise *)

Definition M (A : Type) : Type := State -> outcome A * State.

Definition ret {A} (a : A) : M A := fun st => (Returned a, st).
Definition bind {A B} (c : M A) (k : A -> M B) : M B :=
  fun st =>
    match c st with
    | (Returned a, st') => k a st'
    | (Raised e, st') => (Raised e, st')
    end.
Definition raise {A} (e : exn) : M A := fun st => (Raised e, st).
Definition gets {A} (f : State -> A) : M A := fun st => (Returned (f st), st).
Definition modify (f : State -> State) : M unit := fun st => (Returned tt, f st).
(** An [Optional] whose [None] stands for a raised exception. *)
Definition or_raise {A} (o : option A) (e : exn) : M A :=
  match o with Some a => ret a | None => raise e end.
Definition lift_outcome {A} (o : outcome A) : M A := fun st => (o, st).

(** [datetime.utcnow()]. *)
Definition utcnow : M Z :=
  fun st => (Returned (utcnow_readings st (clock_reads st)),
             set_clock_reads (S (clock_reads st)) st).

(** [self.client.models.generate_content(...)]. *)
Definition generate_content : M ApiOutcome :=
  fun st => (Returned (api_outcomes st (api_calls st)),
             set_api_calls (S (api_calls st)) st).

End State.

Arguments State : clear implicits.
Arguments M : clear implicits.

Declare Scope py_scope.
Delimit Scope py_scope with py.
Notation "x <- c1 ;; c2" := (bind c1 (fun x => c2))
  (at level 100, c1 at next level, right associativity) : py_scope.
Notation "c1 ;;; c2" := (bind c1 (fun _ => c2))
  (at level 100, right associativity) : py_scope.
Local Open Scope py_scope.

(** ** A concrete runtime and scenario data

    A small instance of everything the embedding takes from outside, used
    to run the model on concrete requests. *)
Module Fixture.

(** A decoder that knows three documents. *)
Definition intent_doc : gmap string pyval :=
  <["intent" := VStr "job_description"]>
  (<["confidence" := VFloat 4606281698874543309]>
   (<["requires_clarification" := VBool false]>
    (<["clarification_questions" := VList []]> ∅))).

Definition dangling_plan_doc : gmap string pyval :=
  <["tasks" := VList
      [VDict (<["task_type" := VStr "job_description"]>
              (<["description" := VStr "Write the posting"]>
               (<["priority" := VInt 1]>
                (<["dependencies" := VList [VStr "task_7"]]> ∅))))]]>
  (<["requires_clarification" := VBool false]> ∅).

Definition two_task_plan_doc : gmap string pyval :=
  <["tasks" := VList
      [VDict (<["task_type" := VStr "resume_screening"]>
              (<["description" := VStr "Screen the applicants"]>
               (<["priority" := VInt 3]>
                (<["dependencies" := VList [VStr "task_2"]]> ∅))));
       VDict (<["task_type" := VStr "job_description"]>
              (<["description" := VStr "Write the posting"]>
               (<["priority" := VInt 1]> ∅)))]]>
  (<["requires_clarification" := VBool false]> ∅).

Definition json_loads (s : string) : string + pyval :=
  if String.eqb s "intent" then inr (VDict intent_doc)
  else if String.eqb s "plan-dangling" then inr (VDict dangling_plan_doc)
  else if String.eqb s "plan-two" then inr (VDict two_task_plan_doc)
  else inl "Expecting value: line 1 column 1 (char 0)".

Definition validate_int (v : pyval) : option Z :=
  match v with VInt z => Some z | _ => None end.

Definition format_TaskType (t : TaskType) : string := TaskType_value t.

Definition retry_seconds_text (error_msg : string) : string := "60".

Definition list_set (l : list string) : list string := remove_dups l.

(** Handlers over a world that counts the invocations. *)
Definition jd_generator_agent (task_data : gmap string pyval) (n : nat)
    : HandlerOutcome * nat :=
  (HReturn (<["success" := VBool true]>
            (<["job_id" := VStr "J1"]>
             (<["message" := VStr ("Job description created #" +:+ pretty n)]>
              (<["next_actions" :=
                   VList [VStr "Review and edit the job description";
                          VStr "Post to job boards";
                          VStr "Start screening candidates"]]> ∅)))),
   S n).

Definition screening_agent (task_data : gmap string pyval) (n : nat)
    : HandlerOutcome * nat :=
  (HReturn (<["success" := VBool true]>
            (<["message" := VStr "Screening completed"]>
             (<["next_actions" :=
                  VList [VStr "Post to job boards";
                         VStr "Schedule interviews";
                         VStr "Send rejection emails";
                         VStr "Review top candidates"]]> ∅))),
   S n).

Definition interview_agent (task_data : gmap string pyval) (n : nat)
    : HandlerOutcome * nat :=
  (HRaise (Exception "calendar unavailable"), S n).

(** The endpoint answers with the elements of [l], then fails. *)
Definition answers (l : list ApiOutcome) (k : nat) : ApiOutcome :=
  nth k l (ApiError "connection reset").

(** The state at start-up: empty registries, the default history limit,
    a clock that advances by one microsecond per reading. *)
Definition start (api : nat -> ApiOutcome) (limit : Z) : State nat :=
  mkState (fun k => Z.of_nat k) 0 api 0 ∅ limit ∅ ∅ 0%nat [].

End Fixture.

(** ** Stable sorting *)

(** [sorted(l, key=key)].  Python guarantees that the sort is stable; the
    stable sorted arrangement of a list is unique, and this insertion sort
    computes it. *)
Fixpoint insert_sorted {A} (key : A -> Z) (x : A) (l : list A) : list A :=
  match l with
  | [] => [x]
  | y :: l' => if key x <=? key y then x :: l else y :: insert_sorted key x l'
  end.

Definition sorted {A} (key : A -> Z) (l : list A) : list A :=
  foldr (insert_sorted key) [] l.

Section HRCopilot.

Context {Ext : Type}.

Abbreviation State := (State Ext).
Abbreviation M := (M Ext).

(** *** What the embedding takes from the Python runtime and libraries *)

(** [json.loads]: the decoded value, or the text of the
    [JSONDecodeError]. *)
Variable json_loads : string -> string + pyval.

(** Validation of a value for an [int] field of a pydantic model; [None]
    stands for the [ValidationError]. *)
Variable validate_int : pyval -> option Z.

(** [f"{task_type}"] for a member of the [str]-mixin enum [TaskType]
    (the member's value or its qualified name, by interpreter version). *)
Variable format_TaskType : TaskType -> string.

(** The text [f"{retry_seconds:.0f}"] of the retry delay that
    [generate_response] reads out of a rate-limit error message. *)
Variable retry_seconds_text : string -> string.

(** [list(set(l))] on strings: the distinct elements of [l], in an order
    the language leaves open. *)
Variable list_set : list string -> list string.

(** The three capability handlers the orchestrator imports; each is the
    [execute] method of the module-level agent object. *)
Variable jd_generator_agent : gmap string pyval -> Ext -> HandlerOutcome * Ext.
Variable screening_agent : gmap string pyval -> Ext -> HandlerOutcome * Ext.
Variable interview_agent : gmap string pyval -> Ext -> HandlerOutcome * Ext.

(** *** src/models/conversation.py *)

(** [ConversationState(session_id=session_id)], whose two timestamps
    default to [datetime.utcnow()]. *)
Definition new_ConversationState (sid : string) : M ConversationState :=
  c <- utcnow ;;
  u <- utcnow ;;
  ret (mkConversationState sid [] ∅ [] c u).

Definition get_session (sid : string) : M (option ConversationState) :=
  gets (fun st => sessions st !! sid).

Definition add_message (sid role content : string)
    (metadata : option (gmap string pyval)) : M unit :=
  existing <- get_session sid ;;
  session <- match existing with
             | Some s => ret s
             | None => new_ConversationState sid
             end ;;
  ts <- utcnow ;;
  let message := mkConversationMessage role content ts (default ∅ metadata) in
  let appended := messages session ++ [message] in
  upd <- utcnow ;;
  limit <- gets max_history ;;
  let kept :=
    if Z.of_nat (length appended) >? limit
    then Py.slice_from (- limit) appended
    else appended in
  modify (fun st =>
    set_sessions
      (<[sid := mkConversationState (session_id session) kept
                  (context session) (active_tasks session)
                  (created_at session) upd]> (sessions st)) st).

Definition get_messages (sid : string) (limit : option Z)
    : M (list ConversationMessage) :=
  session <- get_session sid ;;
  match session with
  | None => ret []
  | Some s =>
      match limit with
      | Some n => if n =? 0 then ret (messages s)
                  else ret (Py.slice_from (- n) (messages s))
      | None => ret (messages s)
      end
  end.

(** *** src/services/memory_service.py *)

Definition _cleanup_expired (sid : string) : M unit :=
  mem <- gets short_term_memory ;;
  match mem !! sid with
  | None => ret tt
  | Some entries =>
      now <- utcnow ;;
      modify (fun st =>
        set_short_term_memory
          (<[sid := filter (fun e => now < entry_expires_at e) entries]>
             (short_term_memory st)) st)
  end.

(** One minute, in the unit of the clock. *)
Definition minute : Z := 60000000.

(** A [datetime] is a number of microseconds counted from [datetime.min],
    the first instant of the year 1; [datetime.max] is the last
    microsecond of the year 9999, 3652059 days later. *)
Definition datetime_max : Z := 3652059 * 86400 * 1000000 - 1.

(** [timedelta(minutes=m)], in microseconds.  The constructor keeps the
    whole days apart and raises [OverflowError] when they exceed
    999999999 in magnitude; [None] stands for that exception. *)
Definition timedelta_minutes (m : Z) : option Z :=
  if (-999999999 <=? m / 1440) && (m / 1440 <=? 999999999)
  then Some (m * minute) else None.

(** The text of that exception in CPython: the days are first converted
    to a C [int], then checked against the bound. *)
Definition timedelta_overflow_text (days : Z) : string :=
  if (- 2 ^ 31 <=? days) && (days <? 2 ^ 31)
  then "days=" +:+ pretty days +:+ "; must have magnitude <= 999999999"
  else "Python int too large to convert to C int".

(** [d + delta] for a [datetime] and a [timedelta]; [None] stands for the
    [OverflowError] raised when the sum is no [datetime]. *)
Definition datetime_add (d delta : Z) : option Z :=
  if (0 <=? d + delta) && (d + delta <=? datetime_max)
  then Some (d + delta) else None.

(** [base + timedelta(minutes=ttl_minutes)], when both steps succeed. *)
Definition expires_after (base ttl_minutes : Z) : option Z :=
  timedelta_minutes ttl_minutes ≫= datetime_add base.

(** The session's list is created first; the entry is built next, and
    building it raises when the expiry is out of range, before anything
    is appended or swept. *)
Definition store_short_term (sid key : string) (value : pyval)
    (ttl_minutes : Z) : M unit :=
  mem <- gets short_term_memory ;;
  let entries := default [] (mem !! sid) in
  modify (fun st =>
    set_short_term_memory (<[sid := entries]> (short_term_memory st)) st) ;;;
  t <- utcnow ;;
  base <- utcnow ;;
  delta <- or_raise (timedelta_minutes ttl_minutes)
             (OverflowError (timedelta_overflow_text (ttl_minutes / 1440))) ;;
  expires <- or_raise (datetime_add base delta)
               (OverflowError "date value out of range") ;;
  let entry := mkMemEntry key value t expires in
  modify (fun st =>
    set_short_term_memory
      (<[sid := entries ++ [entry]]> (short_term_memory st)) st) ;;;
  _cleanup_expired sid.

(** The value of the last entry stored under [key], as the loop over
    [reversed(...)] finds it. *)
Definition find_latest (key : string) (entries : list MemEntry) : pyval :=
  match List.find (fun e => String.eqb (entry_key e) key) (rev entries) with
  | Some e => entry_value e
  | None => VNone
  end.

Definition entry_view (e : MemEntry) : pyval :=
  VDict (<["key" := VStr (entry_key e)]> (<["value" := entry_value e]> ∅)).

(** The test [if key:] on the optional key: [None] is the omitted
    argument, and the empty string is false as well. *)
Definition keyed (key : option string) : bool :=
  match key with Some k => negb (String.eqb k "") | None => false end.

Definition get_short_term (sid : string) (key : option string) : M pyval :=
  mem <- gets short_term_memory ;;
  match mem !! sid with
  | None => ret (if keyed key then VNone else VList [])
  | Some _ =>
      _cleanup_expired sid ;;;
      mem' <- gets short_term_memory ;;
      let entries := default [] (mem' !! sid) in
      if keyed key then ret (find_latest (default "" key) entries)
      else ret (VList (entry_view <$> entries))
  end.

Definition store_context (sid context_type : string)
    (data : gmap string pyval) : M unit :=
  t <- utcnow ;;
  modify (fun st =>
    let cache := context_cache st in
    set_context_cache
      (<[sid := <[context_type := mkContextEntry data t]>
                  (default ∅ (cache !! sid))]> cache) st).

(** [get_context(session_id)] without a context type: [None] or the dict
    of the session's data by type. *)
Definition get_context (sid : string) : M (option (gmap string pyval)) :=
  cache <- gets context_cache ;;
  ret ((fun c : gmap string ContextEntry =>
          (fun e => VDict (ctx_data e)) <$> c) <$> cache !! sid).

Definition get_relevant_context (sid query : string)
    : M (gmap string pyval) :=
  recent_memory <- get_short_term sid None ;;
  with_recent <-
    (if Py.truthy recent_memory then
       match recent_memory with
       | VList l => ret (<["recent_interactions" := VList (Py.slice_from (-5) l)]> ∅)
       | _ => raise (TypeError "object is not subscriptable")
       end
     else ret (∅ : gmap string pyval)) ;;
  session_context <- get_context sid ;;
  match session_context with
  | Some c => if bool_decide (c = ∅) then ret with_recent
              else ret (c ∪ with_recent)
  | None => ret with_recent
  end.

(** *** src/services/llm_service.py *)

(** The loop [for attempt in range(max_retries)] of [generate_response].
    [todo] counts the iterations that remain.  The pauses ([time.sleep],
    [_wait_for_rate_limit]) have no effect on the modelled state; their
    delays are taken to be within what [time.sleep] accepts. *)
Fixpoint generate_response_loop (max_retries : Z) (attempt : Z) (todo : nat)
    : M string :=
  match todo with
  | O => raise (Exception "Max retries exceeded")
  | S todo' =>
      answer <- generate_content ;;
      match answer with
      | ApiText text => ret text
      | ApiError error_msg =>
          if Py.contains "429" error_msg
             || Py.contains "RESOURCE_EXHAUSTED" error_msg
          then
            if attempt <? max_retries - 1
            then generate_response_loop max_retries (attempt + 1) todo'
            else raise (Exception
                   ("Rate limit exceeded. Your Gemini API quota is exhausted. "
                    +:+ "Please wait ~" +:+ retry_seconds_text error_msg
                    +:+ "s or check your quota at: "
                    +:+ "https://aistudio.google.com/app/apikey"))
          else
            if attempt <? max_retries - 1
            then generate_response_loop max_retries (attempt + 1) todo'
            else raise (Exception ("Error generating response: " +:+ error_msg))
      end
  end.

Definition generate_response (max_retries : Z) : M string :=
  generate_response_loop max_retries 0 (Z.to_nat max_retries).

Definition clean_response (response : string) : string :=
  let response := Py.strip response in
  let response :=
    if Py.startswith response "```json" then Py.str_slice_from 7 response
    else if Py.startswith response "```" then Py.str_slice_from 3 response
    else response in
  let response :=
    if Py.endswith response "```" then Py.str_slice_to (-3) response
    else response in
  Py.strip response.

Definition parse_failure (e response : string) : exn :=
  Exception ("Failed to parse JSON response: " +:+ e +:+ Py.nl
             +:+ "Response: " +:+ Py.str_slice_to 500 response).

Definition generate_structured_output : M pyval :=
  response <- generate_response 3 ;;
  let response := clean_response response in
  match json_loads response with
  | inr v => ret v
  | inl e =>
      match Py.search_braces response with
      | Some m =>
          match json_loads m with
          | inr v => ret v
          | inl _ => raise (parse_failure e response)
          end
      | None => raise (parse_failure e response)
      end
  end.

Definition analyze_intent (user_message : string) : M pyval :=
  generate_structured_output.

(** *** src/agents/task_decomposer.py *)

(** [f"task_{idx+1}"]. *)
Definition synthetic_id (idx : nat) : string := "task_" +:+ pretty (idx + 1)%nat.

(** The body of the loop of [decompose]: one [AgentTask] from one task
    descriptor of the decoded answer. *)
Definition build_task (user_request : string) (idx : nat) (task_data : pyval)
    : outcome AgentTask :=
  match task_data with
  | VDict d =>
      match d !! "task_type" with
      | None => Raised (KeyError "task_type")
      | Some ty =>
          match (match ty with VStr s => TaskType_of_value s | _ => None end) with
          | None => Raised (ValueError "not a valid TaskType")
          | Some ty' =>
              match d !! "description" with
              | None => Raised (KeyError "description")
              | Some desc =>
                  let input :=
                    <["user_request" := VStr user_request]>
                    (<["dependencies" := Py.get_or d "dependencies" (VList [])]>
                     (<["input_requirements" :=
                          Py.get_or d "input_requirements" (VList [])]> ∅)) in
                  match Py.as_str desc,
                        validate_int (Py.get_or d "priority" (VInt 3)) with
                  | Some desc', Some prio =>
                      Returned (mkAgentTask (synthetic_id idx) ty' desc' input prio)
                  | _, _ => Raised (ValidationError "AgentTask")
                  end
              end
          end
      end
  | _ => Raised (TypeError "task descriptor cannot be indexed by key")
  end.

Fixpoint build_tasks (user_request : string) (idx : nat) (items : list pyval)
    : outcome (list AgentTask) :=
  match items with
  | [] => Returned []
  | task_data :: rest =>
      match build_task user_request idx task_data with
      | Raised e => Raised e
      | Returned task =>
          match build_tasks user_request (S idx) rest with
          | Raised e => Raised e
          | Returned tasks => Returned (task :: tasks)
          end
      end
  end.

(** The dict [decompose] returns; the key ['questions'] is present on the
    clarification branch only. *)
Record Decomposition : Type := mkDecomposition {
  tasks : list AgentTask;
  requires_clarification : bool;
  questions : option pyval
}.

(** The prompt is built from the request and the context and handed to the
    endpoint, whose answers are given by [api_outcomes]. *)
Definition decompose (user_request : string) (context : gmap string pyval)
    : M Decomposition :=
  result <- generate_structured_output ;;
  match result with
  | VDict d =>
      items <- or_raise (Py.iter (Py.get_or d "tasks" (VList [])))
                 (TypeError "object is not iterable") ;;
      tasks <- lift_outcome (build_tasks user_request 0 items) ;;
      if Py.truthy (Py.get d "requires_clarification")
      then ret (mkDecomposition tasks true
                  (Some (Py.get_or d "clarification_questions" (VList []))))
      else ret (mkDecomposition tasks false None)
  | _ => raise (AttributeError "object has no attribute 'get'")
  end.

(** [dep not in task_ids] is false exactly for a string among the ids. *)
Definition dep_known (task_ids : list string) (dep : pyval) : bool :=
  match dep with
  | VStr s => bool_decide (s ∈ task_ids)
  | _ => false
  end.

Fixpoint validate_loop (task_ids : list string) (todo : list AgentTask)
    : outcome bool :=
  match todo with
  | [] => Returned true
  | task :: rest =>
      match Py.iter (Py.get_or (input_data task) "dependencies" (VList [])) with
      | None => Raised (TypeError "object is not iterable")
      | Some dependencies =>
          if forallb (dep_known task_ids) dependencies
          then validate_loop task_ids rest
          else Returned false
      end
  end.

Definition validate_task_sequence (tasks : list AgentTask) : outcome bool :=
  validate_loop (task_id <$> tasks) tasks.

Definition prioritize_tasks (tasks : list AgentTask) : list AgentTask :=
  sorted priority tasks.

Definition time_estimates (t : TaskType) : Z :=
  match t with
  | JOB_DESCRIPTION => 2
  | RESUME_SCREENING => 3
  | INTERVIEW_SCHEDULING => 1
  | EMAIL_COMMUNICATION => 1
  | ANALYTICS => 2
  | OFFER_GENERATION => 2
  end.

Definition _estimate_time (tasks : list AgentTask) : string :=
  let total_minutes := foldr Z.add 0 ((fun t => time_estimates (task_type t)) <$> tasks) in
  if total_minutes <? 5 then "Less than 5 minutes"
  else if total_minutes <? 15 then "5-15 minutes"
  else "15+ minutes".

(** One element of the ['tasks'] list of a ready plan: a dict with the
    four keys ['task_id'], ['type'], ['description'], ['priority']. *)
Record PlannedTask : Type := mkPlannedTask {
  p_task_id : string;
  p_type : string;
  p_description : string;
  p_priority : Z
}.

Definition planned (task : AgentTask) : PlannedTask :=
  mkPlannedTask (task_id task) (TaskType_value (task_type task))
    (description task) (priority task).

(** The dict [generate_execution_plan] returns.  ['status'] is always
    present; every other key is present in some of the three shapes only,
    and [None] is an absent key. *)
Record ExecutionPlan : Type := mkExecutionPlan {
  ep_status : string;
  ep_questions : option pyval;
  ep_error : option string;
  ep_plan : option pyval;
  ep_total_tasks : option nat;
  ep_tasks : option (list PlannedTask);
  ep_estimated_time : option string
}.

Definition generate_execution_plan (user_request : string)
    (context : gmap string pyval) : M ExecutionPlan :=
  decomposition <- decompose user_request context ;;
  if requires_clarification decomposition then
    qs <- or_raise (questions decomposition) (KeyError "questions") ;;
    ret (mkExecutionPlan "needs_clarification" (Some qs) None (Some VNone)
           None None None)
  else
    let tasks := tasks decomposition in
    valid <- lift_outcome (validate_task_sequence tasks) ;;
    if negb valid then
      ret (mkExecutionPlan "invalid_sequence" None
             (Some "Task dependencies are invalid") (Some VNone)
             None None None)
    else
      let prioritized_tasks := prioritize_tasks tasks in
      ret (mkExecutionPlan "ready" None None None
             (Some (length prioritized_tasks))
             (Some (planned <$> prioritized_tasks))
             (Some (_estimate_time prioritized_tasks))).

(** *** src/agents/orchestrator.py *)

Definition Handler : Type := gmap string pyval -> Ext -> HandlerOutcome * Ext.

(** [self.agents], the registry built by [__init__]. *)
Definition agents : list (TaskType * Handler) :=
  [ (JOB_DESCRIPTION, jd_generator_agent);
    (RESUME_SCREENING, screening_agent);
    (INTERVIEW_SCHEDULING, interview_agent) ].

(** [self.agents.get(task_type)]. *)
Definition agents_get (task_type : TaskType) : option Handler :=
  snd <$> List.find (fun kv => bool_decide (kv.1 = task_type)) agents.

(** [agent.execute(task_data)], with the invocation put on record. *)
Definition execute (agent : Handler) (tid : string)
    (task_data : gmap string pyval) : M HandlerOutcome :=
  fun st =>
    let '(o, x) := agent task_data (external st) in
    (Returned o,
     set_handler_calls (handler_calls st ++ [(tid, task_data, o)])
       (set_external x st)).

(** [f"task_{task['task_id']}_result"]. *)
Definition result_key (tid : string) : string := "task_" +:+ tid +:+ "_result".

(** [{'user_request': context.get('user_request', ''), **context}]. *)
Definition task_view (context : gmap string pyval) : gmap string pyval :=
  context ∪ {[ "user_request" := Py.get_or context "user_request" (VStr "") ]}.

Definition no_agent_result (task : PlannedTask) (task_type : TaskType)
    : gmap string pyval :=
  <["task_id" := VStr (p_task_id task)]>
  (<["success" := VBool false]>
   (<["error" := VStr ("No agent found for task type: "
                       +:+ format_TaskType task_type)]> ∅)).

Definition raised_result (task : PlannedTask) (e : exn) : gmap string pyval :=
  <["task_id" := VStr (p_task_id task)]>
  (<["success" := VBool false]>
   (<["error" := VStr (str_exn e)]> ∅)).

(** [{'task_id': ..., 'task_type': ..., **result}]. *)
Definition returned_result (task : PlannedTask) (task_type : TaskType)
    (result : gmap string pyval) : gmap string pyval :=
  result ∪ (<["task_id" := VStr (p_task_id task)]>
            (<["task_type" := VStr (TaskType_value task_type)]> ∅)).

(** The loop of [_execute_tasks].  [context] is the caller's dict, which
    the loop updates in place; its final content is returned along with
    the results. *)
Fixpoint _execute_tasks_loop (todo : list PlannedTask)
    (context : gmap string pyval) (results : list (gmap string pyval))
    : M (list (gmap string pyval) * gmap string pyval) :=
  match todo with
  | [] => ret (results, context)
  | task :: rest =>
      match TaskType_of_value (p_type task) with
      | None => raise (ValueError "not a valid TaskType")
      | Some task_type =>
          match agents_get task_type with
          | None =>
              _execute_tasks_loop rest context
                (results ++ [no_agent_result task task_type])
          | Some agent =>
              let task_data := task_view context in
              o <- execute agent (p_task_id task) task_data ;;
              match o with
              | HReturn result =>
                  _execute_tasks_loop rest
                    (<[result_key (p_task_id task) := VDict result]> context)
                    (results ++ [returned_result task task_type result])
              | HRaise e =>
                  _execute_tasks_loop rest context
                    (results ++ [raised_result task e])
              end
          end
      end
  end.

Definition _execute_tasks (tasks : list PlannedTask) (sid : string)
    (context : gmap string pyval)
    : M (list (gmap string pyval) * gmap string pyval) :=
  _execute_tasks_loop tasks context [].

Definition succeeded (r : gmap string pyval) : bool :=
  Py.truthy (Py.get r "success").

Definition important_keys : list string :=
  ["job_id"; "candidate_id"; "interview_id"; "job_description"].

(** The loop over [successful_results] of [_generate_response]. *)
Fixpoint response_loop (todo : list (gmap string pyval))
    (msgs all_next_actions : list pyval) (response_data : gmap string pyval)
    : outcome (list pyval * list pyval * gmap string pyval) :=
  match todo with
  | [] => Returned (msgs, all_next_actions, response_data)
  | result :: rest =>
      let msgs :=
        if Py.truthy (Py.get result "message")
        then msgs ++ [Py.get result "message"] else msgs in
      match (if Py.truthy (Py.get result "next_actions")
             then Py.iter (Py.get result "next_actions") else Some []) with
      | None => Raised (TypeError "object is not iterable")
      | Some extra =>
          let response_data :=
            foldl (fun acc key =>
                     match result !! key with
                     | Some v => <[key := v]> acc
                     | None => acc
                     end) response_data important_keys in
          response_loop rest msgs (all_next_actions ++ extra) response_data
      end
  end.

Definition completed_line (n : nat) : string :=
  Py.nl +:+ Py.nl +:+ "Completed " +:+ pretty n +:+ " tasks.".

(** Values that cannot be elements of a [set]. *)
Definition unhashable (v : pyval) : bool :=
  match v with VList _ | VDict _ => true | _ => false end.

Definition _generate_response (user_message : string)
    (results : list (gmap string pyval)) (intent_analysis : pyval)
    : outcome AgentResponse :=
  let successful_results := List.filter succeeded results in
  let failed_results := List.filter (fun r => negb (succeeded r)) results in
  match successful_results with
  | [] =>
      Returned (mkAgentResponse false
        "I encountered some issues processing your request:"
        (Some {[ "errors" := VList ((fun r => Py.get r "error") <$> failed_results) ]})
        None None)
  | _ =>
      match response_loop successful_results [] [] ∅ with
      | Raised e => Raised e
      | Returned (msgs, all_next_actions, response_data) =>
          match mapM Py.as_str msgs with
          | None => Raised (TypeError "sequence item: expected str instance")
          | Some texts =>
              let response_message :=
                match texts with
                | [] => "✅ Task completed successfully"
                | _ => Py.join Py.nl texts
                end in
              let response_message :=
                if (1 <? length successful_results)%nat
                then response_message +:+ completed_line (length successful_results)
                else response_message in
              let data :=
                if bool_decide (response_data = ∅) then None
                else Some response_data in
              match all_next_actions with
              | [] =>
                  Returned (mkAgentResponse true response_message data None None)
              | _ =>
                  (* [set(...)] needs hashable elements, the response model
                     a list of strings *)
                  if existsb unhashable all_next_actions
                  then Raised (TypeError "unhashable type")
                  else
                    match mapM Py.as_str all_next_actions with
                    | None => Raised (ValidationError "next_actions")
                    | Some actions =>
                        Returned (mkAgentResponse true response_message data None
                                    (Some (Py.slice_to 5 (list_set actions))))
                    end
              end
          end
      end
  end.

Definition _summarize_conversation (msgs : list ConversationMessage) : string :=
  match msgs with
  | [] => "New conversation"
  | _ =>
      Py.join " | "
        ((fun msg =>
            (if String.eqb (role msg) "user" then "User" else "Assistant")
            +:+ ": " +:+ Py.str_slice_to 100 (content msg))
         <$> Py.slice_from (-3) msgs)
  end.

(** [AgentResponse(success=True, message=..., suggestions=...)]. *)
Definition clarification_response (text : string) (questions : pyval)
    : M AgentResponse :=
  qs <- or_raise (validate_opt_str_list questions)
          (ValidationError "suggestions") ;;
  ret (mkAgentResponse true text None qs None).

Definition process_request (user_message sid : string)
    (context : option (gmap string pyval)) : M AgentResponse :=
  add_message sid "user" user_message None ;;;
  conversation_history <- get_messages sid (Some 5) ;;
  memory_context <- get_relevant_context sid user_message ;;
  let full_context :=
    <["conversation_summary" :=
        VStr (_summarize_conversation conversation_history)]>
      (memory_context ∪ default ∅ context) in
  intent_analysis <- analyze_intent user_message ;;
  intent <- match intent_analysis with
            | VDict d => ret d
            | _ => raise (AttributeError "object has no attribute 'get'")
            end ;;
  if Py.truthy (Py.get intent "requires_clarification") then
    response <- clarification_response
                  "I need some clarification to help you better:"
                  (Py.get_or intent "clarification_questions" (VList [])) ;;
    add_message sid "assistant" (message response) None ;;;
    ret response
  else
    execution_plan <- generate_execution_plan user_message full_context ;;
    if String.eqb (ep_status execution_plan) "needs_clarification" then
      qs <- or_raise (ep_questions execution_plan) (KeyError "questions") ;;
      response <- clarification_response "I need more information:" qs ;;
      add_message sid "assistant" (message response) None ;;;
      ret response
    else
      plan_tasks <- or_raise (ep_tasks execution_plan) (KeyError "tasks") ;;
      executed <- _execute_tasks plan_tasks sid full_context ;;
      let results := executed.1 in
      final_response <- lift_outcome
                          (_generate_response user_message results intent_analysis) ;;
      intent_name <- or_raise (intent !! "intent") (KeyError "intent") ;;
      store_short_term sid "last_action"
        (VDict (<["intent" := intent_name]>
                (<["results" := VList (VDict <$> results)]> ∅))) 60 ;;;
      add_message sid "assistant" (message final_response) None ;;;
      ret final_response.

(** *** Notions used to state the properties *)

(** The last [n] elements of a list. *)
Definition lastn {A} (n : nat) (l : list A) : list A :=
  drop (length l - n)%nat l.
Arguments lastn : simpl never.

(** One call of [add_message]. *)
Record AppendOp : Type := mkAppendOp {
  a_session : string;
  a_role : string;
  a_content : string;
  a_metadata : option (gmap string pyval)
}.

Definition run_appends (ops : list AppendOp) (st : State) : State :=
  foldl (fun st op =>
           (add_message (a_session op) (a_role op) (a_content op)
              (a_metadata op) st).2) st ops.

(** The ledger of a session; an absent session has no messages. *)
Definition ledger (st : State) (sid : string) : list ConversationMessage :=
  default [] (messages <$> sessions st !! sid).

(** A message without its timestamp. *)
Definition shown (m : ConversationMessage)
    : string * string * gmap string pyval :=
  (role m, content m, metadata m).

(** What the calls in [ops] append to session [sid], in order. *)
Definition appended_to (sid : string) (ops : list AppendOp)
    : list (string * string * gmap string pyval) :=
  (fun op => (a_role op, a_content op, default ∅ (a_metadata op)))
  <$> List.filter (fun op => String.eqb (a_session op) sid) ops.

(** The short-term entries of a session; an absent session has none. *)
Definition entries (st : State) (sid : string) : list MemEntry :=
  default [] (short_term_memory st !! sid).

(** The reading the next call of [datetime.utcnow()] returns. *)
Definition now (st : State) : Z := utcnow_readings st (clock_reads st).

(** A clock that never goes back. *)
Definition monotone_clock (st : State) : Prop :=
  forall i j : nat, (i <= j)%nat -> utcnow_readings st i <= utcnow_readings st j.

(** One call of [store_short_term].  In a sequence of calls, a call that
    raises leaves the state it reached, and the next call goes on from
    there. *)
Record StoreOp : Type := mkStoreOp {
  s_session : string;
  s_key : string;
  s_value : pyval;
  s_ttl : Z
}.

Definition run_stores (ops : list StoreOp) (st : State) : State :=
  foldl (fun st op =>
           (store_short_term (s_session op) (s_key op) (s_value op)
              (s_ttl op) st).2) st ops.

(** The entries the calls in [ops] write for session [sid], oldest first,
    when the first call starts at clock reading number [c].  A call whose
    expiry is in range reads the clock three times (time stamp, base of
    the expiry, sweep) and writes its entry; a call whose expiry is out
    of range raises after two readings and writes nothing. *)
Fixpoint stored_for (sid : string) (readings : nat -> Z) (c : nat)
    (ops : list StoreOp) : list MemEntry :=
  match ops with
  | [] => []
  | op :: rest =>
      match expires_after (readings (S c)) (s_ttl op) with
      | Some expires =>
          (if String.eqb (s_session op) sid
           then [mkMemEntry (s_key op) (s_value op) (readings c) expires]
           else [])
          ++ stored_for sid readings (3 + c) rest
      | None => stored_for sid readings (2 + c) rest
      end
  end.

(** A planned task whose ['type'] is the value of a member of [TaskType],
    as every task of a plan built by [generate_execution_plan] is. *)
Definition well_typed (task : PlannedTask) : Prop :=
  is_Some (TaskType_of_value (p_type task)).

(** The handler the registry holds for a planned task, if any. *)
Definition handler_of (task : PlannedTask) : option Handler :=
  TaskType_of_value (p_type task) ≫= agents_get.

Definition handled (task : PlannedTask) : bool :=
  bool_decide (is_Some (handler_of task)).

(** [r] is the entry of the result list for [task]: the failed entry of a
    task without handler, the failed entry of a task whose handler
    raised, or the handler's returned dict under the task's header. *)
Definition result_for (task : PlannedTask) (r : gmap string pyval) : Prop :=
  (exists ty, TaskType_of_value (p_type task) = Some ty
              /\ agents_get ty = None /\ r = no_agent_result task ty)
  \/ (exists e, is_Some (handler_of task) /\ r = raised_result task e)
  \/ (exists ty res, TaskType_of_value (p_type task) = Some ty
                     /\ is_Some (agents_get ty)
                     /\ r = returned_result task ty res).

(** The task id of a recorded handler invocation. *)
Definition call_id (c : string * gmap string pyval * HandlerOutcome) : string :=
  c.1.1.

(** The entry of the result list for a task of type [ty] whose handler
    did [o]. *)
Definition entry_of (task : PlannedTask) (ty : TaskType) (o : HandlerOutcome)
    : gmap string pyval :=
  match o with
  | HReturn res => returned_result task ty res
  | HRaise e => raised_result task e
  end.

(** [dispatched plan x calls results x']: the tasks of [plan] are taken
    in order, each exactly once.  A task without handler gets the
    "No agent found" entry and no invocation.  A task with a handler gets
    one invocation, on some view and on the world its predecessors left;
    what the handler did there is what is recorded, and the task's entry
    is the entry for that outcome, whatever the handlers of the other
    tasks did. *)
Inductive dispatched
  : list PlannedTask -> Ext -> list (string * gmap string pyval * HandlerOutcome)
    -> list (gmap string pyval) -> Ext -> Prop :=
| dispatched_nil x : dispatched [] x [] [] x
| dispatched_no_agent task ty rest x calls results x' :
    TaskType_of_value (p_type task) = Some ty ->
    agents_get ty = None ->
    dispatched rest x calls results x' ->
    dispatched (task :: rest) x calls (no_agent_result task ty :: results) x'
| dispatched_agent task ty agent rest x v o x1 calls results x' :
    TaskType_of_value (p_type task) = Some ty ->
    agents_get ty = Some agent ->
    agent v x = (o, x1) ->
    dispatched rest x1 calls results x' ->
    dispatched (task :: rest) x ((p_task_id task, v, o) :: calls)
      (entry_of task ty o :: results) x'.

(** The running context after the invocations [calls], started from
    [ctx]: every invocation that returned a dict has put it under the key
    of its task; an invocation that raised has put nothing. *)
Definition context_after (ctx : gmap string pyval)
    (calls : list (string * gmap string pyval * HandlerOutcome))
    : gmap string pyval :=
  foldl (fun c call =>
           match call.2 with
           | HReturn res => <[result_key (call_id call) := VDict res]> c
           | HRaise _ => c
           end) ctx calls.

(** The part of [process_request] before the intent analysis (lines 34
    to 46): the user's message goes to the ledger and the working
    context is assembled. *)
Definition gather_context (user_message sid : string)
    (context : option (gmap string pyval)) : M (gmap string pyval) :=
  add_message sid "user" user_message None ;;;
  conversation_history <- get_messages sid (Some 5) ;;
  memory_context <- get_relevant_context sid user_message ;;
  ret (<["conversation_summary" :=
           VStr (_summarize_conversation conversation_history)]>
         (memory_context ∪ default ∅ context)).

(** Some task of [tasks] names, among its dependencies, something that is
    not the id of a task of [tasks]; every dependency entry is a list. *)
Definition dependencies_of (task : AgentTask) : pyval :=
  Py.get_or (input_data task) "dependencies" (VList []).

Definition has_dangling_dependency (tasks : list AgentTask) : Prop :=
  (forall task, task ∈ tasks -> exists deps, dependencies_of task = VList deps)
  /\ exists task deps dep,
       task ∈ tasks /\ dependencies_of task = VList deps /\ dep ∈ deps
       /\ dep_known (task_id <$> tasks) dep = false.

(** The same condition as a test that can be run. *)
Definition dangling (tasks : list AgentTask) : bool :=
  forallb (fun t => match dependencies_of t with VList _ => true | _ => false end)
    tasks
  && existsb (fun t =>
                match dependencies_of t with
                | VList deps => negb (forallb (dep_known (task_id <$> tasks)) deps)
                | _ => false
                end) tasks.

(** What the handler contract promises about the two fields the response
    is synthesised from: the message is a string, the next actions, when
    present and not [None], are a list of strings. *)
Definition follows_contract (r : gmap string pyval) : Prop :=
  (exists m, r !! "message" = Some (VStr m))
  /\ (r !! "next_actions" = None \/ r !! "next_actions" = Some VNone
      \/ exists acts, r !! "next_actions" = Some (VList (VStr <$> acts))).

(** [list(set(l))] enumerates the distinct elements of [l]. *)
Definition enumerates_set (f : list string -> list string) : Prop :=
  forall l, NoDup (f l) /\ forall x, x ∈ f l <-> x ∈ l.

(** The message a successful result contributes to the response: its
    ['message'] when that is a non-empty string. *)
Definition message_of (r : gmap string pyval) : option string :=
  match r !! "message" with
  | Some (VStr m) => if String.eqb m "" then None else Some m
  | _ => None
  end.

(** The next actions a result suggests, when they are a list of strings. *)
Definition actions_of (r : gmap string pyval) : list string :=
  match r !! "next_actions" with
  | Some (VList l) => omap Py.as_str l
  | _ => []
  end.

(** The part of [process_request] from the intent analysis on (lines 48
    to 119), as a function of the working context. *)
Definition answer_request (user_message sid : string)
    (full_context : gmap string pyval) : M AgentResponse :=
  intent_analysis <- analyze_intent user_message ;;
  intent <- match intent_analysis with
            | VDict d => ret d
            | _ => raise (AttributeError "object has no attribute 'get'")
            end ;;
  if Py.truthy (Py.get intent "requires_clarification") then
    response <- clarification_response
                  "I need some clarification to help you better:"
                  (Py.get_or intent "clarification_questions" (VList [])) ;;
    add_message sid "assistant" (message response) None ;;;
    ret response
  else
    execution_plan <- generate_execution_plan user_message full_context ;;
    if String.eqb (ep_status execution_plan) "needs_clarification" then
      qs <- or_raise (ep_questions execution_plan) (KeyError "questions") ;;
      response <- clarification_response "I need more information:" qs ;;
      add_message sid "assistant" (message response) None ;;;
      ret response
    else
      plan_tasks <- or_raise (ep_tasks execution_plan) (KeyError "tasks") ;;
      executed <- _execute_tasks plan_tasks sid full_context ;;
      let results := executed.1 in
      final_response <- lift_outcome
                          (_generate_response user_message results intent_analysis) ;;
      intent_name <- or_raise (intent !! "intent") (KeyError "intent") ;;
      store_short_term sid "last_action"
        (VDict (<["intent" := intent_name]>
                (<["results" := VList (VDict <$> results)]> ∅))) 60 ;;;
      add_message sid "assistant" (message final_response) None ;;;
      ret final_response.

(** Between [st] and [st'] the endpoint has been called at most [n]
    times and no handler has been invoked. *)
Definition llm_calls_within (n : nat) (st st' : State) : Prop :=
  api_outcomes st' = api_outcomes st
  /\ (api_calls st <= api_calls st' <= api_calls st + n)%nat
  /\ handler_calls st' = handler_calls st
  /\ external st' = external st.

(** *** src/models/conversation.py, the remaining operations *)

(** [create_session]; [fresh] is the text of the identifier that
    [uuid.uuid4()] draws. *)
Definition create_session (fresh : string) : M string :=
  session <- new_ConversationState fresh ;;
  modify (fun st => set_sessions (<[fresh := session]> (sessions st)) st) ;;;
  ret fresh.

Definition update_context (sid key : string) (value : pyval) : M unit :=
  existing <- get_session sid ;;
  session <- match existing with
             | Some s => ret s
             | None => new_ConversationState sid
             end ;;
  upd <- utcnow ;;
  modify (fun st =>
    set_sessions
      (<[sid := mkConversationState (session_id session) (messages session)
                  (<[key := value]> (context session)) (active_tasks session)
                  (created_at session) upd]> (sessions st)) st).

(** [ConversationManager.get_context]. *)
Definition ConversationManager_get_context (sid : string)
    : M (gmap string pyval) :=
  session <- get_session sid ;;
  match session with
  | Some s => ret (context s)
  | None => ret ∅
  end.

Definition add_active_task (sid tid : string) : M unit :=
  session <- get_session sid ;;
  match session with
  | Some s =>
      if bool_decide (tid ∈ active_tasks s) then ret tt
      else
        modify (fun st =>
          set_sessions
            (<[sid := mkConversationState (session_id s) (messages s)
                        (context s) (active_tasks s ++ [tid])
                        (created_at s) (updated_at s)]> (sessions st)) st)
  | None => ret tt
  end.

(** [l.remove(x)] on a list that holds [x]: the first occurrence goes. *)
Fixpoint list_remove (x : string) (l : list string) : list string :=
  match l with
  | [] => []
  | y :: l' => if String.eqb y x then l' else y :: list_remove x l'
  end.

Definition remove_active_task (sid tid : string) : M unit :=
  session <- get_session sid ;;
  match session with
  | Some s =>
      if bool_decide (tid ∈ active_tasks s) then
        modify (fun st =>
          set_sessions
            (<[sid := mkConversationState (session_id s) (messages s)
                        (context s) (list_remove tid (active_tasks s))
                        (created_at s) (updated_at s)]> (sessions st)) st)
      else ret tt
  | None => ret tt
  end.

(** One line of [get_conversation_summary]; the ellipsis is appended
    whatever the length of the content. *)
Definition summary_line (msg : ConversationMessage) : string :=
  (if String.eqb (role msg) "user" then "User" else "Assistant")
  +:+ ": " +:+ Py.str_slice_to 100 (content msg) +:+ "...".

Definition get_conversation_summary (sid : string) : M string :=
  msgs <- get_messages sid None ;;
  match msgs with
  | [] => ret "No conversation history."
  | _ => ret (Py.join Py.nl (summary_line <$> Py.slice_from (-5) msgs))
  end.

(** [ConversationManager.clear_session]. *)
Definition ConversationManager_clear_session (sid : string) : M unit :=
  modify (fun st => set_sessions (delete sid (sessions st)) st).

(** [datetime.isoformat()]. *)
Variable isoformat : Z -> string.

Definition export_message (msg : ConversationMessage) : pyval :=
  VDict (<["role" := VStr (role msg)]>
         (<["content" := VStr (content msg)]>
          (<["timestamp" := VStr (isoformat (timestamp msg))]> ∅))).

Definition export_session (sid : string) : M (gmap string pyval) :=
  session <- get_session sid ;;
  match session with
  | None => ret ∅
  | Some s =>
      ret (<["session_id" := VStr (session_id s)]>
           (<["messages" := VList (export_message <$> messages s)]>
            (<["context" := VDict (context s)]>
             (<["created_at" := VStr (isoformat (created_at s))]>
              (<["updated_at" := VStr (isoformat (updated_at s))]> ∅)))))
  end.

(** *** src/services/memory_service.py, the remaining operations *)

(** [store_long_term] and [get_long_term].  No other code reads or writes
    [long_term_memory]; the dict is handed in and out. *)
Definition store_long_term (entity_id : string) (data : gmap string pyval)
    (long_term_memory : gmap string (gmap string pyval))
    : M (gmap string (gmap string pyval)) :=
  let current := default ∅ (long_term_memory !! entity_id) in
  t <- utcnow ;;
  ret (<[entity_id := <["updated_at" := VStr (isoformat t)]> (data ∪ current)]>
         long_term_memory).

Definition get_long_term (entity_id : string)
    (long_term_memory : gmap string (gmap string pyval))
    : option (gmap string pyval) :=
  long_term_memory !! entity_id.

(** [MemoryService.get_context] with its optional context type; an entry
    of the cache is a dict of two keys and so is never false. *)
Definition MemoryService_get_context (sid : string)
    (context_type : option string) : M pyval :=
  cache <- gets context_cache ;;
  match cache !! sid with
  | None => ret VNone
  | Some c =>
      if keyed context_type then
        match c !! default "" context_type with
        | Some ctx => ret (VDict (ctx_data ctx))
        | None => ret VNone
        end
      else ret (VDict ((fun e => VDict (ctx_data e)) <$> c))
  end.

(** [MemoryService.clear_session]. *)
Definition MemoryService_clear_session (sid : string) : M unit :=
  modify (fun st =>
    set_short_term_memory (delete sid (short_term_memory st)) st) ;;;
  modify (fun st => set_context_cache (delete sid (context_cache st)) st).

(** *** src/agents/orchestrator.py, [get_status] *)

Record Status : Type := mkStatus {
  status_session_id : string;
  status_context : option (gmap string pyval);
  status_recent_actions : list pyval;
  status_conversation_length : nat
}.

Definition get_status (sid : string) : M Status :=
  context <- get_context sid ;;
  recent_actions <- get_short_term sid None ;;
  recent <-
    (if Py.truthy recent_actions then
       match recent_actions with
       | VList l => ret (Py.slice_from (-5) l)
       | _ => raise (TypeError "object is not subscriptable")
       end
     else ret []) ;;
  msgs <- get_messages sid None ;;
  ret (mkStatus sid context recent (length msgs)).

(** *** Further notions used to state the properties *)

(** The context and the active tasks of a session; an absent session has
    none. *)
Definition context_of (st : State) (sid : string) : gmap string pyval :=
  default ∅ (context <$> sessions st !! sid).

Definition active_of (st : State) (sid : string) : list string :=
  default [] (active_tasks <$> sessions st !! sid).

(** The data the cache holds for a session under a context type. *)
Definition cached (st : State) (sid ty : string) : option (gmap string pyval) :=
  ctx_data <$> (context_cache st !! sid ≫= fun c => c !! ty).

(** The entries of a session that a sweep at the next clock reading
    keeps. *)
Definition live_entries (st : State) (sid : string) : list MemEntry :=
  filter (fun e => now st < entry_expires_at e) (entries st sid).

(** The endpoint fails [k] times in a row from the next call on. *)
Definition fails_next (k : nat) (st : State) : Prop :=
  forall i, (i < k)%nat ->
    exists msg, api_outcomes st (api_calls st + i)%nat = ApiError msg.

(** The exception [generate_response] raises when its last attempt fails
    with [error_msg]. *)
Definition last_attempt_error (error_msg : string) : exn :=
  if Py.contains "429" error_msg || Py.contains "RESOURCE_EXHAUSTED" error_msg
  then Exception
         ("Rate limit exceeded. Your Gemini API quota is exhausted. "
          +:+ "Please wait ~" +:+ retry_seconds_text error_msg
          +:+ "s or check your quota at: "
          +:+ "https://aistudio.google.com/app/apikey")
  else Exception ("Error generating response: " +:+ error_msg).

(** Every dependency entry of the tasks is a list. *)
Definition dependencies_listed (tasks : list AgentTask) : Prop :=
  forall task, task ∈ tasks -> exists deps, dependencies_of task = VList deps.

(** Every dependency of every task is the id of a task of the list. *)
Definition dependencies_known (tasks : list AgentTask) : Prop :=
  forall task deps dep,
    task ∈ tasks -> dependencies_of task = VList deps -> dep ∈ deps ->
    dep_known (task_id <$> tasks) dep = true.

(** Whitespace, for [str.strip]. *)
Definition blank (s : string) : Prop :=
  Forall (fun c => Py.isspace c = true) (Py.chars s).

(** A text that [str.strip] leaves as it is: it neither starts nor ends
    with whitespace. *)
Definition trimmed (s : string) : Prop :=
  match Py.chars s with
  | [] => True
  | c :: _ => Py.isspace c = false
  end
  /\ match last (Py.chars s) with
     | None => True
     | Some c => Py.isspace c = false
     end.

(** An intent analysis that asks for clarification, and a decoder that
    knows it besides the documents of [Fixture.json_loads]. *)
Definition clarifying_doc : gmap string pyval :=
  <["intent" := VStr "general"]>
  (<["requires_clarification" := VBool true]>
   (<["clarification_questions" :=
        VList [VStr "Which position is the posting for?"]]> ∅)).

Definition clarifying_json_loads (s : string) : string + pyval :=
  if String.eqb s "clarify" then inr (VDict clarifying_doc)
  else Fixture.json_loads s.

(** The conversation manager holds in [st'] what it holds in [st]: the
    same sessions under the same history limit. *)
Definition conversations_kept (st st' : State) : Prop :=
  sessions st' = sessions st /\ max_history st' = max_history st.

(** ** Properties *)

(** *** Running monadic code *)

Lemma bind_returned {A B} (c : M A) (k : A -> M B) st a st' :
  c st = (Returned a, st') -> bind c k st = k a st'.
Proof. intros H. unfold bind. rewrite H. reflexivity. Qed.

Lemma bind_raised {A B} (c : M A) (k : A -> M B) st e st' :
  c st = (Raised e, st') -> bind c k st = (Raised e, st').
Proof. intros H. unfold bind. rewrite H. reflexivity. Qed.

Lemma returned_eta {A} (d : A) (o : outcome A) :
  is_returned o = true -> o = Returned (returned_or d o).
Proof. destruct o; [reflexivity|discriminate]. Qed.

Lemma run_eta {A} (d : A) (c : M A) st :
  is_returned (c st).1 = true ->
  c st = (Returned (returned_or d (c st).1), (c st).2).
Proof. destruct (c st) as [[a|e] st']; [reflexivity|discriminate]. Qed.

Lemma dict_eta (v : pyval) : is_dict v = true -> v = VDict (dict_or_empty v).
Proof. destruct v; try discriminate. reflexivity. Qed.

Lemma lookup_eta {A} (d : A) (o : option A) :
  bool_decide (is_Some o) = true -> o = Some (default d o).
Proof. destruct o; [reflexivity|]. intros H%bool_decide_eq_true. by destruct H. Qed.

Lemma list3_eta {A} (d : A) (l : list A) :
  length l = 3%nat -> l = [nth 0 l d; nth 1 l d; nth 2 l d].
Proof. destruct l as [|a [|b [|c [|? ?]]]]; try discriminate. reflexivity. Qed.

(** *** Python slices *)

Lemma slice_from_neg_lastn {A} (n : Z) (l : list A) :
  0 < n -> Py.slice_from (- n) l = lastn (Z.to_nat n) l.
Proof.
  intros Hn. unfold Py.slice_from, lastn.
  destruct (Z.ltb_spec (- n) 0) as [_|]; [|lia].
  f_equal. lia.
Qed.

Lemma lastn_all {A} (n : nat) (l : list A) :
  (length l <= n)%nat -> lastn n l = l.
Proof.
  intros H. unfold lastn. replace (length l - n)%nat with 0%nat by lia.
  reflexivity.
Qed.

Lemma length_lastn {A} (n : nat) (l : list A) :
  length (lastn n l) = Nat.min n (length l).
Proof. unfold lastn. rewrite length_drop. lia. Qed.

Lemma lastn_app_lastn {A} (n : nat) (l r : list A) :
  lastn n (lastn n l ++ r) = lastn n (l ++ r).
Proof.
  destruct (Nat.le_gt_cases (length l) n) as [Hle|Hgt].
  - rewrite (lastn_all n l) by exact Hle. reflexivity.
  - unfold lastn at 1 3. rewrite !length_app.
    fold (lastn n l). rewrite length_lastn.
    replace (Nat.min n (length l) + length r - n)%nat with (length r) by lia.
    replace (length l + length r - n)%nat
      with ((length l - n) + length r)%nat by lia.
    rewrite <- drop_drop. unfold lastn.
    rewrite (drop_app_le l r (length l - n)) by lia. reflexivity.
Qed.

Lemma fmap_lastn {A B} (f : A -> B) (n : nat) (l : list A) :
  f <$> lastn n l = lastn n (f <$> l).
Proof. unfold lastn. rewrite fmap_drop, length_fmap. reflexivity. Qed.

(** *** The conversation ledger *)

(** What one call of [add_message] does to the ledgers. *)
Lemma add_message_spec st sid r c md :
  0 < max_history st ->
  let res := add_message sid r c md st in
  res.1 = Returned tt
  /\ max_history res.2 = max_history st
  /\ is_Some (sessions res.2 !! sid)
  /\ shown <$> ledger res.2 sid
     = lastn (Z.to_nat (max_history st))
         ((shown <$> ledger st sid) ++ [(r, c, default ∅ md)])
  /\ (forall sid', sid' <> sid -> sessions res.2 !! sid' = sessions st !! sid').
Proof.
  intros Hn. unfold add_message, bind, get_session, gets, ledger.
  destruct (sessions st !! sid) as [s|] eqn:Hs; cbn.
  - rewrite lookup_insert_eq. cbn.
    repeat split; [eauto | | intros; by rewrite lookup_insert_ne].
    destruct (Z.gtb_spec (Z.of_nat (length (messages s ++
      [mkConversationMessage r c (utcnow_readings st (clock_reads st))
         (default ∅ md)]))) (max_history st)) as [Hgt|Hle].
    + rewrite slice_from_neg_lastn by exact Hn.
      rewrite fmap_lastn, fmap_app. reflexivity.
    + rewrite fmap_app. cbn. rewrite lastn_all; [reflexivity|].
      rewrite length_app, length_fmap. rewrite length_app in Hle. cbn in *. lia.
  - rewrite lookup_insert_eq. cbn.
    repeat split; [eauto | | intros; by rewrite lookup_insert_ne].
    change (Z.of_nat 1) with 1.
    destruct (Z.gtb_spec 1 (max_history st)); [lia|].
    cbn. rewrite lastn_all; [reflexivity | cbn; lia].
Qed.

Lemma appended_to_cons sid op ops :
  appended_to sid (op :: ops)
  = if String.eqb (a_session op) sid
    then (a_role op, a_content op, default ∅ (a_metadata op)) :: appended_to sid ops
    else appended_to sid ops.
Proof.
  unfold appended_to. cbn. destruct (String.eqb (a_session op) sid); reflexivity.
Qed.

Lemma run_appends_cons op ops st :
  run_appends (op :: ops) st
  = run_appends ops (add_message (a_session op) (a_role op) (a_content op)
                       (a_metadata op) st).2.
Proof. reflexivity. Qed.

(** Calls that address other sessions leave a session as it is. *)
Lemma run_appends_untouched ops : forall st sid,
  0 < max_history st ->
  appended_to sid ops = [] ->
  sessions (run_appends ops st) !! sid = sessions st !! sid.
Proof.
  induction ops as [|op ops IH]; intros st sid Hn Hnone; [reflexivity|].
  rewrite appended_to_cons in Hnone.
  destruct (String.eqb (a_session op) sid) eqn:Hne; [discriminate|].
  apply String.eqb_neq in Hne.
  destruct (add_message_spec st (a_session op) (a_role op) (a_content op)
              (a_metadata op) Hn) as (_ & Hmax & _ & _ & Hother).
  rewrite run_appends_cons, IH; [| lia | exact Hnone].
  apply Hother. congruence.
Qed.

Lemma run_appends_ledger ops : forall st sid,
  0 < max_history st ->
  max_history (run_appends ops st) = max_history st
  /\ shown <$> ledger (run_appends ops st) sid
     = match appended_to sid ops with
       | [] => shown <$> ledger st sid
       | added => lastn (Z.to_nat (max_history st))
                    ((shown <$> ledger st sid) ++ added)
       end
  /\ (appended_to sid ops <> [] -> is_Some (sessions (run_appends ops st) !! sid)).
Proof.
  induction ops as [|op ops IH]; intros st sid Hn.
  - cbn. repeat split; congruence.
  - destruct (add_message_spec st (a_session op) (a_role op) (a_content op)
                (a_metadata op) Hn) as (_ & Hmax & Hsome & Hled & Hother).
    rewrite run_appends_cons, appended_to_cons.
    set (st1 := (add_message (a_session op) (a_role op) (a_content op)
                   (a_metadata op) st).2) in *.
    assert (Hn1 : 0 < max_history st1) by lia.
    destruct (IH st1 sid Hn1) as (IHmax & IHled & IHsome).
    rewrite IHmax, Hmax. split; [reflexivity|].
    destruct (String.eqb_spec (a_session op) sid) as [Heq|Hne].
    + subst sid. rewrite IHled, Hled, Hmax.
      destruct (appended_to (a_session op) ops) as [|x rest] eqn:Hrest.
      * split; [reflexivity|]. intros _.
        rewrite (run_appends_untouched ops st1 _ Hn1 Hrest). exact Hsome.
      * rewrite lastn_app_lastn, <- app_assoc.
        split; [reflexivity|]. intros _. apply IHsome. discriminate.
    + assert (Hsame : ledger st1 sid = ledger st sid).
      { unfold ledger. rewrite Hother by congruence. reflexivity. }
      rewrite IHled, Hsame, Hmax. split; [reflexivity|exact IHsome].
Qed.

(** C6.  After any sequence of [add_message] calls of which at least one
    addresses session [sid], the session exists (it is created by the
    first call when it was absent), its ledger consists of the last
    [max_history] messages of the old ledger followed by the appended
    messages in order, so that the oldest messages are the ones dropped,
    and the ledger is never longer than [max_history]. *)
Theorem ledger_bounded_fifo (st : State) (ops : list AppendOp) (sid : string) :
  0 < max_history st ->
  appended_to sid ops <> [] ->
  let st' := run_appends ops st in
  is_Some (sessions st' !! sid)
  /\ shown <$> ledger st' sid
     = lastn (Z.to_nat (max_history st))
         ((shown <$> ledger st sid) ++ appended_to sid ops)
  /\ Z.of_nat (length (ledger st' sid)) <= max_history st.
Proof.
  intros Hn Hadd st'.
  destruct (run_appends_ledger ops st sid Hn) as (_ & Hled & Hsome).
  fold st' in Hled, Hsome.
  assert (Heq : shown <$> ledger st' sid
                = lastn (Z.to_nat (max_history st))
                    ((shown <$> ledger st sid) ++ appended_to sid ops)).
  { rewrite Hled. destruct (appended_to sid ops); [congruence|reflexivity]. }
  repeat split; [by apply Hsome | exact Heq |].
  apply (f_equal length) in Heq.
  rewrite length_fmap, length_lastn in Heq. lia.
Qed.

(** *** The short-term memory store *)

Lemma cleanup_spec st sid es :
  short_term_memory st !! sid = Some es ->
  _cleanup_expired sid st
  = (Returned tt,
     set_short_term_memory
       (<[sid := filter (fun e => now st < entry_expires_at e) es]>
          (short_term_memory st))
       (set_clock_reads (S (clock_reads st)) st)).
Proof.
  intros H. unfold _cleanup_expired, bind, gets. rewrite H. reflexivity.
Qed.

Lemma cleanup_absent st sid :
  short_term_memory st !! sid = None ->
  _cleanup_expired sid st = (Returned tt, st).
Proof.
  intros H. unfold _cleanup_expired, bind, gets. rewrite H. reflexivity.
Qed.

Lemma get_short_term_present st sid key es :
  short_term_memory st !! sid = Some es ->
  let live := filter (fun e => now st < entry_expires_at e) es in
  get_short_term sid key st
  = (Returned (if keyed key then find_latest (default "" key) live
               else VList (entry_view <$> live)),
     set_short_term_memory (<[sid := live]> (short_term_memory st))
       (set_clock_reads (S (clock_reads st)) st)).
Proof.
  intros H live. unfold get_short_term.
  unfold bind at 1. unfold gets at 1. rewrite H.
  rewrite (bind_returned _ _ _ _ _ (cleanup_spec st sid es H)).
  unfold bind, gets. cbn. rewrite lookup_insert_eq. cbn.
  fold live. fold (keyed key). destruct (keyed key); reflexivity.
Qed.

Lemma get_short_term_absent st sid key :
  short_term_memory st !! sid = None ->
  get_short_term sid key st
  = (Returned (if keyed key then VNone else VList []), st).
Proof.
  intros H. unfold get_short_term, bind, gets. rewrite H.
  fold (keyed key). reflexivity.
Qed.

Lemma expires_after_Some base ttl expires :
  expires_after base ttl = Some expires ->
  timedelta_minutes ttl = Some (ttl * minute)
  /\ datetime_add base (ttl * minute) = Some expires
  /\ expires = base + ttl * minute
  /\ 0 <= expires <= datetime_max.
Proof.
  unfold expires_after, timedelta_minutes.
  destruct ((-999999999 <=? ttl / 1440) && (ttl / 1440 <=? 999999999));
    [|discriminate].
  cbn [mbind option_bind]. intros H. split; [reflexivity|]. split; [exact H|].
  unfold datetime_add in H.
  destruct (Z.leb_spec 0 (base + ttl * minute));
    destruct (Z.leb_spec (base + ttl * minute) datetime_max);
    cbn in H; try discriminate.
  injection H as <-. lia.
Qed.

Lemma expires_after_None base ttl :
  expires_after base ttl = None ->
  timedelta_minutes ttl = None
  \/ (timedelta_minutes ttl = Some (ttl * minute)
      /\ datetime_add base (ttl * minute) = None).
Proof.
  unfold expires_after, timedelta_minutes.
  destruct ((-999999999 <=? ttl / 1440) && (ttl / 1440 <=? 999999999));
    [|by left].
  cbn [mbind option_bind]. intros H. right. split; [reflexivity|exact H].
Qed.

(** A call of [store_short_term] whose expiry is in range: the entry is
    appended and the session swept. *)
Lemma store_short_term_spec st sid k v ttl expires :
  let c := clock_reads st in
  expires_after (utcnow_readings st (S c)) ttl = Some expires ->
  let entry := mkMemEntry k v (utcnow_readings st c) expires in
  store_short_term sid k v ttl st
  = (Returned tt,
     set_short_term_memory
       (<[sid := filter (fun e => utcnow_readings st (S (S c)) < entry_expires_at e)
                   (entries st sid ++ [entry])]> (short_term_memory st))
       (set_clock_reads (3 + c) st)).
Proof.
  intros c Hexp entry.
  destruct (expires_after_Some _ _ _ Hexp) as (Hdelta & Hadd & _ & _).
  unfold store_short_term, entries.
  unfold bind, gets, utcnow, modify, _cleanup_expired. cbn.
  rewrite Hdelta. cbn. fold c. rewrite Hadd. cbn.
  rewrite lookup_insert_eq. cbn. unfold now, modify. cbn.
  unfold set_short_term_memory. cbn.
  rewrite !insert_insert_eq. reflexivity.
Qed.

(** A call of [store_short_term] whose expiry is out of range: it raises
    after two clock readings, with the session's list created if it was
    not there and nothing else changed. *)
Lemma store_short_term_raises st sid k v ttl :
  expires_after (utcnow_readings st (S (clock_reads st))) ttl = None ->
  exists msg,
    store_short_term sid k v ttl st
    = (Raised (OverflowError msg),
       set_short_term_memory (<[sid := entries st sid]> (short_term_memory st))
         (set_clock_reads (2 + clock_reads st) st)).
Proof.
  intros Hexp. unfold store_short_term, entries.
  unfold bind, gets, utcnow, modify. cbn.
  destruct (expires_after_None _ _ Hexp) as [Hdelta|[Hdelta Hadd]].
  - rewrite Hdelta. cbn. eexists. reflexivity.
  - rewrite Hdelta. cbn. rewrite Hadd. cbn. eexists. reflexivity.
Qed.

(** Whether and how a call of [store_short_term] ends is settled by the
    expiry alone. *)
Lemma store_short_term_outcome st sid k v ttl :
  match expires_after (utcnow_readings st (S (clock_reads st))) ttl with
  | Some _ => (store_short_term sid k v ttl st).1 = Returned tt
  | None => exists msg,
      (store_short_term sid k v ttl st).1 = Raised (OverflowError msg)
  end.
Proof.
  destruct (expires_after _ ttl) as [expires|] eqn:Hexp.
  - by rewrite (store_short_term_spec st sid k v ttl expires Hexp).
  - destruct (store_short_term_raises st sid k v ttl Hexp) as [msg ->]. eauto.
Qed.

Lemma find_skip {A} (f : A -> bool) (l r : list A) :
  (forall x, x ∈ l -> f x = false) -> List.find f (l ++ r) = List.find f r.
Proof.
  induction l as [|x l IH]; intros H; [reflexivity|]. cbn.
  rewrite (H x) by (left). apply IH. intros y Hy. apply H. by right.
Qed.

Lemma find_latest_hit k l1 e l2 :
  entry_key e = k ->
  (forall e', e' ∈ l2 -> entry_key e' <> k) ->
  find_latest k (l1 ++ e :: l2) = entry_value e.
Proof.
  intros Hk Hlater. unfold find_latest.
  rewrite rev_app_distr. cbn. rewrite <- app_assoc. rewrite find_skip.
  - cbn. rewrite Hk, String.eqb_refl. reflexivity.
  - intros x Hx. apply String.eqb_neq. apply Hlater.
    apply list_elem_of_In, in_rev, list_elem_of_In in Hx. exact Hx.
Qed.

Lemma find_latest_miss k l :
  (forall e, e ∈ l -> entry_key e <> k) -> find_latest k l = VNone.
Proof.
  intros H. unfold find_latest.
  rewrite <- (app_nil_r (rev l)), find_skip; [reflexivity|].
  intros x Hx. apply String.eqb_neq. apply H.
  apply list_elem_of_In, in_rev, list_elem_of_In in Hx. exact Hx.
Qed.

Lemma entries_insert (st0 : State) (m : gmap string (list MemEntry)) sid sid' l :
  entries (set_short_term_memory (<[sid := l]> m) st0) sid'
  = if decide (sid = sid') then l else default [] (m !! sid').
Proof.
  unfold entries. cbn.
  destruct (decide (sid = sid')) as [->|Hne];
    [by rewrite lookup_insert_eq | by rewrite lookup_insert_ne].
Qed.

Lemma not_live_not_kept (t : Z) (l : list MemEntry) (e : MemEntry) :
  entry_expires_at e <= t ->
  e ∉ filter (fun x => t < entry_expires_at x) l.
Proof. intros H Hin. apply list_elem_of_filter in Hin as [Hlt _]. lia. Qed.

(** C7.  An entry of a session whose expiry time has passed is absent
    from every later read: the listing is built from the unexpired
    entries only, a keyed read is answered from the unexpired entries
    only and is [None] when every entry under that key has expired.  The
    entry is dropped from the store by the next read for its session and
    by the next write for its session that is carried out; a write that
    raises (its own expiry is out of range) stores and sweeps nothing.
    Reads and writes for other sessions leave the entry stored. *)
Theorem expired_entry_absent (st : State) (sid : string)
    (es : list MemEntry) (e : MemEntry) :
  short_term_memory st !! sid = Some es ->
  e ∈ es ->
  monotone_clock st ->
  entry_expires_at e <= now st ->
  let live := filter (fun x => now st < entry_expires_at x) es in
  (e ∉ live)
  /\ (get_short_term sid None st).1 = Returned (VList (entry_view <$> live))
  /\ (forall k, k <> "" ->
        (get_short_term sid (Some k) st).1 = Returned (find_latest k live))
  /\ (forall k, k <> "" ->
        (forall e', e' ∈ es -> entry_key e' = k -> entry_expires_at e' <= now st) ->
        (get_short_term sid (Some k) st).1 = Returned VNone)
  /\ (forall key, entries (get_short_term sid key st).2 sid = live)
  /\ (forall k v ttl,
        (store_short_term sid k v ttl st).1 = Returned tt ->
        e ∉ entries (store_short_term sid k v ttl st).2 sid)
  /\ (forall k v ttl err,
        (store_short_term sid k v ttl st).1 = Raised err ->
        entries (store_short_term sid k v ttl st).2 sid = es)
  /\ (forall sid' key, sid' <> sid ->
        short_term_memory (get_short_term sid' key st).2 !! sid = Some es)
  /\ (forall sid' k v ttl, sid' <> sid ->
        short_term_memory (store_short_term sid' k v ttl st).2 !! sid = Some es).
Proof.
  intros Hes Hin Hmono Hexp live.
  assert (Hkeyed : forall k, k <> "" -> keyed (Some k) = true).
  { intros k Hk. cbn. apply String.eqb_neq in Hk. by rewrite Hk. }
  split; [by apply not_live_not_kept|].
  split; [by rewrite (get_short_term_present st sid None es Hes)|].
  split.
  { intros k Hk. rewrite (get_short_term_present st sid (Some k) es Hes).
    cbn [fst]. by rewrite (Hkeyed k Hk). }
  split.
  { intros k Hk Hall. rewrite (get_short_term_present st sid (Some k) es Hes).
    cbn [fst]. rewrite (Hkeyed k Hk). cbn [default]. f_equal.
    apply find_latest_miss. intros e' He' Hkey.
    apply list_elem_of_filter in He' as [Hlt He'].
    specialize (Hall e' He' Hkey). lia. }
  split.
  { intros key. rewrite (get_short_term_present st sid key es Hes). cbn [snd].
    unfold entries. cbn. by rewrite lookup_insert_eq. }
  split.
  { intros k v ttl.
    destruct (expires_after (utcnow_readings st (S (clock_reads st))) ttl)
      as [expires|] eqn:Hrange.
    - rewrite (store_short_term_spec st sid k v ttl expires Hrange). cbn [snd].
      intros _. unfold entries at 1. cbn. rewrite lookup_insert_eq. cbn.
      apply not_live_not_kept.
      specialize (Hmono (clock_reads st) (S (S (clock_reads st)))).
      unfold now in Hexp. lia.
    - destruct (store_short_term_raises st sid k v ttl Hrange) as [msg ->].
      discriminate. }
  split.
  { intros k v ttl err.
    destruct (expires_after (utcnow_readings st (S (clock_reads st))) ttl)
      as [expires|] eqn:Hrange.
    - rewrite (store_short_term_spec st sid k v ttl expires Hrange).
      discriminate.
    - destruct (store_short_term_raises st sid k v ttl Hrange) as [msg ->].
      intros _. cbn [snd]. rewrite entries_insert.
      rewrite decide_True by reflexivity. unfold entries. by rewrite Hes. }
  split.
  { intros sid' key Hne.
    destruct (short_term_memory st !! sid') as [es'|] eqn:Hes'.
    - rewrite (get_short_term_present st sid' key es' Hes'). cbn.
      by rewrite lookup_insert_ne.
    - by rewrite (get_short_term_absent st sid' key Hes'). }
  intros sid' k v ttl Hne.
  destruct (expires_after (utcnow_readings st (S (clock_reads st))) ttl)
    as [expires|] eqn:Hrange.
  - rewrite (store_short_term_spec st sid' k v ttl expires Hrange). cbn.
    by rewrite lookup_insert_ne.
  - destruct (store_short_term_raises st sid' k v ttl Hrange) as [msg ->]. cbn.
    by rewrite lookup_insert_ne.
Qed.

Lemma filter_live_mono (t t' : Z) (l : list MemEntry) :
  t <= t' ->
  filter (fun e => t' < entry_expires_at e) (filter (fun e => t < entry_expires_at e) l)
  = filter (fun e => t' < entry_expires_at e) l.
Proof.
  intros H. induction l as [|x l IH]; [reflexivity|].
  rewrite !filter_cons. repeat case_decide; rewrite ?filter_cons;
    repeat case_decide; try lia; rewrite ?IH; reflexivity.
Qed.

Lemma run_stores_cons op ops st :
  run_stores (op :: ops) st
  = run_stores ops (store_short_term (s_session op) (s_key op) (s_value op)
                      (s_ttl op) st).2.
Proof. reflexivity. Qed.

(** The store after a sequence of writes: what a session holds is what
    has been written for it, less the entries a sweep has found expired. *)
Lemma run_stores_spec sid ops : forall st L t,
  monotone_clock st ->
  t <= now st ->
  entries st sid = filter (fun e => t < entry_expires_at e) L ->
  let st' := run_stores ops st in
  utcnow_readings st' = utcnow_readings st
  /\ exists t', t' <= now st'
     /\ entries st' sid
        = filter (fun e => t' < entry_expires_at e)
            (L ++ stored_for sid (utcnow_readings st) (clock_reads st) ops).
Proof.
  induction ops as [|op ops IH]; intros st L t Hmono Ht HL.
  - cbn. split; [reflexivity|]. exists t. rewrite app_nil_r. auto.
  - cbn zeta. rewrite run_stores_cons. cbn [stored_for].
    set (st1 := (store_short_term (s_session op) (s_key op) (s_value op)
                   (s_ttl op) st).2).
    destruct (expires_after (utcnow_readings st (S (clock_reads st))) (s_ttl op))
      as [expires|] eqn:Hrange.
    + pose proof (store_short_term_spec st (s_session op) (s_key op)
                    (s_value op) (s_ttl op) expires Hrange) as Hstep.
      cbn zeta in Hstep.
      pose proof (f_equal snd Hstep) as Hst1. cbn [snd] in Hst1. fold st1 in Hst1.
      assert (HR : utcnow_readings st1 = utcnow_readings st) by (by rewrite Hst1).
      assert (Hc : clock_reads st1 = (3 + clock_reads st)%nat) by (by rewrite Hst1).
      assert (Hmono1 : monotone_clock st1).
      { unfold monotone_clock. rewrite HR. exact Hmono. }
      set (t1 := utcnow_readings st (S (S (clock_reads st)))).
      assert (Ht1 : t <= t1).
      { unfold now in Ht.
        specialize (Hmono (clock_reads st) (S (S (clock_reads st)))).
        unfold t1. lia. }
      assert (Ht1' : t1 <= now st1).
      { unfold now. rewrite HR, Hc. apply Hmono. lia. }
      destruct (String.eqb_spec (s_session op) sid) as [Heq|Hne].
      * assert (HL1 : entries st1 sid
                      = filter (fun e => t1 < entry_expires_at e)
                          (L ++ [mkMemEntry (s_key op) (s_value op)
                                   (utcnow_readings st (clock_reads st))
                                   expires])).
        { rewrite Hst1, entries_insert, Heq. rewrite decide_True by reflexivity.
          rewrite HL, !filter_app, filter_live_mono by exact Ht1. reflexivity. }
        destruct (IH st1 _ t1 Hmono1 Ht1' HL1) as (HR' & t' & Ht' & Hent).
        split; [congruence|]. exists t'. split; [exact Ht'|].
        rewrite Hent, HR, Hc, <- app_assoc. reflexivity.
      * assert (HL1 : entries st1 sid = filter (fun e => t < entry_expires_at e) L).
        { rewrite Hst1, entries_insert. rewrite decide_False by exact Hne.
          exact HL. }
        assert (Htn : t <= now st1) by lia.
        destruct (IH st1 L t Hmono1 Htn HL1) as (HR' & t' & Ht' & Hent).
        split; [congruence|]. exists t'. split; [exact Ht'|].
        rewrite Hent, HR, Hc. reflexivity.
    + destruct (store_short_term_raises st (s_session op) (s_key op)
                  (s_value op) (s_ttl op) Hrange) as [msg Hstep].
      pose proof (f_equal snd Hstep) as Hst1. cbn [snd] in Hst1. fold st1 in Hst1.
      assert (HR : utcnow_readings st1 = utcnow_readings st) by (by rewrite Hst1).
      assert (Hc : clock_reads st1 = (2 + clock_reads st)%nat) by (by rewrite Hst1).
      assert (Hmono1 : monotone_clock st1).
      { unfold monotone_clock. rewrite HR. exact Hmono. }
      assert (Htn : t <= now st1).
      { unfold now in *. rewrite HR, Hc.
        specialize (Hmono (clock_reads st) (2 + clock_reads st)%nat). lia. }
      assert (HL1 : entries st1 sid = filter (fun e => t < entry_expires_at e) L).
      { rewrite Hst1, entries_insert.
        destruct (decide (s_session op = sid)) as [<-|_]; exact HL. }
      destruct (IH st1 L t Hmono1 Htn HL1) as (HR' & t' & Ht' & Hent).
      split; [congruence|]. exists t'. split; [exact Ht'|].
      rewrite Hent, HR, Hc. reflexivity.
Qed.

(** C10.  After any sequence of [store_short_term] calls, on a session
    that did not exist before and with a clock that never goes back, a
    read with a non-empty key returns the value of the entry stored last
    among the unexpired entries of the session with that key (a later
    write shadows the earlier ones), and [None] when the session has no
    unexpired entry with that key.  The entries stored are those of the
    calls that were carried out: a call whose expiry is out of range
    raises and stores nothing, whatever its key. *)
Theorem latest_unexpired_value (st : State) (ops : list StoreOp)
    (sid k : string) :
  monotone_clock st ->
  short_term_memory st !! sid = None ->
  k <> "" ->
  let st' := run_stores ops st in
  let live := filter (fun e => now st' < entry_expires_at e)
                (stored_for sid (utcnow_readings st) (clock_reads st) ops) in
  (get_short_term sid (Some k) st').1 = Returned (find_latest k live)
  /\ (forall l1 e l2,
        live = l1 ++ e :: l2 -> entry_key e = k ->
        (forall e', e' ∈ l2 -> entry_key e' <> k) ->
        (get_short_term sid (Some k) st').1 = Returned (entry_value e))
  /\ ((forall e, e ∈ live -> entry_key e <> k) ->
      (get_short_term sid (Some k) st').1 = Returned VNone)
  /\ (exists t, t <= now st'
       /\ entries st' sid
          = filter (fun e => t < entry_expires_at e)
              (stored_for sid (utcnow_readings st) (clock_reads st) ops)).
Proof.
  intros Hmono Habs Hk st' live.
  assert (H0 : entries st sid
               = filter (fun e => now st < entry_expires_at e) []).
  { unfold entries. rewrite Habs. reflexivity. }
  destruct (run_stores_spec sid ops st [] (now st) Hmono (Z.le_refl _) H0)
    as (HR & t' & Ht' & Hent).
  fold st' in HR, Ht', Hent. cbn [app] in Hent.
  assert (Hread : (get_short_term sid (Some k) st').1 = Returned (find_latest k live)).
  {
    assert (Hkeyed : keyed (Some k) = true).
    { cbn. apply String.eqb_neq in Hk. by rewrite Hk. }
    assert (Hlive : filter (fun e => now st' < entry_expires_at e) (entries st' sid)
                    = live).
    { rewrite Hent. apply filter_live_mono. exact Ht'. }
    destruct (short_term_memory st' !! sid) as [es|] eqn:Hes.
    - rewrite (get_short_term_present st' sid (Some k) es Hes). cbn [fst].
      rewrite Hkeyed. cbn [default]. do 2 f_equal.
      unfold entries in Hlive. rewrite Hes in Hlive. exact Hlive.
    - rewrite (get_short_term_absent st' sid (Some k) Hes). cbn [fst].
      rewrite Hkeyed. f_equal.
      unfold entries in Hlive. rewrite Hes in Hlive. cbn in Hlive.
      rewrite <- Hlive. reflexivity. }
  split; [exact Hread|]. split; [|split].
  - intros l1 e l2 Hsplit Hkey Hlater. rewrite Hread, Hsplit. f_equal.
    by apply find_latest_hit.
  - intros Hnone. rewrite Hread. f_equal. by apply find_latest_miss.
  - exists t'. split; [exact Ht'|exact Hent].
Qed.

(** *** Stable sorting by priority *)

Lemma insert_sorted_perm {A} (key : A -> Z) x l :
  Permutation (insert_sorted key x l) (x :: l).
Proof.
  induction l as [|y l IH]; cbn; [reflexivity|].
  destruct (key x <=? key y); [reflexivity|].
  rewrite IH. apply perm_swap.
Qed.

Lemma sorted_perm {A} (key : A -> Z) l : Permutation (sorted key l) l.
Proof.
  induction l as [|x l IH]; cbn; [reflexivity|].
  fold (sorted key l). rewrite insert_sorted_perm. by constructor.
Qed.

Lemma insert_sorted_ordered {A} (key : A -> Z) x l :
  StronglySorted (fun a b => key a <= key b) l ->
  StronglySorted (fun a b => key a <= key b) (insert_sorted key x l).
Proof.
  induction 1 as [|y l Hl IH Hy]; cbn; [repeat constructor|].
  destruct (Z.leb_spec (key x) (key y)) as [Hle|Hgt].
  - constructor; [by constructor|].
    constructor; [exact Hle|].
    eapply Forall_impl; [exact Hy|]. cbn. intros; lia.
  - constructor; [exact IH|].
    rewrite (insert_sorted_perm key x l). constructor; [lia|exact Hy].
Qed.

Lemma sorted_ordered {A} (key : A -> Z) l :
  StronglySorted (fun a b => key a <= key b) (sorted key l).
Proof.
  induction l as [|x l IH]; cbn; [constructor|].
  by apply insert_sorted_ordered.
Qed.





(** *** Dispatch *)

Lemma TaskType_of_value_value ty : TaskType_of_value (TaskType_value ty) = Some ty.
Proof. destruct ty; reflexivity. Qed.

Lemma planned_well_typed (l : list AgentTask) : Forall well_typed (planned <$> l).
Proof.
  apply Forall_fmap, Forall_forall. intros t _. unfold well_typed, planned.
  cbn [p_type compose]. rewrite TaskType_of_value_value. eauto.
Qed.

Lemma loop_no_agent task rest ctx results st ty :
  TaskType_of_value (p_type task) = Some ty ->
  agents_get ty = None ->
  _execute_tasks_loop (task :: rest) ctx results st
  = _execute_tasks_loop rest ctx (results ++ [no_agent_result task ty]) st.
Proof. intros Hty Hag. cbn [_execute_tasks_loop]. rewrite Hty, Hag. reflexivity. Qed.

Lemma loop_agent task rest ctx results st ty agent o x :
  TaskType_of_value (p_type task) = Some ty ->
  agents_get ty = Some agent ->
  agent (task_view ctx) (external st) = (o, x) ->
  _execute_tasks_loop (task :: rest) ctx results st
  = match o with
    | HReturn result =>
        _execute_tasks_loop rest
          (<[result_key (p_task_id task) := VDict result]> ctx)
          (results ++ [returned_result task ty result])
    | HRaise e =>
        _execute_tasks_loop rest ctx (results ++ [raised_result task e])
    end (set_handler_calls
           (handler_calls st ++ [(p_task_id task, task_view ctx, o)])
           (set_external x st)).
Proof.
  intros Hty Hag Hrun. cbn [_execute_tasks_loop]. rewrite Hty, Hag.
  unfold bind, execute. rewrite Hrun. destruct o; reflexivity.
Qed.

Lemma handled_no_agent task ty :
  TaskType_of_value (p_type task) = Some ty -> agents_get ty = None ->
  handled task = false.
Proof.
  intros Hty Hag. unfold handled, handler_of. rewrite Hty.
  change (Some ty ≫= agents_get) with (agents_get ty). rewrite Hag.
  apply bool_decide_eq_false. by intros [? ?].
Qed.

Lemma handled_agent task ty agent :
  TaskType_of_value (p_type task) = Some ty -> agents_get ty = Some agent ->
  handled task = true /\ is_Some (handler_of task).
Proof.
  intros Hty Hag. unfold handled, handler_of. rewrite Hty.
  change (Some ty ≫= agents_get) with (agents_get ty). rewrite Hag.
  split; [apply bool_decide_eq_true|]; eauto.
Qed.

(** The loop visits the tasks in order, appends one entry per task, and
    invokes the handlers of the tasks that have one, in order. *)
Lemma execute_loop_spec todo : forall ctx results st,
  Forall well_typed todo ->
  exists new ctx' calls st',
    _execute_tasks_loop todo ctx results st = (Returned (results ++ new, ctx'), st')
    /\ Forall2 result_for todo new
    /\ handler_calls st' = handler_calls st ++ calls
    /\ call_id <$> calls = p_task_id <$> List.filter handled todo.
Proof.
  induction todo as [|task rest IH]; intros ctx results st Hwt.
  - exists [], ctx, [], st. rewrite !app_nil_r. repeat split. constructor.
  - apply Forall_cons in Hwt as [[ty Hty] Hrest].
    destruct (agents_get ty) as [agent|] eqn:Hag.
    + destruct (agent (task_view ctx) (external st)) as [o x] eqn:Hrun.
      rewrite (loop_agent _ _ _ _ _ _ _ _ _ Hty Hag Hrun).
      destruct (handled_agent _ _ _ Hty Hag) as [Hh Hsome].
      cbn [List.filter]. rewrite Hh.
      destruct o as [res|e].
      * edestruct (IH (<[result_key (p_task_id task) := VDict res]> ctx)
                     (results ++ [returned_result task ty res])
                     (set_handler_calls
                        (handler_calls st ++ [(p_task_id task, task_view ctx, HReturn res)])
                        (set_external x st)) Hrest)
          as (new & ctx' & calls & st' & Hloop & Hres & Hcalls & Hids).
        exists (returned_result task ty res :: new), ctx',
               ((p_task_id task, task_view ctx, HReturn res) :: calls), st'.
        rewrite Hloop, <- app_assoc. cbn in *.
        rewrite Hcalls, <- app_assoc, Hids.
        repeat split. constructor; [|exact Hres].
        right. right. exists ty, res. eauto.
      * edestruct (IH ctx (results ++ [raised_result task e])
                     (set_handler_calls
                        (handler_calls st ++ [(p_task_id task, task_view ctx, HRaise e)])
                        (set_external x st)) Hrest)
          as (new & ctx' & calls & st' & Hloop & Hres & Hcalls & Hids).
        exists (raised_result task e :: new), ctx',
               ((p_task_id task, task_view ctx, HRaise e) :: calls), st'.
        rewrite Hloop, <- app_assoc. cbn in *.
        rewrite Hcalls, <- app_assoc, Hids.
        repeat split. constructor; [|exact Hres].
        right. left. exists e. eauto.
    + rewrite (loop_no_agent _ _ _ _ _ _ Hty Hag).
      cbn [List.filter]. rewrite (handled_no_agent _ _ Hty Hag).
      destruct (IH ctx (results ++ [no_agent_result task ty]) st Hrest)
        as (new & ctx' & calls & st' & Hloop & Hres & Hcalls & Hids).
      exists (no_agent_result task ty :: new), ctx', calls, st'.
      rewrite Hloop, <- app_assoc. repeat split; [|exact Hcalls|exact Hids].
      constructor; [|exact Hres]. left. exists ty. eauto.
Qed.

(** The running context after a call that returned and after a call
    that raised. *)
Lemma context_after_cons ctx call calls :
  context_after ctx (call :: calls)
  = context_after
      (match call.2 with
       | HReturn res => <[result_key (call_id call) := VDict res]> ctx
       | HRaise _ => ctx
       end) calls.
Proof. reflexivity. Qed.

(** The loop, told in full: the entries it appends, the invocations it
    records with their views, the running context it ends with and the
    world the handlers leave. *)
Lemma execute_loop_exact todo : forall ctx results st,
  Forall well_typed todo ->
  exists new calls st',
    _execute_tasks_loop todo ctx results st
    = (Returned (results ++ new, context_after ctx calls), st')
    /\ handler_calls st' = handler_calls st ++ calls
    /\ dispatched todo (external st) calls new (external st')
    /\ call_id <$> calls = p_task_id <$> List.filter handled todo
    /\ (forall (j : nat) id v o, calls !! j = Some (id, v, o) ->
          v = task_view (context_after ctx (take j calls))).
Proof.
  induction todo as [|task rest IH]; intros ctx results st Hwt.
  - exists [], [], st. rewrite !app_nil_r. repeat split; [constructor|].
    intros j id v o Hj. by rewrite lookup_nil in Hj.
  - apply Forall_cons in Hwt as [[ty Hty] Hrest].
    destruct (agents_get ty) as [agent|] eqn:Hag.
    + destruct (agent (task_view ctx) (external st)) as [o x] eqn:Hrun.
      rewrite (loop_agent _ _ _ _ _ _ _ _ _ Hty Hag Hrun).
      destruct (handled_agent _ _ _ Hty Hag) as [Hh _].
      cbn [List.filter]. rewrite Hh.
      set (st1 := set_handler_calls
                    (handler_calls st ++ [(p_task_id task, task_view ctx, o)])
                    (set_external x st)).
      set (ctx1 := match o with
                   | HReturn res => <[result_key (p_task_id task) := VDict res]> ctx
                   | HRaise _ => ctx
                   end).
      destruct (IH ctx1 (results ++ [entry_of task ty o]) st1 Hrest)
        as (new & calls & st' & Hloop & Hcalls & Hdisp & Hids & Hviews).
      exists (entry_of task ty o :: new),
             ((p_task_id task, task_view ctx, o) :: calls), st'.
      split.
      { rewrite context_after_cons. cbn [snd call_id fst]. fold ctx1.
        replace (results ++ entry_of task ty o :: new)
          with ((results ++ [entry_of task ty o]) ++ new)
          by (by rewrite <- app_assoc).
        rewrite <- Hloop. subst ctx1. destruct o; reflexivity. }
      split; [rewrite Hcalls; cbn; by rewrite <- app_assoc|].
      split; [by eapply dispatched_agent|].
      split; [cbn; by rewrite Hids|].
      intros [|j] id v o' Hj.
      * cbn in Hj. by simplify_eq.
      * cbn in Hj. rewrite (Hviews j id v o' Hj).
        cbn [take]. rewrite context_after_cons. reflexivity.
    + rewrite (loop_no_agent _ _ _ _ _ _ Hty Hag).
      cbn [List.filter]. rewrite (handled_no_agent _ _ Hty Hag).
      destruct (IH ctx (results ++ [no_agent_result task ty]) st Hrest)
        as (new & calls & st' & Hloop & Hcalls & Hdisp & Hids & Hviews).
      exists (no_agent_result task ty :: new), calls, st'.
      rewrite Hloop, <- app_assoc.
      repeat split; try assumption. by eapply dispatched_no_agent.
Qed.

Lemma dispatched_length plan x calls results x' :
  dispatched plan x calls results x' -> length results = length plan.
Proof. induction 1; cbn; congruence. Qed.

(** What [dispatched] says of one position of the plan. *)
Lemma dispatched_lookup plan x calls results x' :
  dispatched plan x calls results x' ->
  forall (i : nat) task, plan !! i = Some task ->
    exists ty, TaskType_of_value (p_type task) = Some ty
    /\ ((agents_get ty = None
         /\ results !! i = Some (no_agent_result task ty))
        \/ (exists agent v o y y',
              agents_get ty = Some agent
              /\ calls !! length (List.filter handled (take i plan))
                 = Some (p_task_id task, v, o)
              /\ agent v y = (o, y')
              /\ results !! i = Some (entry_of task ty o))).
Proof.
  induction 1 as [x|task0 ty0 rest x calls results x' Hty Hag Hd IH
                   |task0 ty0 agent rest x v o x1 calls results x' Hty Hag Hrun Hd IH];
    intros i task Hi.
  - by rewrite lookup_nil in Hi.
  - destruct i as [|i]; cbn in Hi.
    + simplify_eq. exists ty0. split; [exact Hty|]. left. by split.
    + destruct (IH i task Hi) as (ty & Hty' & Hcase).
      exists ty. split; [exact Hty'|].
      destruct Hcase as [[Hn Hr]|(ag & v & o & y & y' & Ha & Hc & Hr & He)].
      * left. by split.
      * right. exists ag, v, o, y, y'. repeat split; try assumption.
        cbn [take List.filter]. by rewrite (handled_no_agent _ _ Hty Hag).
  - destruct i as [|i]; cbn in Hi.
    + simplify_eq. exists ty0. split; [exact Hty|]. right.
      exists agent, v, o, x, x1. by repeat split.
    + destruct (IH i task Hi) as (ty & Hty' & Hcase).
      exists ty. split; [exact Hty'|].
      destruct Hcase as [[Hn Hr]|(ag & v' & o' & y & y' & Ha & Hc & Hr & He)].
      * left. by split.
      * right. exists ag, v', o', y, y'. repeat split; try assumption.
        cbn [take List.filter].
        destruct (handled_agent _ _ _ Hty Hag) as [-> _]. exact Hc.
Qed.

(** C4.  For a plan whose tasks carry member type values, [_execute_tasks]
    returns; its result list has one entry per planned task, in the order
    of the plan.  Every task that has a handler gets exactly one
    invocation, in the order of the plan and whatever the earlier
    handlers did, and its entry is settled by what its own handler did
    in that invocation: the returned dict under the task's header, or the
    failed entry with the text of the exception it raised.  A task
    without handler gets the failed "No agent found" entry and no
    invocation.  No failure ends the loop, and no failure changes the
    entry of another task. *)
Theorem one_result_per_task (plan : list PlannedTask) (sid : string)
    (ctx : gmap string pyval) (st : State) :
  Forall well_typed plan ->
  exists results ctx' calls st',
    _execute_tasks plan sid ctx st = (Returned (results, ctx'), st')
    /\ length results = length plan
    /\ handler_calls st' = handler_calls st ++ calls
    /\ call_id <$> calls = p_task_id <$> List.filter handled plan
    /\ dispatched plan (external st) calls results (external st')
    /\ (forall (j : nat) id v o, calls !! j = Some (id, v, o) ->
          v = task_view (context_after ctx (take j calls)))
    /\ ctx' = context_after ctx calls
    /\ (forall (i : nat) task, plan !! i = Some task ->
          exists ty, TaskType_of_value (p_type task) = Some ty
          /\ ((agents_get ty = None
               /\ results !! i = Some (no_agent_result task ty))
              \/ (exists agent v o y y',
                    agents_get ty = Some agent
                    /\ calls !! length (List.filter handled (take i plan))
                       = Some (p_task_id task, v, o)
                    /\ agent v y = (o, y')
                    /\ results !! i = Some (entry_of task ty o))))
    /\ Forall2 result_for plan results
    /\ (forall (i : nat) task r, plan !! i = Some task -> results !! i = Some r ->
          succeeded r = false \/ exists ty res, r = returned_result task ty res)
    /\ (forall (i : nat) task r, plan !! i = Some task -> results !! i = Some r ->
          (forall ty res, r <> returned_result task ty res) ->
          r !! "task_id" = Some (VStr (p_task_id task))
          /\ r !! "success" = Some (VBool false)
          /\ is_Some (r !! "error")).
Proof.
  intros Hwt. unfold _execute_tasks.
  destruct (execute_loop_exact plan ctx [] st Hwt)
    as (new & calls & st' & Hloop & Hcalls & Hdisp & Hids & Hviews).
  destruct (execute_loop_spec plan ctx [] st Hwt)
    as (new0 & ctx0 & calls0 & st0 & Hloop0 & Hres & _ & _).
  rewrite Hloop in Hloop0. cbn [app] in Hloop0.
  injection Hloop0 as <- _ _.
  exists new, (context_after ctx calls), calls, st'.
  split; [exact Hloop|].
  split; [exact (dispatched_length _ _ _ _ _ Hdisp)|].
  split; [exact Hcalls|]. split; [exact Hids|]. split; [exact Hdisp|].
  split; [exact Hviews|]. split; [reflexivity|].
  split; [exact (dispatched_lookup _ _ _ _ _ Hdisp)|].
  split; [exact Hres|].
  split.
  - intros i task r Hi Hr.
    destruct (Forall2_lookup_lr _ _ _ _ _ _ Hres Hi Hr)
      as [(ty & _ & _ & ->)|[(e & _ & ->)|(ty & res & _ & _ & ->)]];
      [left; reflexivity | left; reflexivity | right; eauto].
  - intros i task r Hi Hr Hnot.
    destruct (Forall2_lookup_lr _ _ _ _ _ _ Hres Hi Hr)
      as [(ty & _ & _ & ->)|[(e & _ & ->)|(ty & res & _ & _ & ->)]].
    + repeat split; try reflexivity. eexists; reflexivity.
    + repeat split; try reflexivity. eexists; reflexivity.
    + exfalso. by apply (Hnot ty res).
Qed.

Lemma chars_app (a b : string) : Py.chars (a +:+ b) = Py.chars a ++ Py.chars b.
Proof.
  unfold Py.chars. induction a as [|c a IH]; [reflexivity|].
  cbn. by rewrite <- IH.
Qed.

Lemma chars_inj (a b : string) : Py.chars a = Py.chars b -> a = b.
Proof.
  intros H. apply (f_equal string_of_list_ascii) in H. unfold Py.chars in H.
  by rewrite !string_of_list_ascii_of_string in H.
Qed.

(** The key under which a result is stored determines the task id. *)
Lemma result_key_inj (a b : string) : result_key a = result_key b -> a = b.
Proof.
  unfold result_key. intros H. apply (f_equal Py.chars) in H.
  rewrite !chars_app in H. apply app_inv_head, app_inv_tail in H.
  by apply chars_inj.
Qed.

Lemma result_key_not_user_request (a : string) : result_key a <> "user_request".
Proof. unfold result_key. discriminate. Qed.

Lemma task_view_lookup ctx k v :
  ctx !! k = Some v -> task_view ctx !! k = Some v.
Proof. intros H. unfold task_view. by apply lookup_union_Some_l. Qed.

Lemma task_view_other ctx k :
  k <> "user_request" -> task_view ctx !! k = ctx !! k.
Proof.
  intros Hk. unfold task_view. rewrite lookup_union.
  rewrite lookup_singleton_ne by congruence. by destruct (ctx !! k).
Qed.

(** The running context holds under the key of a task what it held at
    the start, as long as no invocation for that task has returned. *)
Lemma context_after_frame id calls : forall ctx,
  (forall (i : nat) v res, calls !! i <> Some (id, v, HReturn res)) ->
  context_after ctx calls !! result_key id = ctx !! result_key id.
Proof.
  induction calls as [|[[id0 v0] o0] calls IH]; intros ctx Hnone; [reflexivity|].
  rewrite context_after_cons. cbn [snd call_id fst].
  rewrite IH by (intros i v res; exact (Hnone (S i) v res)).
  destruct o0 as [res0|e0]; [|reflexivity].
  apply lookup_insert_ne. intros Hk. apply result_key_inj in Hk. subst id0.
  exact (Hnone 0%nat v0 res0 eq_refl).
Qed.

(** It holds the dict of an invocation that returned, when no other
    invocation is for the same task. *)
Lemma context_after_returned id res calls : forall ctx (i : nat) v,
  NoDup (call_id <$> calls) ->
  calls !! i = Some (id, v, HReturn res) ->
  context_after ctx calls !! result_key id = Some (VDict res).
Proof.
  induction calls as [|[[id0 v0] o0] calls IH]; intros ctx i v Hnd Hi;
    [by rewrite lookup_nil in Hi|].
  rewrite fmap_cons in Hnd. apply NoDup_cons in Hnd as [Hnew Hnd].
  rewrite context_after_cons. cbn [snd call_id fst].
  destruct i as [|i]; cbn in Hi.
  - simplify_eq. rewrite context_after_frame; [apply lookup_insert_eq|].
    intros i v' res' Hi'. apply Hnew.
    apply (list_elem_of_fmap_2' call_id _ (id, v', HReturn res'));
      [by eapply list_elem_of_lookup_2|reflexivity].
  - by eapply IH.
Qed.

Lemma NoDup_handled_ids plan :
  NoDup (p_task_id <$> plan) ->
  NoDup (p_task_id <$> List.filter handled plan).
Proof.
  induction plan as [|task rest IH]; [done|].
  rewrite fmap_cons. intros [Hnew Hnd]%NoDup_cons. cbn [List.filter].
  destruct (handled task); [|by apply IH].
  rewrite fmap_cons. apply NoDup_cons. split; [|by apply IH].
  intros Hin. apply Hnew.
  apply list_elem_of_fmap in Hin as (t & -> & Ht).
  apply list_elem_of_fmap. exists t. split; [reflexivity|].
  apply list_elem_of_In, filter_In in Ht as [Ht _]. by apply list_elem_of_In.
Qed.

Lemma unhandled_id_not_called plan task :
  NoDup (p_task_id <$> plan) ->
  task ∈ plan -> handled task = false ->
  p_task_id task ∉ p_task_id <$> List.filter handled plan.
Proof.
  induction plan as [|t rest IH]; intros Hnd Hin Hun; [by apply elem_of_nil in Hin|].
  rewrite fmap_cons in Hnd. apply NoDup_cons in Hnd as [Hnew Hnd].
  assert (forall t', t' ∈ List.filter handled rest -> t' ∈ rest) as Hsub.
  { intros t' Ht'. apply list_elem_of_In, filter_In in Ht' as [Ht' _].
    by apply list_elem_of_In. }
  apply elem_of_cons in Hin as [->|Hin].
  - cbn [List.filter]. rewrite Hun. intros Hc. apply Hnew.
    apply list_elem_of_fmap in Hc as (t' & Heq & Ht').
    apply list_elem_of_fmap. exists t'. split; [exact Heq|by apply Hsub].
  - cbn [List.filter]. destruct (handled t) eqn:Ht; [|by apply IH].
    rewrite fmap_cons. apply not_elem_of_cons. split; [|by apply IH].
    intros Heq. apply Hnew. rewrite <- Heq.
    apply list_elem_of_fmap. by exists task.
Qed.

(** C5, as the code has it.  In a plan with distinct task ids, the input
    view handed to a handler is the running context at that moment: the
    caller's context with, for every handler invoked earlier in the same
    plan that returned a dict, that dict under the key
    [task_<id>_result] of the earlier task's id, and nothing else; the
    key determines the id.  A task whose handler raised, and a task
    without handler, leave no entry: under their key the views and the
    final context hold what the caller's context held. *)
Theorem earlier_results_in_view (plan : list PlannedTask) (sid : string)
    (ctx : gmap string pyval) (st : State) :
  Forall well_typed plan ->
  NoDup (p_task_id <$> plan) ->
  exists results ctx' calls st',
    _execute_tasks plan sid ctx st = (Returned (results, ctx'), st')
    /\ handler_calls st' = handler_calls st ++ calls
    /\ call_id <$> calls = p_task_id <$> List.filter handled plan
    /\ (forall (j : nat) id v o, calls !! j = Some (id, v, o) ->
          v = task_view (context_after ctx (take j calls)))
    /\ ctx' = context_after ctx calls
    /\ (forall (i j : nat) id_i v_i res_i id_j v_j o_j,
          (i < j)%nat ->
          calls !! i = Some (id_i, v_i, HReturn res_i) ->
          calls !! j = Some (id_j, v_j, o_j) ->
          v_j !! result_key id_i = Some (VDict res_i))
    /\ (forall (i j : nat) id_i v_i e id_j v_j o_j,
          calls !! i = Some (id_i, v_i, HRaise e) ->
          calls !! j = Some (id_j, v_j, o_j) ->
          v_j !! result_key id_i = ctx !! result_key id_i
          /\ ctx' !! result_key id_i = ctx !! result_key id_i)
    /\ (forall task (j : nat) id_j v_j o_j,
          task ∈ plan -> handled task = false ->
          calls !! j = Some (id_j, v_j, o_j) ->
          v_j !! result_key (p_task_id task) = ctx !! result_key (p_task_id task)
          /\ ctx' !! result_key (p_task_id task)
             = ctx !! result_key (p_task_id task))
    /\ (forall a b, result_key a = result_key b -> a = b).
Proof.
  intros Hwt Hnd. unfold _execute_tasks.
  destruct (execute_loop_exact plan ctx [] st Hwt)
    as (new & calls & st' & Hloop & Hcalls & _ & Hids & Hviews).
  exists new, (context_after ctx calls), calls, st'.
  assert (NoDup (call_id <$> calls)) as Hndc
    by (rewrite Hids; by apply NoDup_handled_ids).
  assert (forall j, NoDup (call_id <$> take j calls)) as Hndt.
  { intros j. rewrite fmap_take.
    exact (sublist_NoDup _ _ Hndc (sublist_take _ j)). }
  (* an id for which no invocation returned *)
  assert (forall id, (forall (i : nat) v res,
                        calls !! i <> Some (id, v, HReturn res)) ->
            forall (j : nat) id_j v_j o_j,
              calls !! j = Some (id_j, v_j, o_j) ->
              v_j !! result_key id = ctx !! result_key id
              /\ context_after ctx calls !! result_key id = ctx !! result_key id)
    as Hframe.
  { intros id Hnone j id_j v_j o_j Hj. split; [|by apply context_after_frame].
    rewrite (Hviews j id_j v_j o_j Hj).
    rewrite task_view_other by apply result_key_not_user_request.
    apply context_after_frame. intros i v res Hi.
    apply lookup_take_Some in Hi as [Hi _]. exact (Hnone i v res Hi). }
  split; [exact Hloop|]. split; [exact Hcalls|]. split; [exact Hids|].
  split; [exact Hviews|]. split; [reflexivity|].
  split; [|split; [|split; [|exact result_key_inj]]].
  - intros i j id_i v_i res_i id_j v_j o_j Hlt Hi Hj.
    rewrite (Hviews j id_j v_j o_j Hj).
    rewrite task_view_other by apply result_key_not_user_request.
    apply (context_after_returned id_i res_i _ _ i v_i (Hndt j)).
    by rewrite lookup_take_lt.
  - intros i j id_i v_i e id_j v_j o_j Hi Hj.
    refine (Hframe id_i _ j id_j v_j o_j Hj).
    intros i' v res Hi'.
    assert (i' = i) as ->.
    { eapply (NoDup_lookup (call_id <$> calls)); [exact Hndc| |];
        rewrite list_lookup_fmap; [rewrite Hi'|rewrite Hi]; reflexivity. }
    rewrite Hi in Hi'. discriminate.
  - intros task j id_j v_j o_j Hin Hun Hj.
    refine (Hframe (p_task_id task) _ j id_j v_j o_j Hj).
    intros i v res Hi.
    apply (unhandled_id_not_called plan task Hnd Hin Hun).
    rewrite <- Hids.
    apply (list_elem_of_fmap_2' call_id _ (p_task_id task, v, HReturn res));
      [by eapply list_elem_of_lookup_2|reflexivity].
Qed.

(** C3, as the code has it.  The registry holds exactly one handler for
    each of the types job_description, resume_screening and
    interview_scheduling.  It holds none for email_communication and
    offer_generation: a task of either type gets the failed
    "No agent found" entry and the loop goes on. *)
Theorem registry_covers_three_types :
  Forall (fun ty =>
            length (List.filter (fun kv => bool_decide (kv.1 = ty)) agents) = 1%nat
            /\ is_Some (agents_get ty))
    [JOB_DESCRIPTION; RESUME_SCREENING; INTERVIEW_SCHEDULING]
  /\ Forall (fun ty =>
               agents_get ty = None
               /\ forall id desc prio rest ctx results (st : State),
                    let task := mkPlannedTask id (TaskType_value ty) desc prio in
                    _execute_tasks_loop (task :: rest) ctx results st
                    = _execute_tasks_loop rest ctx
                        (results ++ [no_agent_result task ty]) st)
       [EMAIL_COMMUNICATION; OFFER_GENERATION].
Proof.
  split.
  - repeat constructor; cbn; eauto.
  - repeat constructor; intros; by apply loop_no_agent.
Qed.

(** The third type without an entry in the registry. *)
Remark analytics_not_registered : agents_get ANALYTICS = None.
Proof. reflexivity. Qed.


(** *** Response synthesis *)

Lemma mapM_as_str (l : list string) : mapM Py.as_str (VStr <$> l) = Some l.
Proof. apply mapM_fmap_Some. reflexivity. Qed.

Lemma omap_as_str (l : list string) : omap Py.as_str (VStr <$> l) = l.
Proof. induction l as [|x l IH]; [reflexivity|]. cbn. by rewrite IH. Qed.

Lemma response_loop_contract todo : forall (ms acts : list string) data,
  Forall follows_contract todo ->
  exists data',
    response_loop todo (VStr <$> ms) (VStr <$> acts) data
    = Returned (VStr <$> (ms ++ omap message_of todo),
                VStr <$> (acts ++ concat (actions_of <$> todo)),
                data').
Proof.
  induction todo as [|r todo IH]; intros ms acts data Hc.
  - exists data. cbn. by rewrite !app_nil_r.
  - apply Forall_cons in Hc as [[[m Hm] Hna] Hc].
    cbn [response_loop]. unfold Py.get. rewrite Hm. cbn [from_option id Py.truthy].
    assert (Hmsgs : (if negb (String.eqb m "") then (VStr <$> ms) ++ [VStr m]
                     else VStr <$> ms)
                    = VStr <$> (ms ++ from_option (fun x => [x]) [] (message_of r))).
    { unfold message_of. rewrite Hm.
      destruct (String.eqb m ""); cbn; [by rewrite app_nil_r|by rewrite fmap_app]. }
    rewrite Hmsgs. clear Hmsgs.
    assert (Hacts : (if Py.truthy (default VNone (r !! "next_actions"))
                     then Py.iter (default VNone (r !! "next_actions"))
                     else Some []) = Some (VStr <$> actions_of r)).
    { unfold actions_of.
      destruct Hna as [->|[->|[l ->]]]; [reflexivity|reflexivity|].
      cbn. rewrite omap_as_str. by destruct l. }
    rewrite Hacts. clear Hacts.
    rewrite <- fmap_app.
    edestruct (IH (ms ++ from_option (fun x => [x]) [] (message_of r))
                 (acts ++ actions_of r)) as [data' Hloop]; [exact Hc|].
    exists data'. rewrite Hloop.
    assert (Hm' : omap message_of (r :: todo)
                  = from_option (fun x => [x]) [] (message_of r)
                    ++ omap message_of todo).
    { cbn. destruct (message_of r); reflexivity. }
    rewrite Hm', fmap_cons. cbn [concat]. by rewrite !app_assoc.
Qed.

Lemma slice_to_5 (l : list string) :
  (length (Py.slice_to 5 l) <= 5)%nat /\ Py.slice_to 5 l `sublist_of` l.
Proof.
  unfold Py.slice_to. cbn. split; [rewrite length_take; lia|apply sublist_take].
Qed.

Lemma strings_hashable (l : list string) : existsb unhashable (VStr <$> l) = false.
Proof. induction l as [|x l IH]; [reflexivity|exact IH]. Qed.

(** When the loop of [_execute_tasks] returns, it has appended one entry
    per task. *)
Lemma execute_loop_length todo : forall ctx results st rs ctx',
  (_execute_tasks_loop todo ctx results st).1 = Returned (rs, ctx') ->
  length rs = (length results + length todo)%nat.
Proof.
  induction todo as [|task rest IH]; intros ctx results st rs ctx' Hrun.
  - cbn in Hrun. injection Hrun as <- _. cbn. lia.
  - destruct (TaskType_of_value (p_type task)) as [ty|] eqn:Hty.
    + destruct (agents_get ty) as [agent|] eqn:Hag.
      * destruct (agent (task_view ctx) (external st)) as [o x] eqn:Hagent.
        rewrite (loop_agent _ _ _ _ _ _ _ _ _ Hty Hag Hagent) in Hrun.
        destruct o; apply IH in Hrun; rewrite length_app in Hrun; cbn in *; lia.
      * rewrite (loop_no_agent _ _ _ _ _ _ Hty Hag) in Hrun.
        apply IH in Hrun. rewrite length_app in Hrun. cbn in *. lia.
    + cbn [_execute_tasks_loop] in Hrun. rewrite Hty in Hrun. discriminate.
Qed.

(** C9, as the code has it.  When the dispatch of a plan of 5 tasks yields
    exactly 3 successful results whose messages are the non-empty strings
    [m1], [m2], [m3], two tasks have failed, and the message of the final
    response is the three messages joined by newlines, followed by a blank
    line and the line "Completed 3 tasks."; the next actions of the
    response are at most 5, without duplicates, each suggested by a
    successful result. *)
Theorem response_for_three_successes (plan : list PlannedTask)
    (sid user_message : string) (ctx ctx' : gmap string pyval) (st : State)
    (results : list (gmap string pyval)) (r1 r2 r3 : gmap string pyval)
    (m1 m2 m3 : string) (intent_analysis : pyval) :
  enumerates_set list_set ->
  length plan = 5%nat ->
  (_execute_tasks plan sid ctx st).1 = Returned (results, ctx') ->
  List.filter succeeded results = [r1; r2; r3] ->
  Forall follows_contract [r1; r2; r3] ->
  message_of <$> [r1; r2; r3] = [Some m1; Some m2; Some m3] ->
  length (List.filter (fun r => negb (succeeded r)) results) = 2%nat
  /\ exists resp,
       _generate_response user_message results intent_analysis = Returned resp
       /\ success resp = true
       /\ message resp = Py.join Py.nl [m1; m2; m3] +:+ completed_line 3
       /\ (forall acts, next_actions resp = Some acts ->
             (length acts <= 5)%nat /\ NoDup acts
             /\ forall a, a ∈ acts -> a ∈ concat (actions_of <$> [r1; r2; r3])).
Proof.
  intros Hset Hplan Hrun Hsucc Hcontract Hmsgs. split.
  { apply execute_loop_length in Hrun. cbn in Hrun.
    pose proof (List.filter_length succeeded results) as Hlen.
    rewrite Hsucc in Hlen. cbn in Hlen. lia. }
  unfold _generate_response. rewrite Hsucc.
  destruct (response_loop_contract [r1; r2; r3] [] [] ∅ Hcontract) as [data' Hloop].
  cbn [fmap list_fmap app] in Hloop. rewrite Hloop. clear Hloop.
  rewrite mapM_as_str.
  assert (Htexts : omap message_of [r1; r2; r3] = [m1; m2; m3]).
  { cbn in Hmsgs. injection Hmsgs as H1 H2 H3. cbn. by rewrite H1, H2, H3. }
  rewrite Htexts.
  change (concat (actions_of <$> [r1; r2; r3]))
    with (concat [actions_of r1; actions_of r2; actions_of r3]).
  destruct (concat [actions_of r1; actions_of r2; actions_of r3])
    as [|a rest] eqn:Hactions.
  - eexists. split; [reflexivity|]. cbn [success message next_actions].
    split; [reflexivity|]. split; [reflexivity|]. intros acts Hacts. discriminate.
  - rewrite fmap_cons. rewrite <- (fmap_cons VStr a rest).
    rewrite strings_hashable, mapM_as_str.
    eexists. split; [reflexivity|]. cbn [success message next_actions].
    split; [reflexivity|]. split; [reflexivity|].
    intros acts Hacts. injection Hacts as <-.
    destruct (slice_to_5 (list_set (a :: rest))) as [Hlen Hsub].
    destruct (Hset (a :: rest)) as [Hnd Hmem].
    split; [exact Hlen|]. split; [by eapply sublist_NoDup|].
    intros x Hx. apply Hmem. eapply elem_of_sublist; eauto.
Qed.

(** *** The request as a whole *)

Lemma process_request_phases um sid c st :
  process_request um sid c st
  = bind (gather_context um sid c) (answer_request um sid) st.
Proof.
  unfold process_request, gather_context, answer_request, bind.
  destruct (add_message sid "user" um None st) as [[[]|e] st1]; [|reflexivity].
  destruct (get_messages sid (Some 5) st1) as [[h|e] st2]; [|reflexivity].
  destruct (get_relevant_context sid um st2) as [[m|e] st3]; reflexivity.
Qed.

Lemma within_refl st : llm_calls_within 0 st st.
Proof. unfold llm_calls_within. repeat split; lia. Qed.

Lemma within_trans n m st1 st2 st3 :
  llm_calls_within n st1 st2 -> llm_calls_within m st2 st3 ->
  llm_calls_within (n + m) st1 st3.
Proof.
  intros (Ho & Hc & Hh & He) (Ho' & Hc' & Hh' & He').
  unfold llm_calls_within. repeat split; try congruence; lia.
Qed.

Lemma within_weaken n m st st' :
  (n <= m)%nat -> llm_calls_within n st st' -> llm_calls_within m st st'.
Proof.
  intros Hle (Ho & Hc & Hh & He). unfold llm_calls_within.
  repeat split; try congruence; lia.
Qed.

Lemma add_message_returns sid r c md st :
  exists st', add_message sid r c md st = (Returned tt, st')
              /\ llm_calls_within 0 st st'.
Proof.
  unfold add_message, bind, get_session, gets.
  destruct (sessions st !! sid); cbn; eexists; (split; [reflexivity|]);
    unfold llm_calls_within; cbn; repeat split; lia.
Qed.

Lemma get_messages_returns sid limit st :
  exists l, get_messages sid limit st = (Returned l, st).
Proof.
  unfold get_messages, bind, get_session, gets.
  destruct (sessions st !! sid); [|eauto].
  destruct limit as [n|]; [|eauto]. destruct (n =? 0); eauto.
Qed.

Lemma get_short_term_listing sid st :
  exists l st', get_short_term sid None st = (Returned (VList l), st')
                /\ llm_calls_within 0 st st'.
Proof.
  destruct (short_term_memory st !! sid) as [es|] eqn:Hes.
  - rewrite (get_short_term_present st sid None es Hes). cbn.
    do 2 eexists. split; [reflexivity|].
    unfold llm_calls_within. cbn. repeat split; lia.
  - rewrite (get_short_term_absent st sid None Hes). cbn.
    do 2 eexists. split; [reflexivity|apply within_refl].
Qed.

Lemma get_relevant_context_returns sid q st :
  exists m st', get_relevant_context sid q st = (Returned m, st')
                /\ llm_calls_within 0 st st'.
Proof.
  unfold get_relevant_context.
  destruct (get_short_term_listing sid st) as (l & st1 & Hget & Hw).
  rewrite (bind_returned _ _ _ _ _ Hget).
  assert (Hrecent : exists w,
    (if Py.truthy (VList l)
     then ret (<["recent_interactions" := VList (Py.slice_from (-5) l)]> ∅)
     else ret (∅ : gmap string pyval)) st1 = (Returned w, st1)).
  { destruct (Py.truthy (VList l)); eexists; reflexivity. }
  destruct Hrecent as [w Hrecent].
  rewrite (bind_returned _ _ _ _ _ Hrecent).
  assert (Hctx : exists o, get_context sid st1 = (Returned o, st1))
    by (eexists; reflexivity).
  destruct Hctx as [o Hctx]. rewrite (bind_returned _ _ _ _ _ Hctx).
  unfold ret. destruct o as [c|]; [case_bool_decide|]; eauto.
Qed.

(** Gathering the context always succeeds and involves neither the
    endpoint nor a handler. *)
Lemma gather_context_returns um sid c st :
  exists full st', gather_context um sid c st = (Returned full, st')
                   /\ llm_calls_within 0 st st'.
Proof.
  unfold gather_context.
  destruct (add_message_returns sid "user" um None st) as (st1 & H1 & W1).
  rewrite (bind_returned _ _ _ _ _ H1).
  destruct (get_messages_returns sid (Some 5) st1) as (h & H2).
  rewrite (bind_returned _ _ _ _ _ H2).
  destruct (get_relevant_context_returns sid um st1) as (m & st2 & H3 & W2).
  rewrite (bind_returned _ _ _ _ _ H3).
  do 2 eexists. split; [reflexivity|].
  apply (within_trans 0 0 _ _ _ W1 W2).
Qed.

Lemma generate_response_loop_within max_retries todo : forall attempt st,
  exists o st', generate_response_loop max_retries attempt todo st = (o, st')
                /\ llm_calls_within todo st st'.
Proof.
  induction todo as [|todo IH]; intros attempt st.
  - do 2 eexists. split; [reflexivity|apply within_refl].
  - cbn [generate_response_loop]. unfold bind, generate_content.
    set (st1 := set_api_calls (S (api_calls st)) st).
    assert (W1 : llm_calls_within 1 st st1).
    { unfold llm_calls_within. cbn. repeat split; lia. }
    destruct (api_outcomes st (api_calls st)) as [text|error_msg].
    + do 2 eexists. split; [reflexivity|].
      eapply within_weaken; [|exact W1]. lia.
    + destruct (IH (attempt + 1) st1) as (o & st' & Hloop & W).
      pose proof (within_trans _ _ _ _ _ W1 W) as W'.
      destruct (Py.contains "429" error_msg
                || Py.contains "RESOURCE_EXHAUSTED" error_msg);
        destruct (attempt <? max_retries - 1);
        try (rewrite Hloop; do 2 eexists; split; [reflexivity|exact W']);
        (do 2 eexists; split; [reflexivity|];
         eapply within_weaken; [|exact W1]; lia).
Qed.

(** One structured generation calls the endpoint at most three times. *)
Lemma generate_structured_output_within st :
  exists o st', generate_structured_output st = (o, st')
                /\ llm_calls_within 3 st st'.
Proof.
  unfold generate_structured_output, generate_response, bind.
  destruct (generate_response_loop_within 3 (Z.to_nat 3) 0 st)
    as (o & st' & Hloop & W).
  rewrite Hloop. change (Z.to_nat 3) with 3%nat in W.
  destruct o as [response|e]; [|eauto].
  destruct (json_loads (clean_response response)); [|eauto].
  destruct (Py.search_braces (clean_response response)) as [m|]; [|eauto].
  destruct (json_loads m); eauto.
Qed.

Lemma decompose_within um full st :
  exists o st', decompose um full st = (o, st') /\ llm_calls_within 3 st st'.
Proof.
  unfold decompose, bind.
  destruct (generate_structured_output_within st) as (o & st' & Hgso & W).
  rewrite Hgso. destruct o as [[| | | | | |d]|e]; eauto.
  unfold or_raise, lift_outcome, ret, raise.
  destruct (Py.iter _); [|eauto].
  destruct (build_tasks _ _ _); [|eauto].
  destruct (Py.truthy _); eauto.
Qed.

Lemma generate_execution_plan_within um full st :
  exists o st', generate_execution_plan um full st = (o, st')
                /\ llm_calls_within 3 st st'.
Proof.
  unfold generate_execution_plan, bind.
  destruct (decompose_within um full st) as (o & st' & Hdec & W).
  rewrite Hdec. destruct o as [d|e]; [|eauto].
  destruct (requires_clarification d).
  - unfold or_raise, ret, raise. destruct (questions d); eauto.
  - unfold lift_outcome, ret. destruct (validate_task_sequence _) as [[]|]; eauto.
Qed.

Lemma dangling_sound tasks :
  dangling tasks = true -> has_dangling_dependency tasks.
Proof.
  unfold dangling. intros [Hlists Hsome]%andb_true_iff. split.
  - intros task Hin. rewrite forallb_forall in Hlists.
    specialize (Hlists task (proj1 (list_elem_of_In _ _) Hin)).
    destruct (dependencies_of task); try discriminate. eauto.
  - apply existsb_exists in Hsome as (task & Hin & Htask).
    destruct (dependencies_of task) as [| | | | |deps|] eqn:Hdeps; try discriminate.
    apply negb_true_iff in Htask.
    assert (Hdep : exists dep, dep ∈ deps
                               /\ dep_known (task_id <$> tasks) dep = false).
    { clear -Htask. induction deps as [|x deps IH]; [discriminate|].
      cbn in Htask. apply andb_false_iff in Htask as [Hx|Hrest].
      - exists x. split; [left|exact Hx].
      - destruct (IH Hrest) as (dep & Hin & Hdep). exists dep. split; [by right|done]. }
    destruct Hdep as (dep & Hdin & Hunknown).
    exists task, deps, dep. repeat split; try done. by apply list_elem_of_In.
Qed.

(** A decomposition that passes the dependency check becomes the ready
    plan whose tasks are the prioritized tasks, in order. *)
Lemma generate_execution_plan_ready um full st d st' :
  decompose um full st = (Returned d, st') ->
  requires_clarification d = false ->
  validate_task_sequence (tasks d) = Returned true ->
  generate_execution_plan um full st
  = (Returned (mkExecutionPlan "ready" None None None
                 (Some (length (prioritize_tasks (tasks d))))
                 (Some (planned <$> prioritize_tasks (tasks d)))
                 (Some (_estimate_time (prioritize_tasks (tasks d))))), st').
Proof.
  intros Hdec Hnoclar Hvalid. unfold generate_execution_plan.
  rewrite (bind_returned _ _ _ _ _ Hdec), Hnoclar, Hvalid. reflexivity.
Qed.

(** The dependency check rejects a plan with a dangling dependency. *)
Lemma validate_rejects_dangling tasks :
  has_dangling_dependency tasks -> validate_task_sequence tasks = Returned false.
Proof.
  intros [Hlists (task & deps & dep & Hin & Hdeps & Hdep & Hunknown)].
  unfold validate_task_sequence.
  generalize dependent (task_id <$> tasks). intros ids Hunknown.
  induction tasks as [|t rest IH]; [by apply elem_of_nil in Hin|].
  cbn [validate_loop].
  destruct (Hlists t) as [ds Hds]; [by left|].
  unfold dependencies_of in Hds. rewrite Hds. cbn [Py.iter].
  destruct (forallb (dep_known ids) ds) eqn:Hall; [|reflexivity].
  apply elem_of_cons in Hin as [->|Hin].
  - unfold dependencies_of in Hdeps. rewrite Hdeps in Hds. injection Hds as <-.
    rewrite forallb_forall in Hall.
    rewrite (Hall dep) in Hunknown; [discriminate|].
    by apply list_elem_of_In.
  - apply IH; [|exact Hin]. intros t' Ht'. apply Hlists. by right.
Qed.

(** C1.  When the decomposition is a plan in which some task names a
    dependency that is not the id of a task of the plan, [process_request]
    invokes no handler, and it does not return a response: it ends with
    the [KeyError] for the key ['tasks'], which the plan with status
    ['invalid_sequence'] does not have. *)
Theorem invalid_plan_raises_KeyError (user_message sid : string)
    (context : option (gmap string pyval)) (st st1 st2 st3 : State)
    (full intent : gmap string pyval) (d : Decomposition) :
  gather_context user_message sid context st = (Returned full, st1) ->
  analyze_intent user_message st1 = (Returned (VDict intent), st2) ->
  Py.truthy (Py.get intent "requires_clarification") = false ->
  decompose user_message full st2 = (Returned d, st3) ->
  requires_clarification d = false ->
  has_dangling_dependency (tasks d) ->
  process_request user_message sid context st = (Raised (KeyError "tasks"), st3)
  /\ handler_calls st3 = handler_calls st.
Proof.
  intros Hgather Hintent Hclar Hdec Hnoclar Hdangling.
  rewrite process_request_phases, (bind_returned _ _ _ _ _ Hgather).
  unfold answer_request.
  rewrite (bind_returned _ _ _ _ _ Hintent).
  unfold bind at 1. unfold ret at 1. rewrite Hclar.
  assert (Hplan : generate_execution_plan user_message full st2
                  = (Returned (mkExecutionPlan "invalid_sequence" None
                                 (Some "Task dependencies are invalid")
                                 (Some VNone) None None None), st3)).
  { unfold generate_execution_plan.
    rewrite (bind_returned _ _ _ _ _ Hdec), Hnoclar.
    rewrite (validate_rejects_dangling _ Hdangling). reflexivity. }
  rewrite (bind_returned _ _ _ _ _ Hplan). split; [reflexivity|].
  destruct (gather_context_returns user_message sid context st)
    as (full' & st1' & Hg & W1).
  rewrite Hgather in Hg. injection Hg as <- <-.
  destruct (generate_structured_output_within st1) as (o & st2' & Hi & W2).
  unfold analyze_intent in Hintent. rewrite Hintent in Hi. injection Hi as <- <-.
  destruct (decompose_within user_message full st2) as (o & st3' & Hd & W3).
  rewrite Hdec in Hd. injection Hd as <- <-.
  destruct W1 as (_ & _ & H1 & _), W2 as (_ & _ & H2 & _), W3 as (_ & _ & H3 & _).
  congruence.
Qed.

(** C2, as the code has it.  When the intent analysis raises, or when it
    passes without a clarification request and the decomposition raises,
    [process_request] returns no response: the exception leaves
    [process_request] as it is, in the state in which the reasoning
    service raised it.  The orchestrator repeats nothing: the endpoint
    has been called at most 3 times for the one stage, at most 6 times
    for the two, and no handler has been invoked. *)
Theorem upstream_failure_propagates (user_message sid : string)
    (context : option (gmap string pyval)) (st : State) :
  exists full st1,
    gather_context user_message sid context st = (Returned full, st1)
    /\ api_calls st1 = api_calls st
    /\ (forall e st2,
          analyze_intent user_message st1 = (Raised e, st2) ->
          process_request user_message sid context st = (Raised e, st2)
          /\ (api_calls st2 <= api_calls st + 3)%nat
          /\ handler_calls st2 = handler_calls st)
    /\ (forall intent st2 e st3,
          analyze_intent user_message st1 = (Returned (VDict intent), st2) ->
          Py.truthy (Py.get intent "requires_clarification") = false ->
          generate_execution_plan user_message full st2 = (Raised e, st3) ->
          process_request user_message sid context st = (Raised e, st3)
          /\ (api_calls st3 <= api_calls st + 6)%nat
          /\ handler_calls st3 = handler_calls st).
Proof.
  destruct (gather_context_returns user_message sid context st)
    as (full & st1 & Hgather & W1).
  exists full, st1. split; [exact Hgather|].
  split; [destruct W1 as (_ & ? & _); lia|]. split.
  - intros e st2 Hintent.
    rewrite process_request_phases, (bind_returned _ _ _ _ _ Hgather).
    unfold answer_request. rewrite (bind_raised _ _ _ _ _ Hintent).
    split; [reflexivity|].
    destruct (generate_structured_output_within st1) as (o & st2' & Hi & W2).
    unfold analyze_intent in Hintent. rewrite Hintent in Hi. injection Hi as <- <-.
    destruct (within_trans _ _ _ _ _ W1 W2) as (_ & ? & ? & _). split; [lia|done].
  - intros intent st2 e st3 Hintent Hclar Hplan.
    rewrite process_request_phases, (bind_returned _ _ _ _ _ Hgather).
    unfold answer_request. rewrite (bind_returned _ _ _ _ _ Hintent).
    unfold bind at 1. unfold ret at 1. rewrite Hclar.
    rewrite (bind_raised _ _ _ _ _ Hplan). split; [reflexivity|].
    destruct (generate_structured_output_within st1) as (o & st2' & Hi & W2).
    unfold analyze_intent in Hintent. rewrite Hintent in Hi. injection Hi as <- <-.
    destruct (generate_execution_plan_within user_message full st2)
      as (o & st3' & Hp & W3).
    rewrite Hplan in Hp. injection Hp as <- <-.
    destruct (within_trans _ _ _ _ _ (within_trans _ _ _ _ _ W1 W2) W3)
      as (_ & ? & ? & _).
    split; [lia|done].
Qed.

(** The two ways in which the reasoning service fails for good. *)
Lemma retries_exhausted st :
  (forall k, (k < 3)%nat ->
     exists msg, api_outcomes st (api_calls st + k)%nat = ApiError msg) ->
  exists m, generate_structured_output st
            = (Raised (Exception m), set_api_calls (3 + api_calls st) st).
Proof.
  intros Herr.
  destruct (Herr 0%nat ltac:(lia)) as [m0 H0].
  destruct (Herr 1%nat ltac:(lia)) as [m1 H1].
  destruct (Herr 2%nat ltac:(lia)) as [m2 H2].
  rewrite Nat.add_0_r in H0. rewrite Nat.add_1_r in H1.
  replace (api_calls st + 2)%nat with (S (S (api_calls st))) in H2 by lia.
  unfold generate_structured_output, generate_response.
  change (Z.to_nat 3) with 3%nat. cbn [generate_response_loop].
  change (0 <? 3 - 1) with true. change (0 + 1 <? 3 - 1) with true.
  change (0 + 1 + 1 <? 3 - 1) with false.
  unfold bind, generate_content. cbn. rewrite H0.
  destruct (Py.contains "429" m0 || Py.contains "RESOURCE_EXHAUSTED" m0);
    cbn; rewrite H1;
    destruct (Py.contains "429" m1 || Py.contains "RESOURCE_EXHAUSTED" m1);
    cbn; rewrite H2;
    destruct (Py.contains "429" m2 || Py.contains "RESOURCE_EXHAUSTED" m2);
    cbn; eexists; reflexivity.
Qed.

Lemma unparseable_output st text e :
  api_outcomes st (api_calls st) = ApiText text ->
  json_loads (clean_response text) = inl e ->
  (forall m, Py.search_braces (clean_response text) = Some m ->
     exists e', json_loads m = inl e') ->
  generate_structured_output st
  = (Raised (parse_failure e (clean_response text)),
     set_api_calls (S (api_calls st)) st).
Proof.
  intros Htext Hbad Hbraces.
  unfold generate_structured_output, generate_response.
  change (Z.to_nat 3) with 3%nat.
  unfold bind, generate_content. cbn. rewrite Htext. cbn. rewrite Hbad.
  destruct (Py.search_braces (clean_response text)) as [m|] eqn:Hm; [|reflexivity].
  destruct (Hbraces m eq_refl) as [e' He']. rewrite He'. reflexivity.
Qed.

(** ** Further properties of the conversation manager *)

Lemma set_sessions_same (st : State) : set_sessions (sessions st) st = st.
Proof. destruct st; reflexivity. Qed.

Lemma ConversationState_eta (s : ConversationState) :
  mkConversationState (session_id s) (messages s) (context s) (active_tasks s)
    (created_at s) (updated_at s) = s.
Proof. destruct s; reflexivity. Qed.

Lemma lastn_snoc {A} (n : nat) (l : list A) (x : A) :
  lastn (S n) (l ++ [x]) = lastn n l ++ [x].
Proof.
  unfold lastn. rewrite length_app. simpl.
  replace (length l + 1 - S n)%nat with (length l - n)%nat by lia.
  rewrite drop_app_le by lia. reflexivity.
Qed.

Lemma get_messages_positive st sid n :
  0 < n ->
  get_messages sid (Some n) st
  = (Returned (lastn (Z.to_nat n) (ledger st sid)), st).
Proof.
  intros Hn. unfold get_messages, get_session, bind, gets, ledger.
  destruct (sessions st !! sid) as [s|]; simpl.
  - destruct (Z.eqb_spec n 0) as [->|_]; [lia|].
    unfold ret. rewrite slice_from_neg_lastn by lia. reflexivity.
  - reflexivity.
Qed.

Lemma get_messages_all st sid :
  get_messages sid None st = (Returned (ledger st sid), st).
Proof.
  unfold get_messages, get_session, bind, gets, ledger.
  destruct (sessions st !! sid) as [s|]; reflexivity.
Qed.

(** X1.  A message handed to [add_message] is the last one that
    [get_messages] returns afterwards, whatever the positive limit of the
    read, and the read returns at most [limit] messages. *)
Theorem appended_message_is_read_back (st : State) (sid r c : string)
    (md : option (gmap string pyval)) (n : Z) :
  0 < max_history st ->
  0 < n ->
  exists earlier m st',
    (add_message sid r c md ;;; get_messages sid (Some n)) st
    = (Returned (earlier ++ [m]), st')
    /\ shown m = (r, c, default ∅ md)
    /\ Z.of_nat (length (earlier ++ [m])) <= n
    /\ Z.of_nat (length (earlier ++ [m])) <= max_history st.
Proof.
  intros Hh Hn.
  destruct (add_message_spec st sid r c md Hh) as (Hret & Hmax & _ & Hled & _).
  destruct (add_message sid r c md st) as [o st1] eqn:Hadd.
  simpl in Hret, Hmax, Hled. subst o.
  unfold bind at 1. rewrite Hadd.
  rewrite get_messages_positive by assumption.
  destruct (Z.to_nat (max_history st)) as [|h] eqn:Hk; [lia|].
  rewrite lastn_snoc in Hled.
  apply fmap_app_inv in Hled.
  destruct Hled as (l1 & l2 & Hl1 & Hl2 & Happ).
  destruct l2 as [|m [|? ?]]; try discriminate.
  assert (shown m = (r, c, default ∅ md)) as Hm by (simpl in Hl2; congruence).
  clear Hl2.
  destruct (Z.to_nat n) as [|k] eqn:Hnk; [lia|].
  exists (lastn k l1), m, st1.
  rewrite Happ, lastn_snoc. split; [reflexivity|]. split; [exact Hm|].
  rewrite !length_app, length_lastn. simpl.
  assert (length l1 = length (lastn h (shown <$> ledger st sid))) as Hlen
    by (rewrite Hl1, length_fmap; reflexivity).
  rewrite length_lastn in Hlen. lia.
Qed.

(** X2.  A limit that is not positive does not bound the read: with limit
    zero [get_messages] returns the whole ledger, with a negative limit
    [-k] it returns the ledger without its first [k] messages.  The state
    is not changed. *)
Theorem nonpositive_limit_drops_prefix (st : State) (sid : string) (n : Z) :
  n <= 0 ->
  get_messages sid (Some n) st
  = (Returned (drop (Z.to_nat (- n)) (ledger st sid)), st).
Proof.
  intros Hn. unfold get_messages, get_session, bind, gets, ledger.
  destruct (sessions st !! sid) as [s|]; simpl.
  - destruct (Z.eqb_spec n 0) as [->|Hne]; [reflexivity|].
    unfold ret, Py.slice_from.
    destruct (Z.ltb_spec (- n) 0) as [?|_]; [lia|].
    destruct (Z.le_ge_cases (- n) (Z.of_nat (length (messages s)))) as [Hle|Hge].
    + rewrite Z.min_l by lia. reflexivity.
    + rewrite Z.min_r by lia. rewrite Nat2Z.id.
      rewrite drop_all. rewrite drop_ge by lia. reflexivity.
  - rewrite drop_nil. reflexivity.
Qed.

Lemma update_context_run st sid k v :
  exists s' c,
    update_context sid k v st
    = (Returned tt,
       set_sessions (<[sid := s']> (sessions st)) (set_clock_reads c st))
    /\ context s' = <[k := v]> (context_of st sid)
    /\ messages s' = ledger st sid
    /\ active_tasks s' = active_of st sid.
Proof.
  unfold update_context, get_session, bind, gets, context_of, ledger, active_of.
  destruct (sessions st !! sid) as [s|] eqn:Hs; simpl.
  - eexists _, (S (clock_reads st)). split; [reflexivity|].
    simpl. auto.
  - eexists _, (S (S (S (clock_reads st)))). split; [reflexivity|].
    simpl. auto.
Qed.

(** X3.  [update_context] followed by the conversation manager's
    [get_context] reads the written value back under its key and the
    earlier values under every other key; the session is created when it
    is unknown, and neither its ledger, nor its active tasks, nor any
    other session is changed. *)
Theorem update_context_round_trip (st : State) (sid k : string) (v : pyval) :
  exists st',
    update_context sid k v st = (Returned tt, st')
    /\ ConversationManager_get_context sid st'
       = (Returned (<[k := v]> (context_of st sid)), st')
    /\ is_Some (sessions st' !! sid)
    /\ ledger st' sid = ledger st sid
    /\ active_of st' sid = active_of st sid
    /\ (forall sid', sid' <> sid -> sessions st' !! sid' = sessions st !! sid').
Proof.
  destruct (update_context_run st sid k v) as (s' & c & Hrun & Hc & Hm & Ha).
  eexists. split; [exact Hrun|].
  unfold ConversationManager_get_context, get_session, bind, gets, ledger, active_of.
  cbn [sessions set_sessions set_clock_reads].
  rewrite lookup_insert_eq. simpl.
  repeat split.
  - unfold ret. rewrite Hc. reflexivity.
  - eauto.
  - exact Hm.
  - exact Ha.
  - intros sid' Hne. rewrite lookup_insert_ne by congruence. reflexivity.
Qed.

(** X4.  [add_message] writes the ledger only: the context and the active
    tasks of every session, the one written to included, are what they
    were; so are the ledgers of the other sessions. *)
Theorem add_message_keeps_context (st : State) (sid r c : string)
    (md : option (gmap string pyval)) (sid' : string) :
  let st' := (add_message sid r c md st).2 in
  context_of st' sid' = context_of st sid'
  /\ active_of st' sid' = active_of st sid'
  /\ (sid' <> sid -> ledger st' sid' = ledger st sid').
Proof.
  unfold add_message, get_session, bind, gets, context_of, active_of, ledger.
  destruct (sessions st !! sid) as [s|] eqn:Hs; simpl.
  - destruct (decide (sid' = sid)) as [->|Hne].
    + rewrite lookup_insert_eq, Hs. simpl. repeat split; congruence.
    + rewrite lookup_insert_ne by congruence. auto.
  - destruct (decide (sid' = sid)) as [->|Hne].
    + rewrite lookup_insert_eq, Hs. simpl. repeat split; congruence.
    + rewrite lookup_insert_ne by congruence. auto.
Qed.

Lemma add_active_task_known st sid s tid :
  sessions st !! sid = Some s ->
  add_active_task sid tid st
  = (Returned tt,
     if bool_decide (tid ∈ active_tasks s) then st
     else set_sessions
            (<[sid := mkConversationState (session_id s) (messages s)
                        (context s) (active_tasks s ++ [tid])
                        (created_at s) (updated_at s)]> (sessions st)) st).
Proof.
  intros Hs. unfold add_active_task, get_session, bind, gets. rewrite Hs.
  destruct (bool_decide (tid ∈ active_tasks s)); reflexivity.
Qed.

Lemma add_active_task_unknown st sid tid :
  sessions st !! sid = None -> add_active_task sid tid st = (Returned tt, st).
Proof.
  intros Hs. unfold add_active_task, get_session, bind, gets. rewrite Hs.
  reflexivity.
Qed.

Lemma remove_active_task_known st sid s tid :
  sessions st !! sid = Some s ->
  remove_active_task sid tid st
  = (Returned tt,
     if bool_decide (tid ∈ active_tasks s) then
       set_sessions
         (<[sid := mkConversationState (session_id s) (messages s)
                     (context s) (list_remove tid (active_tasks s))
                     (created_at s) (updated_at s)]> (sessions st)) st
     else st).
Proof.
  intros Hs. unfold remove_active_task, get_session, bind, gets. rewrite Hs.
  destruct (bool_decide (tid ∈ active_tasks s)); reflexivity.
Qed.

Lemma remove_active_task_unknown st sid tid :
  sessions st !! sid = None -> remove_active_task sid tid st = (Returned tt, st).
Proof.
  intros Hs. unfold remove_active_task, get_session, bind, gets. rewrite Hs.
  reflexivity.
Qed.

Lemma list_remove_snoc (x : string) (l : list string) :
  x ∉ l -> list_remove x (l ++ [x]) = l.
Proof.
  induction l as [|y l IH]; intros Hx; simpl.
  - rewrite String.eqb_refl. reflexivity.
  - apply not_elem_of_cons in Hx as [Hne Hx].
    destruct (String.eqb_spec y x) as [->|_]; [congruence|].
    rewrite IH by assumption. reflexivity.
Qed.

Lemma filter_keeps_all {A} (P : A -> Prop) `{forall x, Decision (P x)}
    (l : list A) :
  (forall x, x ∈ l -> P x) -> filter P l = l.
Proof.
  induction l as [|y l IH]; intros Hall; [reflexivity|].
  rewrite filter_cons_True by (apply Hall; left).
  rewrite IH; [reflexivity|]. intros x Hx. apply Hall. right. exact Hx.
Qed.

Lemma list_remove_filter (x : string) (l : list string) :
  NoDup l -> list_remove x l = filter (fun y => y <> x) l.
Proof.
  induction 1 as [|y l Hy Hl IH]; simpl; [reflexivity|].
  destruct (String.eqb_spec y x) as [->|Hne].
  - rewrite filter_cons_False by (intros H; apply H; reflexivity).
    symmetry. apply filter_keeps_all. intros z Hz ->. contradiction.
  - rewrite filter_cons_True by assumption. rewrite IH. reflexivity.
Qed.

(** Removing a task right after adding it restores the state, when the
    task was not active before. *)
Lemma remove_undoes_add (st : State) (sid tid : string) :
  tid ∉ active_of st sid ->
  (add_active_task sid tid ;;; remove_active_task sid tid) st = (Returned tt, st).
Proof.
  intros Hnot. unfold bind at 1.
  destruct (sessions st !! sid) as [s|] eqn:Hs.
  - unfold active_of in Hnot. rewrite Hs in Hnot. simpl in Hnot.
    rewrite (add_active_task_known st sid s tid Hs).
    rewrite bool_decide_eq_false_2 by assumption.
    erewrite remove_active_task_known
      by (cbn [sessions set_sessions]; apply lookup_insert_eq).
    cbn [active_tasks session_id messages context created_at updated_at].
    rewrite bool_decide_eq_true_2 by (apply elem_of_app; right; left).
    rewrite list_remove_snoc by assumption.
    cbn [sessions set_sessions].
    rewrite insert_insert_eq, ConversationState_eta.
    rewrite insert_id by assumption.
    destruct st; reflexivity.
  - rewrite (add_active_task_unknown st sid tid Hs).
    apply remove_active_task_unknown. exact Hs.
Qed.

(** X5.  [add_active_task] is idempotent, and it does not create
    sessions: on an unknown session it changes nothing (unlike
    [add_message] and [update_context]), on a known one the task is
    active afterwards, and the ledger and the context are untouched.
    [remove_active_task] undoes it: removing a task right after adding
    it restores the state, when the task was not active before. *)
Theorem add_active_task_idempotent (st : State) (sid tid : string) :
  let st' := (add_active_task sid tid st).2 in
  (add_active_task sid tid st').2 = st'
  /\ (sessions st !! sid = None -> st' = st)
  /\ (is_Some (sessions st !! sid) -> tid ∈ active_of st' sid)
  /\ ledger st' sid = ledger st sid
  /\ context_of st' sid = context_of st sid
  /\ ((tid ∉ active_of st sid) ->
      (add_active_task sid tid ;;; remove_active_task sid tid) st
      = (Returned tt, st)).
Proof.
  intros st'.
  assert ((add_active_task sid tid st').2 = st'
          /\ (sessions st !! sid = None -> st' = st)
          /\ (is_Some (sessions st !! sid) -> tid ∈ active_of st' sid)
          /\ ledger st' sid = ledger st sid
          /\ context_of st' sid = context_of st sid) as (H1 & H2 & H3 & H4 & H5).
  { subst st'. destruct (sessions st !! sid) as [s|] eqn:Hs.
    - rewrite (add_active_task_known st sid s tid Hs). simpl.
      case_bool_decide as Hin.
      + rewrite (add_active_task_known st sid s tid Hs).
        rewrite bool_decide_eq_true_2 by assumption. simpl.
        unfold active_of, ledger, context_of. rewrite Hs. simpl.
        repeat split; try congruence; intros _; exact Hin.
      + erewrite add_active_task_known
          by (cbn [sessions set_sessions]; apply lookup_insert_eq).
        cbn [active_tasks].
        rewrite bool_decide_eq_true_2 by (apply elem_of_app; right; left).
        unfold active_of, ledger, context_of. cbn [sessions set_sessions snd].
        rewrite lookup_insert_eq, Hs. simpl.
        repeat split; try congruence; intros _; apply elem_of_app; right; left.
    - rewrite (add_active_task_unknown st sid tid Hs). simpl.
      rewrite (add_active_task_unknown st sid tid Hs). simpl.
      repeat split; try reflexivity; intros [? ?]; discriminate. }
  repeat split; try assumption.
  apply remove_undoes_add.
Qed.

(** X6.  On a session whose active tasks hold no task twice,
    [remove_active_task] leaves exactly the other tasks, in their order;
    the removed task is not active afterwards, and the ledger and the
    context are unchanged. *)
Theorem remove_active_task_removes (st : State) (sid tid : string) :
  NoDup (active_of st sid) ->
  let st' := (remove_active_task sid tid st).2 in
  active_of st' sid = filter (fun t => t <> tid) (active_of st sid)
  /\ (tid ∉ active_of st' sid)
  /\ NoDup (active_of st' sid)
  /\ ledger st' sid = ledger st sid
  /\ context_of st' sid = context_of st sid.
Proof.
  intros Hnd st'.
  assert (active_of st' sid = filter (fun t => t <> tid) (active_of st sid)
          /\ ledger st' sid = ledger st sid
          /\ context_of st' sid = context_of st sid) as (Ha & Hl & Hc).
  { subst st'. destruct (sessions st !! sid) as [s|] eqn:Hs.
    - rewrite (remove_active_task_known st sid s tid Hs). simpl.
      unfold active_of, ledger, context_of in *. rewrite Hs in *. simpl in Hnd.
      case_bool_decide as Hin.
      + cbn [sessions set_sessions]. rewrite lookup_insert_eq. simpl.
        rewrite list_remove_filter by assumption. auto.
      + rewrite Hs. simpl. split; [|auto].
        symmetry. apply filter_keeps_all. intros z Hz ->. contradiction.
    - rewrite (remove_active_task_unknown st sid tid Hs). simpl.
      unfold active_of. rewrite Hs. auto. }
  repeat split; try assumption.
  - rewrite Ha. intros Hin. apply list_elem_of_filter in Hin as [Hne _].
    apply Hne. reflexivity.
  - rewrite Ha. apply NoDup_filter. exact Hnd.
Qed.

(** X7.  After [clear_session] of the conversation manager the session is
    unknown to every reader: no messages under any limit, an empty
    context, the summary of an empty conversation, an empty export; a
    task cannot be made active on it; the other sessions are as they
    were. *)
Theorem cleared_session_is_unknown (st : State) (sid : string) :
  let st' := (ConversationManager_clear_session sid st).2 in
  (forall limit, get_messages sid limit st' = (Returned [], st'))
  /\ ConversationManager_get_context sid st' = (Returned ∅, st')
  /\ get_conversation_summary sid st' = (Returned "No conversation history.", st')
  /\ export_session sid st' = (Returned ∅, st')
  /\ (forall tid, add_active_task sid tid st' = (Returned tt, st'))
  /\ (forall sid', sid' <> sid -> sessions st' !! sid' = sessions st !! sid').
Proof.
  intros st'.
  assert (sessions st' !! sid = None) as Hnone
    by (subst st'; simpl; apply lookup_delete_eq).
  repeat split.
  - intros limit. unfold get_messages, get_session, bind, gets.
    rewrite Hnone. reflexivity.
  - unfold ConversationManager_get_context, get_session, bind, gets.
    rewrite Hnone. reflexivity.
  - unfold get_conversation_summary, bind. rewrite get_messages_all.
    unfold ledger. rewrite Hnone. reflexivity.
  - unfold export_session, get_session, bind, gets. rewrite Hnone. reflexivity.
  - intros tid. apply add_active_task_unknown. exact Hnone.
  - intros sid' Hne. subst st'. simpl. apply lookup_delete_ne. congruence.
Qed.

(** What [create_session] registers: an empty session, whatever was
    registered under the identifier before. *)
Lemma created_session_is_empty (st : State) (fresh : string) :
  exists st',
    create_session fresh st = (Returned fresh, st')
    /\ is_Some (sessions st' !! fresh)
    /\ ledger st' fresh = []
    /\ context_of st' fresh = ∅
    /\ active_of st' fresh = []
    /\ (forall tid, active_of (add_active_task fresh tid st').2 fresh = [tid])
    /\ (forall sid', sid' <> fresh -> sessions st' !! sid' = sessions st !! sid').
Proof.
  eexists. split; [reflexivity|].
  unfold ledger, context_of, active_of. cbn [sessions set_sessions set_clock_reads].
  rewrite lookup_insert_eq. simpl.
  repeat split; eauto.
  - intros tid.
    erewrite add_active_task_known
      by (cbn [sessions set_sessions]; apply lookup_insert_eq).
    cbn [active_tasks]. rewrite bool_decide_eq_false_2 by (apply not_elem_of_nil).
    cbn [sessions set_sessions snd]. rewrite lookup_insert_eq. reflexivity.
  - intros sid' Hne. rewrite lookup_insert_ne by congruence. reflexivity.
Qed.

(** ** Further properties of the memory service *)

Lemma minute_positive : 0 < minute.
Proof. reflexivity. Qed.

Lemma entries_after_store st sid k v ttl expires :
  let c := clock_reads st in
  let st' := (store_short_term sid k v ttl st).2 in
  expires_after (utcnow_readings st (S c)) ttl = Some expires ->
  short_term_memory st' !! sid
  = Some (filter (fun e => utcnow_readings st (S (S c)) < entry_expires_at e)
            (entries st sid
             ++ [mkMemEntry k v (utcnow_readings st c) expires]))
  /\ utcnow_readings st' = utcnow_readings st
  /\ clock_reads st' = (3 + c)%nat
  /\ sessions st' = sessions st
  /\ context_cache st' = context_cache st.
Proof.
  intros c st' Hexp. subst st'.
  rewrite (store_short_term_spec st sid k v ttl expires Hexp). simpl.
  rewrite lookup_insert_eq. auto.
Qed.

Lemma entries_after_raise st sid k v ttl :
  let st' := (store_short_term sid k v ttl st).2 in
  expires_after (utcnow_readings st (S (clock_reads st))) ttl = None ->
  short_term_memory st' !! sid = Some (entries st sid)
  /\ utcnow_readings st' = utcnow_readings st
  /\ clock_reads st' = (2 + clock_reads st)%nat
  /\ sessions st' = sessions st
  /\ context_cache st' = context_cache st.
Proof.
  intros st' Hexp. subst st'.
  destruct (store_short_term_raises st sid k v ttl Hexp) as [msg ->]. simpl.
  rewrite lookup_insert_eq. auto.
Qed.

(** X8.  An entry stored with a time to live that is not positive is
    never readable, under a clock that does not go back.  When the expiry
    [utcnow() + timedelta(minutes=ttl)] is a date the interpreter can
    represent, the call returns and the sweep at its end removes the
    entry at once, so the session holds what it held before, less what
    has expired.  When it is not (a time to live so far below zero that
    [timedelta] or the addition overflows), the call raises
    [OverflowError] before anything is appended and the session holds
    what it held before.  Either way a key that was not there before
    reads as [None] afterwards. *)
Theorem nonpositive_ttl_is_never_stored (st : State) (sid k : string)
    (v : pyval) (ttl : Z) :
  monotone_clock st ->
  ttl <= 0 ->
  let c := clock_reads st in
  let run := store_short_term sid k v ttl st in
  match expires_after (utcnow_readings st (S c)) ttl with
  | Some _ =>
      run.1 = Returned tt
      /\ entries run.2 sid
         = filter (fun e => utcnow_readings st (S (S c)) < entry_expires_at e)
             (entries st sid)
  | None =>
      (exists msg, run.1 = Raised (OverflowError msg))
      /\ entries run.2 sid = entries st sid
  end
  /\ (k <> "" ->
      (forall e, e ∈ entries st sid -> entry_key e <> k) ->
      (get_short_term sid (Some k) run.2).1 = Returned VNone).
Proof.
  intros Hmono Httl c run.
  pose proof (store_short_term_outcome st sid k v ttl) as Hout. fold c run in Hout.
  assert (forall es,
            short_term_memory run.2 !! sid = Some es ->
            (forall e, e ∈ es -> e ∈ entries st sid) ->
            k <> "" ->
            (forall e, e ∈ entries st sid -> entry_key e <> k) ->
            (get_short_term sid (Some k) run.2).1 = Returned VNone) as Hread.
  { intros es Hmem Hsub Hk Hfresh.
    assert (keyed (Some k) = true) as Hkeyed
      by (simpl; destruct (String.eqb_spec k ""); [contradiction|reflexivity]).
    rewrite (get_short_term_present run.2 sid (Some k) _ Hmem). cbv zeta.
    rewrite Hkeyed. cbn [fst default].
    f_equal. apply find_latest_miss.
    intros e He. apply list_elem_of_filter in He as [_ He].
    apply Hfresh, Hsub, He. }
  destruct (expires_after (utcnow_readings st (S c)) ttl) as [expires|] eqn:Hexp.
  - destruct (entries_after_store st sid k v ttl expires Hexp) as (Hmem & _).
    fold c run in Hmem.
    destruct (expires_after_Some _ _ _ Hexp) as (_ & _ & Hsum & _).
    assert (filter (fun e => utcnow_readings st (S (S c)) < entry_expires_at e)
              (entries st sid ++ [mkMemEntry k v (utcnow_readings st c) expires])
            = filter (fun e => utcnow_readings st (S (S c)) < entry_expires_at e)
                (entries st sid)) as Hdrop.
    { rewrite filter_app, filter_cons_False, filter_nil, app_nil_r; [reflexivity|].
      simpl. pose proof (Hmono (S c) (S (S c)) ltac:(lia)).
      pose proof minute_positive. nia. }
    rewrite Hdrop in Hmem.
    split; [split; [exact Hout|]|].
    + unfold entries at 1. rewrite Hmem. reflexivity.
    + apply (Hread _ Hmem).
      intros e He. apply list_elem_of_filter in He as [_ He]. exact He.
  - destruct (entries_after_raise st sid k v ttl Hexp) as (Hmem & _).
    fold run in Hmem.
    split; [split; [exact Hout|]|].
    + unfold entries at 1. rewrite Hmem. reflexivity.
    + apply (Hread _ Hmem). auto.
Qed.

(** X9.  A value stored under a non-empty key is read back by the next
    [get_short_term] for that key, whatever the session held before,
    when the clock does not go back, the expiry
    [utcnow() + timedelta(minutes=ttl)] is a date the interpreter can
    represent and the read comes before it.  When the expiry is not
    representable the store raises [OverflowError] and the read is never
    reached. *)
Theorem stored_value_is_read_back (st : State) (sid k : string)
    (v : pyval) (ttl : Z) :
  monotone_clock st ->
  k <> "" ->
  match expires_after (utcnow_readings st (1 + clock_reads st)) ttl with
  | Some expires =>
      expires = utcnow_readings st (1 + clock_reads st) + ttl * minute
      /\ (utcnow_readings st (3 + clock_reads st) < expires ->
          ((store_short_term sid k v ttl ;;; get_short_term sid (Some k)) st).1
          = Returned v)
  | None =>
      exists msg,
        ((store_short_term sid k v ttl ;;; get_short_term sid (Some k)) st).1
        = Raised (OverflowError msg)
  end.
Proof.
  intros Hmono Hk.
  destruct (expires_after (utcnow_readings st (1 + clock_reads st)) ttl)
    as [expires|] eqn:Hexp.
  - split; [apply (expires_after_Some _ _ _ Hexp)|]. intros Hfresh.
    destruct (entries_after_store st sid k v ttl expires Hexp)
      as (Hmem & Hclock & Hreads & _ & _).
    unfold bind at 1.
    destruct (store_short_term sid k v ttl st) as [o st'] eqn:Hrun.
    assert (o = Returned tt) as ->
      by (rewrite (store_short_term_spec st sid k v ttl expires Hexp) in Hrun;
          congruence).
    simpl in Hmem, Hclock, Hreads.
    assert (keyed (Some k) = true) as Hkeyed
      by (simpl; destruct (String.eqb_spec k ""); [contradiction|reflexivity]).
    rewrite (get_short_term_present st' sid (Some k) _ Hmem). cbv zeta.
    rewrite Hkeyed. cbn [fst default].
    f_equal. unfold now. rewrite Hclock, Hreads.
    rewrite filter_live_mono by (apply Hmono; lia).
    rewrite filter_app, filter_cons_True by (simpl; exact Hfresh).
    rewrite filter_nil.
    apply (find_latest_hit k _ (mkMemEntry k v _ _) []); [reflexivity|].
    intros e He. apply elem_of_nil in He. contradiction.
  - destruct (store_short_term_raises st sid k v ttl Hexp) as [msg Hrun].
    exists msg. unfold bind at 1. rewrite Hrun. reflexivity.
Qed.

Lemma typed_context_read st sid ty :
  ty <> "" ->
  MemoryService_get_context sid (Some ty) st
  = (Returned (from_option VDict VNone (cached st sid ty)), st).
Proof.
  intros Hty. unfold MemoryService_get_context, bind, gets, cached.
  destruct (context_cache st !! sid) as [c|]; simpl; [|reflexivity].
  destruct (String.eqb_spec ty "") as [?|_]; [contradiction|]. simpl.
  destruct (c !! ty); reflexivity.
Qed.

(** X10.  [store_context] followed by [get_context] of the memory service
    with the same non-empty context type reads the stored data back; the
    last write for a type wins, and the data of every other type and of
    every other session, and the short-term memory, are as they were. *)
Theorem stored_context_is_read_back (st : State) (sid ty : string)
    (data : gmap string pyval) :
  ty <> "" ->
  exists st',
    store_context sid ty data st = (Returned tt, st')
    /\ MemoryService_get_context sid (Some ty) st' = (Returned (VDict data), st')
    /\ (forall ty', ty' <> ty -> cached st' sid ty' = cached st sid ty')
    /\ (forall sid' ty', sid' <> sid -> cached st' sid' ty' = cached st sid' ty')
    /\ (forall data',
          MemoryService_get_context sid (Some ty)
            (store_context sid ty data' st').2
          = (Returned (VDict data'), (store_context sid ty data' st').2))
    /\ short_term_memory st' = short_term_memory st.
Proof.
  intros Hty.
  assert (forall st0 d, cached (store_context sid ty d st0).2 sid ty = Some d) as Hhit.
  { intros st0 d. unfold cached, store_context, bind, utcnow, modify. simpl.
    rewrite lookup_insert_eq. simpl. rewrite lookup_insert_eq. reflexivity. }
  eexists. split; [reflexivity|].
  repeat split.
  - rewrite typed_context_read by assumption.
    pose proof (Hhit st data) as H. simpl in H. unfold cached in *.
    cbn [context_cache set_context_cache set_clock_reads] in *.
    rewrite H. reflexivity.
  - intros ty' Hne. unfold cached.
    cbn [context_cache set_context_cache set_clock_reads].
    rewrite lookup_insert_eq. simpl. rewrite lookup_insert_ne by congruence.
    destruct (context_cache st !! sid); reflexivity.
  - intros sid' ty' Hne. unfold cached.
    cbn [context_cache set_context_cache set_clock_reads].
    rewrite lookup_insert_ne by congruence. reflexivity.
  - intros data'. rewrite typed_context_read by assumption.
    rewrite Hhit. reflexivity.
Qed.

Lemma get_context_run st sid :
  get_context sid st
  = (Returned ((fun c : gmap string ContextEntry =>
                  (fun e => VDict (ctx_data e)) <$> c) <$> context_cache st !! sid),
     st).
Proof. reflexivity. Qed.

Lemma get_context_lookup st sid ty :
  (((get_context sid st).1 : outcome (option (gmap string pyval)))
   = Returned ((fun c : gmap string ContextEntry =>
                  (fun e => VDict (ctx_data e)) <$> c) <$> context_cache st !! sid))
  /\ ((fun c : gmap string ContextEntry =>
         (fun e => VDict (ctx_data e)) <$> c) <$> context_cache st !! sid)
       ≫= (fun c => c !! ty)
     = VDict <$> cached st sid ty.
Proof.
  split; [reflexivity|]. unfold cached.
  destruct (context_cache st !! sid) as [c|]; simpl; [|reflexivity].
  rewrite lookup_fmap. destruct (c !! ty); reflexivity.
Qed.

Lemma truthy_views (l : list MemEntry) :
  Py.truthy (VList (entry_view <$> l))
  = match l with [] => false | _ => true end.
Proof. destruct l; reflexivity. Qed.

(** What [get_short_term] without a key returns and leaves behind: the
    views of the entries that have not expired, which are the entries the
    session holds afterwards. *)
Lemma get_short_term_live st sid :
  exists st',
    get_short_term sid None st
    = (Returned (VList (entry_view <$> live_entries st sid)), st')
    /\ entries st' sid = live_entries st sid
    /\ sessions st' = sessions st
    /\ context_cache st' = context_cache st.
Proof.
  unfold live_entries, entries.
  destruct (short_term_memory st !! sid) as [es|] eqn:Hes.
  - rewrite (get_short_term_present st sid None es Hes). simpl.
    eexists. split; [reflexivity|]. simpl. rewrite lookup_insert_eq. auto.
  - rewrite (get_short_term_absent st sid None Hes). simpl.
    eexists. split; [reflexivity|]. rewrite Hes. auto.
Qed.

(** X11.  After [clear_session] of the memory service the session has no
    short-term entry and no context: every read answers as for a session
    never written to, and the relevant context is empty.  The other
    sessions' memory and the conversation ledgers are as they were. *)
Theorem cleared_memory_is_empty (st : State) (sid : string) :
  let st' := (MemoryService_clear_session sid st).2 in
  (forall key, get_short_term sid key st'
               = (Returned (if keyed key then VNone else VList []), st'))
  /\ (forall ty, MemoryService_get_context sid ty st' = (Returned VNone, st'))
  /\ (forall q, get_relevant_context sid q st' = (Returned ∅, st'))
  /\ (forall sid', sid' <> sid ->
        short_term_memory st' !! sid' = short_term_memory st !! sid'
        /\ context_cache st' !! sid' = context_cache st !! sid')
  /\ sessions st' = sessions st.
Proof.
  intros st'.
  assert (short_term_memory st' !! sid = None) as Hmem
    by (subst st'; simpl; apply lookup_delete_eq).
  assert (context_cache st' !! sid = None) as Hctx
    by (subst st'; simpl; apply lookup_delete_eq).
  repeat split.
  - intros key. apply get_short_term_absent. exact Hmem.
  - intros ty. unfold MemoryService_get_context, bind, gets. rewrite Hctx.
    reflexivity.
  - intros q. unfold get_relevant_context.
    erewrite bind_returned by (apply get_short_term_absent; exact Hmem).
    simpl. unfold bind at 1. unfold ret at 1.
    unfold bind. rewrite get_context_run, Hctx. reflexivity.
  - subst st'. simpl. apply lookup_delete_ne. congruence.
  - subst st'. simpl. apply lookup_delete_ne. congruence.
Qed.

(** X12.  [store_long_term] merges: the record of the entity afterwards
    holds the new value of every key of [data], the earlier value of
    every other key, and under ['updated_at'] the time of the write,
    also when [data] brings an ['updated_at'] of its own; the records of
    the other entities are as they were. *)
Theorem long_term_store_merges (st : State) (e : string)
    (data : gmap string pyval) (ltm : gmap string (gmap string pyval)) :
  exists ltm' st' d,
    store_long_term e data ltm st = (Returned ltm', st')
    /\ get_long_term e ltm' = Some d
    /\ d !! "updated_at" = Some (VStr (isoformat (now st)))
    /\ (forall k v, k <> "updated_at" -> data !! k = Some v -> d !! k = Some v)
    /\ (forall k, k <> "updated_at" -> data !! k = None ->
          d !! k = default ∅ (get_long_term e ltm) !! k)
    /\ (forall e', e' <> e -> get_long_term e' ltm' = get_long_term e' ltm).
Proof.
  eexists _, _, _. split; [reflexivity|].
  unfold get_long_term. rewrite lookup_insert_eq.
  split; [reflexivity|]. split; [apply lookup_insert_eq|].
  repeat split.
  - intros k v Hk Hv. rewrite lookup_insert_ne by congruence.
    apply lookup_union_Some_l. exact Hv.
  - intros k Hk Hv. rewrite lookup_insert_ne by congruence.
    rewrite lookup_union_r by exact Hv. reflexivity.
  - intros e' Hne. rewrite lookup_insert_ne by congruence. reflexivity.
Qed.

(** X13.  The relevant context of a session holds the data of every
    stored context type under the name of the type, and nothing else but
    ['recent_interactions']: the views of the last five short-term
    entries that have not expired, present when there is one and no
    context type of that name takes its place. *)
Theorem relevant_context_shape (st : State) (sid q : string) :
  exists ctx st',
    get_relevant_context sid q st = (Returned ctx, st')
    /\ (forall ty data, cached st sid ty = Some data ->
          ctx !! ty = Some (VDict data))
    /\ (cached st sid "recent_interactions" = None ->
        ctx !! "recent_interactions"
        = match live_entries st sid with
          | [] => None
          | l => Some (VList (entry_view <$> lastn 5 l))
          end)
    /\ (forall k, k <> "recent_interactions" -> cached st sid k = None ->
          ctx !! k = None)
    /\ entries st' sid = live_entries st sid
    /\ sessions st' = sessions st
    /\ context_cache st' = context_cache st.
Proof.
  destruct (get_short_term_live st sid) as (st1 & Hread & Hent & Hses & Hcache).
  set (recent := match live_entries st sid with
                 | [] => (∅ : gmap string pyval)
                 | l => {[ "recent_interactions"
                           := VList (entry_view <$> lastn 5 l) ]}
                 end).
  set (held := (fun c : gmap string ContextEntry =>
                  (fun e => VDict (ctx_data e)) <$> c)
               <$> context_cache st !! sid).
  assert (get_relevant_context sid q st
          = (Returned (default ∅ held ∪ recent), st1)) as Hrun.
  { unfold get_relevant_context.
    rewrite (bind_returned _ _ _ _ _ Hread).
    assert ((if Py.truthy (VList (entry_view <$> live_entries st sid))
             then ret (<["recent_interactions" :=
                          VList (Py.slice_from (-5)
                                   (entry_view <$> live_entries st sid))]> ∅)
             else ret (∅ : gmap string pyval)) st1
            = (Returned recent, st1)) as Hrecent.
    { subst recent. rewrite truthy_views.
      destruct (live_entries st sid) as [|e l] eqn:Hl; [reflexivity|].
      unfold ret. rewrite insert_empty.
      change (-5) with (- (5)). rewrite slice_from_neg_lastn by lia.
      change (Z.to_nat 5) with 5%nat. rewrite <- fmap_lastn. reflexivity. }
    rewrite (bind_returned _ _ _ _ _ Hrecent).
    unfold bind. rewrite get_context_run, Hcache. fold held.
    destruct held as [c|]; simpl.
    - case_bool_decide as Hc; [|reflexivity].
      subst c. unfold ret. rewrite (left_id_L ∅ (∪)). reflexivity.
    - unfold ret. rewrite (left_id_L ∅ (∪)). reflexivity. }
  assert (forall k, default ∅ held !! k = VDict <$> cached st sid k) as Hheld.
  { intros k. destruct (get_context_lookup st sid k) as [_ H]. fold held in H.
    rewrite <- H. destruct held; [reflexivity|]. simpl. apply lookup_empty. }
  exists (default ∅ held ∪ recent), st1. split; [exact Hrun|].
  repeat split; try assumption.
  - intros ty data Hc. apply lookup_union_Some_l. rewrite Hheld, Hc. reflexivity.
  - intros Hc. rewrite lookup_union_r by (rewrite Hheld, Hc; reflexivity).
    subst recent. destruct (live_entries st sid); [apply lookup_empty|].
    apply lookup_singleton_eq.
  - intros k Hk Hc. rewrite lookup_union_r by (rewrite Hheld, Hc; reflexivity).
    subst recent. destruct (live_entries st sid); [apply lookup_empty|].
    apply lookup_singleton_ne. congruence.
Qed.

(** X14.  [get_status] always returns, and reports the session as the
    three stores hold it: the data of every context type, the views of
    the last five short-term entries that have not expired (never more
    than five), and the number of messages of the ledger.  It changes no
    ledger and no context; like every read of the short-term memory it
    sweeps the session's expired entries. *)
Theorem get_status_reads (st : State) (sid : string) :
  exists s st',
    get_status sid st = (Returned s, st')
    /\ status_session_id s = sid
    /\ (forall ty, status_context s ≫= (fun c => c !! ty)
                   = VDict <$> cached st sid ty)
    /\ status_recent_actions s = entry_view <$> lastn 5 (live_entries st sid)
    /\ (length (status_recent_actions s) <= 5)%nat
    /\ status_conversation_length s = length (ledger st sid)
    /\ entries st' sid = live_entries st sid
    /\ sessions st' = sessions st
    /\ context_cache st' = context_cache st.
Proof.
  destruct (get_short_term_live st sid) as (st1 & Hread & Hent & Hses & Hcache).
  assert (get_status sid st
          = (Returned (mkStatus sid
                         ((fun c : gmap string ContextEntry =>
                             (fun e => VDict (ctx_data e)) <$> c)
                          <$> context_cache st !! sid)
                         (entry_view <$> lastn 5 (live_entries st sid))
                         (length (ledger st sid))), st1)) as Hrun.
  { unfold get_status.
    rewrite (bind_returned _ _ _ _ _ (get_context_run st sid)).
    rewrite (bind_returned _ _ _ _ _ Hread).
    assert ((if Py.truthy (VList (entry_view <$> live_entries st sid))
             then ret (Py.slice_from (-5) (entry_view <$> live_entries st sid))
             else ret []) st1
            = (Returned (entry_view <$> lastn 5 (live_entries st sid)), st1))
      as Hrecent.
    { rewrite truthy_views.
      destruct (live_entries st sid) as [|e l] eqn:Hl; [reflexivity|].
      unfold ret. change (-5) with (- (5)).
      rewrite slice_from_neg_lastn by lia.
      change (Z.to_nat 5) with 5%nat. rewrite <- fmap_lastn. reflexivity. }
    rewrite (bind_returned _ _ _ _ _ Hrecent).
    rewrite (bind_returned _ _ _ _ _ (get_messages_all st1 sid)).
    unfold ret, ledger. rewrite Hses. reflexivity. }
  eexists _, st1. split; [exact Hrun|]. cbn [status_session_id status_context
    status_recent_actions status_conversation_length].
  repeat split; try assumption.
  - intros ty. apply get_context_lookup.
  - rewrite length_fmap, length_lastn. lia.
Qed.

(** ** Further properties of the text-generation service *)

Lemma fails_next_step k (st : State) :
  fails_next (S k) st -> fails_next k (set_api_calls (S (api_calls st)) st).
Proof.
  intros H i Hi. destruct (H (S i) ltac:(lia)) as [msg Hmsg].
  exists msg. simpl. rewrite <- Hmsg. f_equal. lia.
Qed.

Lemma loop_retries max_retries attempt todo st msg :
  api_outcomes st (api_calls st) = ApiError msg ->
  attempt < max_retries - 1 ->
  generate_response_loop max_retries attempt (S todo) st
  = generate_response_loop max_retries (attempt + 1) todo
      (set_api_calls (S (api_calls st)) st).
Proof.
  intros Hmsg Hlt. cbn [generate_response_loop].
  unfold bind, generate_content. rewrite Hmsg.
  destruct (Z.ltb_spec attempt (max_retries - 1)) as [_|?]; [|lia].
  destruct (Py.contains "429" msg || Py.contains "RESOURCE_EXHAUSTED" msg);
    reflexivity.
Qed.

Lemma loop_gives_up max_retries attempt todo st msg :
  api_outcomes st (api_calls st) = ApiError msg ->
  max_retries - 1 <= attempt ->
  generate_response_loop max_retries attempt (S todo) st
  = (Raised (last_attempt_error msg), set_api_calls (S (api_calls st)) st).
Proof.
  intros Hmsg Hge. cbn [generate_response_loop].
  unfold bind, generate_content. rewrite Hmsg.
  destruct (Z.ltb_spec attempt (max_retries - 1)) as [?|_]; [lia|].
  unfold last_attempt_error.
  destruct (Py.contains "429" msg || Py.contains "RESOURCE_EXHAUSTED" msg);
    reflexivity.
Qed.

Lemma loop_first_answer max_retries text k : forall attempt todo st,
  fails_next k st ->
  api_outcomes st (api_calls st + k)%nat = ApiText text ->
  (k < todo)%nat ->
  attempt + Z.of_nat k < max_retries ->
  generate_response_loop max_retries attempt todo st
  = (Returned text, set_api_calls (S (api_calls st + k)) st).
Proof.
  induction k as [|k IH]; intros attempt todo st Hfail Htext Htodo Hatt;
    (destruct todo as [|todo]; [lia|]).
  - cbn [generate_response_loop]. unfold bind, generate_content.
    rewrite Nat.add_0_r in Htext. rewrite Htext, Nat.add_0_r. reflexivity.
  - destruct (Hfail 0%nat ltac:(lia)) as [msg Hmsg].
    rewrite Nat.add_0_r in Hmsg.
    rewrite (loop_retries _ _ _ _ msg) by (assumption || lia).
    rewrite IH.
    + simpl. replace (S (api_calls st + k)) with (api_calls st + S k)%nat by lia.
      reflexivity.
    + apply fails_next_step. exact Hfail.
    + simpl. rewrite <- Htext. f_equal. lia.
    + lia.
    + lia.
Qed.

(** X15.  [generate_response] returns the first text the endpoint
    answers with, when fewer than [max_retries] failures come before it;
    each failure, whatever its kind, costs one call and nothing else, so
    the text after [k] failures is returned after exactly [k + 1]
    calls. *)
Theorem generate_response_first_answer (st : State) (max_retries : Z)
    (k : nat) (text : string) :
  fails_next k st ->
  api_outcomes st (api_calls st + k)%nat = ApiText text ->
  Z.of_nat k < max_retries ->
  generate_response max_retries st
  = (Returned text, set_api_calls (S (api_calls st + k)) st).
Proof.
  intros Hfail Htext Hk. unfold generate_response.
  apply loop_first_answer; try assumption; lia.
Qed.

Lemma loop_exhausted max_retries last_msg n : forall attempt st,
  fails_next n st ->
  api_outcomes st (api_calls st + n)%nat = ApiError last_msg ->
  attempt + Z.of_nat n = max_retries - 1 ->
  generate_response_loop max_retries attempt (S n) st
  = (Raised (last_attempt_error last_msg),
     set_api_calls (S (api_calls st + n)) st).
Proof.
  induction n as [|n IH]; intros attempt st Hfail Hlast Hatt.
  - rewrite Nat.add_0_r in *. apply loop_gives_up; [assumption|lia].
  - destruct (Hfail 0%nat ltac:(lia)) as [msg Hmsg].
    rewrite Nat.add_0_r in Hmsg.
    rewrite (loop_retries _ _ _ _ msg) by (assumption || lia).
    rewrite IH.
    + simpl. replace (S (api_calls st + n)) with (api_calls st + S n)%nat by lia.
      reflexivity.
    + apply fails_next_step. exact Hfail.
    + simpl. rewrite <- Hlast. f_equal. lia.
    + lia.
Qed.

(** X16.  When every one of the [max_retries] attempts fails,
    [generate_response] raises after exactly [max_retries] calls, and the
    exception is the one of the last failure alone: the quota message
    when that failure is a rate-limit error, the generic message with the
    error text otherwise.  The earlier failures leave no trace. *)
Theorem generate_response_gives_up (st : State) (max_retries : Z)
    (last_msg : string) :
  0 < max_retries ->
  fails_next (Z.to_nat max_retries - 1) st ->
  api_outcomes st (api_calls st + (Z.to_nat max_retries - 1))%nat
  = ApiError last_msg ->
  generate_response max_retries st
  = (Raised (last_attempt_error last_msg),
     set_api_calls (api_calls st + Z.to_nat max_retries) st).
Proof.
  intros Hpos Hfail Hlast. unfold generate_response.
  destruct (Z.to_nat max_retries) as [|n] eqn:Hn; [lia|].
  replace (S n - 1)%nat with n in * by lia.
  rewrite (loop_exhausted max_retries last_msg n) by (assumption || lia).
  do 2 f_equal. lia.
Qed.

Lemma last_attempt_error_not_max_retries msg :
  last_attempt_error msg <> Exception "Max retries exceeded".
Proof.
  unfold last_attempt_error.
  destruct (Py.contains "429" msg || Py.contains "RESOURCE_EXHAUSTED" msg);
    simpl; intros H; discriminate H.
Qed.

Lemma loop_ends max_retries todo : forall attempt st,
  attempt + Z.of_nat todo = max_retries ->
  (0 < todo)%nat ->
  exists st',
    (exists text, generate_response_loop max_retries attempt todo st
                  = (Returned text, st'))
    \/ (exists msg, generate_response_loop max_retries attempt todo st
                    = (Raised (last_attempt_error msg), st')).
Proof.
  induction todo as [|todo IH]; intros attempt st Hatt Hpos; [lia|].
  destruct (api_outcomes st (api_calls st)) as [text|msg] eqn:Hans.
  - eexists. left. exists text. cbn [generate_response_loop].
    unfold bind, generate_content. rewrite Hans. reflexivity.
  - destruct (Z.lt_ge_cases attempt (max_retries - 1)) as [Hlt|Hge].
    + rewrite (loop_retries _ _ _ _ msg) by assumption.
      apply IH; lia.
    + eexists. right. exists msg. apply loop_gives_up; assumption.
Qed.

(** X17.  The exception ["Max retries exceeded"] is raised exactly when
    no attempt is allowed, and then without any call of the endpoint;
    with a positive [max_retries] every run ends in the loop, by the
    return of a text or by the exception of a failed last attempt. *)
Theorem max_retries_exceeded_iff (st : State) (max_retries : Z) :
  (max_retries <= 0 ->
   generate_response max_retries st
   = (Raised (Exception "Max retries exceeded"), st))
  /\ (0 < max_retries ->
      (generate_response max_retries st).1
      <> Raised (Exception "Max retries exceeded")
      /\ exists st',
           (exists text, generate_response max_retries st = (Returned text, st'))
           \/ (exists msg, generate_response max_retries st
                           = (Raised (last_attempt_error msg), st'))).
Proof.
  unfold generate_response. split.
  - intros Hle. replace (Z.to_nat max_retries) with 0%nat by lia. reflexivity.
  - intros Hpos.
    destruct (loop_ends max_retries (Z.to_nat max_retries) 0 st
                ltac:(lia) ltac:(lia)) as (st' & [[text H]|[msg H]]).
    + split; [rewrite H; discriminate|]. exists st'. left. eauto.
    + split.
      * rewrite H. simpl. intros Heq. injection Heq as Heq.
        exact (last_attempt_error_not_max_retries msg Heq).
      * exists st'. right. eauto.
Qed.

(** ** The cleaning and the fallback search of the structured output *)

Lemma chars_of_chars (l : list ascii) : Py.chars (Py.of_chars l) = l.
Proof. apply list_ascii_of_string_of_list_ascii. Qed.

Lemma of_chars_chars (s : string) : Py.of_chars (Py.chars s) = s.
Proof. apply string_of_list_ascii_of_string. Qed.

Lemma drop_until_open_spec (l l' : list ascii) :
  Py.drop_until_open l = Some l'
  <-> exists pre rest,
        l = pre ++ "{"%char :: rest /\ ("{"%char ∉ pre) /\ l' = "{"%char :: rest.
Proof.
  split.
  - induction l as [|c l IH]; simpl; [discriminate|].
    destruct (Ascii.eqb_spec c "{") as [->|Hne].
    + intros [= <-]. exists [], l. split; [reflexivity|].
      split; [apply not_elem_of_nil|reflexivity].
    + intros H. destruct (IH H) as (pre & rest & -> & Hpre & ->).
      exists (c :: pre), rest. split; [reflexivity|].
      split; [|reflexivity]. apply not_elem_of_cons. split; congruence.
  - intros (pre & rest & -> & Hpre & ->).
    induction pre as [|c pre IH]; simpl.
    + reflexivity.
    + apply not_elem_of_cons in Hpre as [Hne Hpre].
      destruct (Ascii.eqb_spec c "{") as [->|_]; [congruence|].
      apply IH. exact Hpre.
Qed.

Lemma keep_through_last_close_None (l : list ascii) :
  Py.keep_through_last_close l = None <-> ("}"%char ∉ l).
Proof.
  induction l as [|c l IH]; simpl.
  - split; [intros _; apply not_elem_of_nil|reflexivity].
  - destruct (Py.keep_through_last_close l) as [m|].
    + split; [discriminate|]. intros Hn. apply not_elem_of_cons in Hn as [_ Hn].
      apply IH in Hn. discriminate.
    + destruct (Ascii.eqb_spec c "}") as [->|Hne].
      * split; [discriminate|]. intros Hn. exfalso. apply Hn. left.
      * split; [|reflexivity]. intros _. apply not_elem_of_cons.
        split; [congruence|]. apply IH. reflexivity.
Qed.

Lemma keep_through_last_close_spec (l m : list ascii) :
  Py.keep_through_last_close l = Some m
  <-> exists body post,
        l = body ++ "}"%char :: post /\ ("}"%char ∉ post)
        /\ m = body ++ ["}"%char].
Proof.
  split.
  - revert m. induction l as [|c l IH]; intros m; simpl; [discriminate|].
    destruct (Py.keep_through_last_close l) as [m0|] eqn:Hk.
    + intros [= <-]. destruct (IH m0 eq_refl) as (body & post & -> & Hpost & ->).
      exists (c :: body), post. auto.
    + destruct (Ascii.eqb_spec c "}") as [->|_]; [|discriminate].
      intros [= <-]. exists [], l. split; [reflexivity|].
      split; [|reflexivity]. apply keep_through_last_close_None. exact Hk.
  - intros (body & post & -> & Hpost & ->).
    induction body as [|c body IH]; simpl.
    + apply keep_through_last_close_None in Hpost. rewrite Hpost. reflexivity.
    + rewrite IH. reflexivity.
Qed.

Lemma search_braces_finds (s : string) (pre body post : list ascii) :
  Py.chars s = pre ++ "{"%char :: body ++ "}"%char :: post ->
  ("{"%char ∉ pre) -> ("}"%char ∉ post) ->
  Py.search_braces s = Some (Py.of_chars ("{"%char :: body ++ ["}"%char])).
Proof.
  intros Hs Hpre Hpost. unfold Py.search_braces.
  assert (Py.drop_until_open (Py.chars s)
          = Some ("{"%char :: body ++ "}"%char :: post)) as ->
    by (apply drop_until_open_spec; eauto).
  assert (Py.keep_through_last_close ("{"%char :: body ++ "}"%char :: post)
          = Some ("{"%char :: body ++ ["}"%char])) as ->
    by (apply keep_through_last_close_spec; exists ("{"%char :: body), post; auto).
  reflexivity.
Qed.

(** X18.  The fallback search of [generate_structured_output],
    [re.search(r'\{.*\}', response, re.DOTALL)], finds a match exactly
    when an opening brace is followed somewhere by a closing brace, and
    the match is then the widest span: from the first opening brace of
    the text to its last closing brace. *)
Theorem search_braces_widest_span (s m : string) :
  Py.search_braces s = Some m
  <-> exists pre body post,
        Py.chars s = pre ++ "{"%char :: body ++ "}"%char :: post
        /\ ("{"%char ∉ pre) /\ ("}"%char ∉ post)
        /\ m = Py.of_chars ("{"%char :: body ++ ["}"%char]).
Proof.
  split.
  - unfold Py.search_braces.
    destruct (Py.drop_until_open (Py.chars s)) as [l|] eqn:Hd; [|discriminate].
    apply drop_until_open_spec in Hd as (pre & rest & Hs & Hpre & ->).
    destruct (Py.keep_through_last_close ("{"%char :: rest)) as [m'|] eqn:Hk;
      [|discriminate].
    intros [= <-].
    apply keep_through_last_close_spec in Hk as (body' & post & Hl & Hpost & ->).
    destruct body' as [|c body]; [discriminate|].
    injection Hl as <- ->.
    exists pre, body, post. auto.
  - intros (pre & body & post & Hs & Hpre & Hpost & ->).
    apply (search_braces_finds s pre body post); assumption.
Qed.

Lemma chars_rev_app (s acc : string) :
  Py.chars (String.rev_app s acc) = rev (Py.chars s) ++ Py.chars acc.
Proof.
  revert acc. induction s as [|c s IH]; intros acc; simpl; [reflexivity|].
  rewrite IH. unfold Py.chars. simpl. rewrite <- app_assoc. reflexivity.
Qed.

Lemma chars_rev (s : string) : Py.chars (String.rev s) = rev (Py.chars s).
Proof. unfold String.rev. rewrite chars_rev_app. apply app_nil_r. Qed.

Lemma str_rev_app (a b : string) :
  String.rev (a +:+ b) = String.rev b +:+ String.rev a.
Proof.
  apply chars_inj. rewrite chars_app, !chars_rev, chars_app.
  apply rev_app_distr.
Qed.

Lemma str_rev_involutive (s : string) : String.rev (String.rev s) = s.
Proof. apply chars_inj. rewrite !chars_rev. apply rev_involutive. Qed.

Lemma str_app_assoc (a b c : string) : (a +:+ b) +:+ c = a +:+ b +:+ c.
Proof. apply chars_inj. rewrite !chars_app. symmetry. apply app_assoc. Qed.

Lemma lstrip_blank (a t : string) :
  blank a -> Py.lstrip (a +:+ t) = Py.lstrip t.
Proof.
  unfold blank. induction a as [|c a IH]; intros Ha; [reflexivity|].
  unfold Py.chars in Ha. simpl in Ha. apply Forall_cons in Ha as [Hc Ha].
  change (String c a +:+ t) with (String c (a +:+ t)).
  simpl. rewrite Hc. apply IH. exact Ha.
Qed.

Lemma lstrip_blank_all (a : string) : blank a -> Py.lstrip a = "".
Proof.
  unfold blank. induction a as [|c a IH]; intros Ha; [reflexivity|].
  unfold Py.chars in Ha. simpl in Ha. apply Forall_cons in Ha as [Hc Ha].
  simpl. rewrite Hc. apply IH. exact Ha.
Qed.

Lemma lstrip_id (t : string) :
  match Py.chars t with [] => True | c :: _ => Py.isspace c = false end ->
  Py.lstrip t = t.
Proof.
  destruct t as [|c t]; [reflexivity|]. unfold Py.chars. simpl.
  intros ->. reflexivity.
Qed.

Lemma blank_rev (b : string) : blank b -> blank (String.rev b).
Proof.
  unfold blank. rewrite chars_rev. intros H.
  apply Forall_forall. intros c Hc. apply list_elem_of_In, in_rev in Hc.
  rewrite Forall_forall in H. apply H. apply list_elem_of_In. exact Hc.
Qed.

Lemma head_rev_last {A} (P : A -> Prop) (l : list A) :
  match last l with None => True | Some c => P c end ->
  match rev l with [] => True | c :: _ => P c end.
Proof.
  destruct (rev l) as [|c r] eqn:Hr; [trivial|].
  assert (l = rev r ++ [c]) as ->.
  { rewrite <- (rev_involutive l), Hr. reflexivity. }
  rewrite last_snoc. trivial.
Qed.

Lemma rstrip_blank (s b : string) :
  blank b ->
  match last (Py.chars s) with None => True | Some c => Py.isspace c = false end ->
  Py.rstrip (s +:+ b) = s.
Proof.
  intros Hb Hs. unfold Py.rstrip.
  rewrite str_rev_app, lstrip_blank by (apply blank_rev; exact Hb).
  rewrite lstrip_id by (rewrite chars_rev; apply head_rev_last; exact Hs).
  apply str_rev_involutive.
Qed.

Lemma strip_spec (a s b : string) :
  blank a -> blank b -> trimmed s -> Py.strip (a +:+ s +:+ b) = s.
Proof.
  intros Ha Hb [Hhead Hlast]. unfold Py.strip.
  rewrite lstrip_blank by exact Ha.
  destruct s as [|c s].
  - change ("" +:+ b) with b. rewrite lstrip_blank_all by exact Hb. reflexivity.
  - rewrite lstrip_id.
    + apply rstrip_blank; assumption.
    + rewrite chars_app. unfold Py.chars in *. simpl in *. exact Hhead.
Qed.

Lemma str_slice_from_app (p r : string) :
  Py.str_slice_from (Z.of_nat (length (Py.chars p))) (p +:+ r) = r.
Proof.
  unfold Py.str_slice_from, Py.slice_from. rewrite chars_app, length_app.
  destruct (Z.ltb_spec (Z.of_nat (length (Py.chars p))) 0) as [?|_]; [lia|].
  rewrite Z.min_l by lia. rewrite Nat2Z.id.
  rewrite drop_app_length. apply of_chars_chars.
Qed.

Lemma str_slice_to_app (y q : string) :
  (0 < length (Py.chars q))%nat ->
  Py.str_slice_to (- Z.of_nat (length (Py.chars q))) (y +:+ q) = y.
Proof.
  intros Hq. unfold Py.str_slice_to, Py.slice_to. rewrite chars_app, length_app.
  destruct (Z.ltb_spec (- Z.of_nat (length (Py.chars q))) 0) as [_|?]; [|lia].
  rewrite Z.max_r by lia.
  replace (Z.to_nat _) with (length (Py.chars y)) by lia.
  rewrite take_app_length. apply of_chars_chars.
Qed.

Lemma startswith_app (p r : string) : Py.startswith (p +:+ r) p = true.
Proof.
  unfold Py.startswith. induction p as [|c p IH]; simpl.
  - destruct r; reflexivity.
  - change (String c p +:+ r) with (String c (p +:+ r)).
    destruct (ascii_dec c c) as [_|Hne]; [exact IH|congruence].
Qed.

Lemma endswith_app (y q : string) : Py.endswith (y +:+ q) q = true.
Proof. unfold Py.endswith. rewrite str_rev_app. apply startswith_app. Qed.

(** X19.  The cleaning step of [generate_structured_output] unwraps a
    fenced answer: for a document that neither starts nor ends with
    whitespace, put between a json fence and a closing fence with any
    whitespace around the fences and around the document, the cleaned
    response is the document itself. *)
Theorem fenced_document_is_unwrapped
    (lead inner_lead doc inner_trail trail : string) :
  blank lead -> blank inner_lead -> blank inner_trail -> blank trail ->
  trimmed doc ->
  clean_response
    (lead +:+ "```json" +:+ inner_lead +:+ doc +:+ inner_trail +:+ "```" +:+ trail)
  = doc.
Proof.
  intros Hl Hil Hit Ht Hdoc.
  set (body := inner_lead +:+ doc +:+ inner_trail).
  assert (lead +:+ "```json" +:+ inner_lead +:+ doc +:+ inner_trail +:+ "```" +:+ trail
          = lead +:+ ("```json" +:+ body +:+ "```") +:+ trail) as ->.
  { subst body. rewrite !str_app_assoc. reflexivity. }
  unfold clean_response.
  rewrite (strip_spec lead _ trail Hl Ht).
  - rewrite startswith_app.
    change 7 with (Z.of_nat (length (Py.chars "```json"))).
    rewrite str_slice_from_app, endswith_app.
    change (-3) with (- Z.of_nat (length (Py.chars "```"))).
    rewrite str_slice_to_app by (simpl; lia).
    subst body. apply strip_spec; assumption.
  - split; [unfold Py.chars; simpl; reflexivity|].
    rewrite <- str_app_assoc, chars_app.
    change (Py.chars "```") with (["`"; "`"] ++ ["`"])%char.
    rewrite app_assoc, last_snoc. reflexivity.
Qed.

(** X20.  [generate_structured_output] tolerates text around a JSON
    object: when the cleaned answer as a whole cannot be decoded but the
    span from its first opening brace to its last closing brace can, the
    decoded span is returned, after the one call that produced the
    answer. *)
Theorem text_around_object_is_ignored (st : State) (text e : string)
    (pre body post : list ascii) (v : pyval) :
  api_outcomes st (api_calls st) = ApiText text ->
  json_loads (clean_response text) = inl e ->
  Py.chars (clean_response text) = pre ++ "{"%char :: body ++ "}"%char :: post ->
  ("{"%char ∉ pre) ->
  ("}"%char ∉ post) ->
  json_loads (Py.of_chars ("{"%char :: body ++ ["}"%char])) = inr v ->
  generate_structured_output st
  = (Returned v, set_api_calls (S (api_calls st)) st).
Proof.
  intros Htext Hfail Hchars Hpre Hpost Hspan.
  unfold generate_structured_output.
  assert (generate_response 3 st
          = (Returned text, set_api_calls (S (api_calls st)) st)) as Hrun.
  { unfold generate_response.
    rewrite (loop_first_answer 3 text 0 0 (Z.to_nat 3) st).
    - rewrite Nat.add_0_r. reflexivity.
    - intros i Hi. lia.
    - rewrite Nat.add_0_r. exact Htext.
    - change (Z.to_nat 3) with 3%nat. lia.
    - lia. }
  rewrite (bind_returned _ _ _ _ _ Hrun).
  rewrite Hfail.
  rewrite (search_braces_finds _ pre body post Hchars Hpre Hpost).
  rewrite Hspan. reflexivity.
Qed.

(** ** Further properties of the task decomposer *)

Lemma synthetic_id_inj (i j : nat) : synthetic_id i = synthetic_id j -> i = j.
Proof.
  unfold synthetic_id. intros H. apply (f_equal Py.chars) in H.
  rewrite !chars_app in H. apply app_inv_head in H. apply chars_inj in H.
  apply (inj pretty) in H. lia.
Qed.

Lemma build_task_id ur idx td task :
  build_task ur idx td = Returned task ->
  task_id task = synthetic_id idx
  /\ input_data task !! "user_request" = Some (VStr ur).
Proof.
  unfold build_task. intros H.
  repeat case_match; try discriminate.
  injection H as <-. simpl. split; [reflexivity|apply lookup_insert_eq].
Qed.

Lemma build_tasks_ids ur items : forall idx built,
  build_tasks ur idx items = Returned built ->
  task_id <$> built = synthetic_id <$> seq idx (length items)
  /\ Forall (fun t => input_data t !! "user_request" = Some (VStr ur)) built.
Proof.
  induction items as [|td items IH]; intros idx built; simpl.
  - intros [= <-]. split; [reflexivity|constructor].
  - destruct (build_task ur idx td) as [task|] eqn:Htask; [|discriminate].
    destruct (build_tasks ur (S idx) items) as [rest|] eqn:Hrest; [|discriminate].
    intros [= <-]. destruct (build_task_id _ _ _ _ Htask) as [Hid Hur].
    destruct (IH _ _ Hrest) as [Hids Hall].
    split; [|constructor; assumption].
    rewrite fmap_cons, Hid, Hids. reflexivity.
Qed.

Lemma decompose_builds ur ctx st d st' :
  decompose ur ctx st = (Returned d, st') ->
  exists items, build_tasks ur 0 items = Returned (tasks d).
Proof.
  unfold decompose, bind.
  destruct (generate_structured_output st) as [[v|e] st1]; [|discriminate].
  destruct v as [| | | | |l|m]; try discriminate.
  unfold or_raise.
  destruct (Py.iter (Py.get_or m "tasks" (VList []))) as [items|];
    [|discriminate].
  unfold ret at 1, lift_outcome.
  destruct (build_tasks ur 0 items) as [built|] eqn:Hbuilt; [|discriminate].
  destruct (Py.truthy (Py.get m "requires_clarification"));
    intros [= <- <-]; exists items; exact Hbuilt.
Qed.

Lemma NoDup_synthetic_ids (idx n : nat) : NoDup (synthetic_id <$> seq idx n).
Proof.
  apply NoDup_fmap_2; [|apply NoDup_seq].
  intros i j. apply synthetic_id_inj.
Qed.

Lemma decompose_ids ur ctx st d st' :
  decompose ur ctx st = (Returned d, st') ->
  task_id <$> tasks d = synthetic_id <$> seq 0 (length (tasks d))
  /\ Forall (fun t => input_data t !! "user_request" = Some (VStr ur)) (tasks d).
Proof.
  intros H. destruct (decompose_builds _ _ _ _ _ H) as [items Hitems].
  destruct (build_tasks_ids _ _ _ _ Hitems) as [Hids Hall].
  split; [|exact Hall].
  assert (length (tasks d) = length items) as ->; [|exact Hids].
  rewrite <- (length_fmap task_id), Hids, length_fmap, length_seq. reflexivity.
Qed.

(** X21.  The tasks of a decomposition carry the identifiers [task_1],
    [task_2], ... in the order of the answer they were built from, so no
    two tasks share an identifier; identifiers the answer may contain
    play no part.  Every task's input holds the user's request. *)
Theorem decomposition_ids_are_sequential (ur : string)
    (ctx : gmap string pyval) (st st' : State) (d : Decomposition) :
  decompose ur ctx st = (Returned d, st') ->
  task_id <$> tasks d = synthetic_id <$> seq 0 (length (tasks d))
  /\ NoDup (task_id <$> tasks d)
  /\ Forall (fun t => input_data t !! "user_request" = Some (VStr ur)) (tasks d).
Proof.
  intros H. destruct (decompose_ids _ _ _ _ _ H) as [Hids Hall].
  split; [exact Hids|]. split; [|exact Hall].
  rewrite Hids. apply NoDup_synthetic_ids.
Qed.

Lemma validate_loop_listed ids todo :
  (forall task, task ∈ todo -> exists deps, dependencies_of task = VList deps) ->
  validate_loop ids todo
  = Returned (forallb (fun t => match dependencies_of t with
                                | VList deps => forallb (dep_known ids) deps
                                | _ => false
                                end) todo).
Proof.
  induction todo as [|task rest IH]; intros Hlisted; [reflexivity|].
  destruct (Hlisted task ltac:(left)) as [deps Hdeps].
  cbn [validate_loop forallb]. rewrite Hdeps.
  unfold dependencies_of in Hdeps. rewrite Hdeps. cbn [Py.iter].
  destruct (forallb (dep_known ids) deps); [|reflexivity].
  apply IH. intros t Ht. apply Hlisted. right. exact Ht.
Qed.

(** X22.  On tasks whose dependency entries are lists,
    [validate_task_sequence] accepts exactly when every dependency is the
    identifier of a task of the list, and rejects otherwise.  Nothing
    else is checked: a task that depends on itself, or two tasks that
    depend on each other, are accepted. *)
Theorem validate_accepts_known_dependencies (tasks : list AgentTask) :
  dependencies_listed tasks ->
  (validate_task_sequence tasks = Returned true <-> dependencies_known tasks)
  /\ (validate_task_sequence tasks = Returned false
      <-> ~ dependencies_known tasks).
Proof.
  intros Hlisted. unfold validate_task_sequence.
  rewrite (validate_loop_listed _ _ Hlisted).
  set (ok := fun t => match dependencies_of t with
                      | VList deps => forallb (dep_known (task_id <$> tasks)) deps
                      | _ => false
                      end).
  assert (forallb ok tasks = true <-> dependencies_known tasks) as Hiff.
  { rewrite forallb_forall. unfold dependencies_known. split.
    - intros H task deps dep Htask Hdeps Hdep.
      apply list_elem_of_In, H in Htask. unfold ok in Htask.
      rewrite Hdeps in Htask. rewrite forallb_forall in Htask.
      apply Htask. apply list_elem_of_In. exact Hdep.
    - intros H task Htask. apply list_elem_of_In in Htask.
      destruct (Hlisted task Htask) as [deps Hdeps].
      unfold ok. rewrite Hdeps. apply forallb_forall.
      intros dep Hdep. apply (H task deps dep); try assumption.
      apply list_elem_of_In. exact Hdep. }
  destruct (forallb ok tasks).
  - split.
    + split; [intros _; apply Hiff; reflexivity|reflexivity].
    + split; [discriminate|]. intros Hn. exfalso. apply Hn, Hiff. reflexivity.
  - split.
    + split; [discriminate|]. intros Hk. apply Hiff in Hk. discriminate.
    + split; [|reflexivity]. intros _ Hk. apply Hiff in Hk. discriminate.
Qed.

(** X23.  [generate_execution_plan] returns one of three shapes, told
    apart by the status.  Only a ready plan has tasks; the two other
    shapes have none, and carry the questions or the error text.  The
    tasks of a ready plan are fit for dispatch: each has the value of a
    task type, no two share an identifier (the identifiers are those of
    the decomposition), the priorities never decrease along the plan,
    and the task count is the length of the list. *)
Theorem plan_has_one_of_three_shapes (um : string) (full : gmap string pyval)
    (st st' : State) (plan : ExecutionPlan) :
  generate_execution_plan um full st = (Returned plan, st') ->
  (ep_status plan = "needs_clarification"
   /\ is_Some (ep_questions plan) /\ ep_tasks plan = None
   /\ ep_error plan = None)
  \/ (ep_status plan = "invalid_sequence"
      /\ ep_error plan = Some "Task dependencies are invalid"
      /\ ep_tasks plan = None /\ ep_questions plan = None)
  \/ (ep_status plan = "ready"
      /\ ep_questions plan = None /\ ep_error plan = None
      /\ exists planned_tasks,
           ep_tasks plan = Some planned_tasks
           /\ ep_total_tasks plan = Some (length planned_tasks)
           /\ Forall well_typed planned_tasks
           /\ NoDup (p_task_id <$> planned_tasks)
           /\ StronglySorted (fun a b => p_priority a <= p_priority b)
                planned_tasks
           /\ Permutation (p_task_id <$> planned_tasks)
                (synthetic_id <$> seq 0 (length planned_tasks))).
Proof.
  unfold generate_execution_plan. unfold bind at 1.
  destruct (decompose um full st) as [[d|e] st1] eqn:Hd; [|discriminate].
  destruct (requires_clarification d).
  - unfold bind, or_raise.
    destruct (questions d) as [qs|]; [|discriminate].
    intros [= <- <-]. left. simpl. eauto.
  - unfold bind, lift_outcome.
    destruct (validate_task_sequence (tasks d)) as [[|]|]; try discriminate.
    + intros [= <- <-]. right. right. simpl.
      split; [reflexivity|]. split; [reflexivity|]. split; [reflexivity|].
      eexists. split; [reflexivity|].
      destruct (decompose_ids _ _ _ _ _ Hd) as [Hids _].
      assert (Permutation (p_task_id <$> (planned <$> prioritize_tasks (tasks d)))
                (synthetic_id <$> seq 0 (length (tasks d)))) as Hperm.
      { rewrite <- list_fmap_compose.
        change (p_task_id ∘ planned) with task_id.
        rewrite <- Hids. apply fmap_Permutation. apply sorted_perm. }
      assert (length (planned <$> prioritize_tasks (tasks d)) = length (tasks d))
        as Hlen.
      { rewrite length_fmap. apply Permutation_length. apply sorted_perm. }
      split; [rewrite length_fmap; reflexivity|].
      split; [apply planned_well_typed|].
      split; [rewrite Hperm; apply NoDup_synthetic_ids|].
      split; [|rewrite Hlen; exact Hperm].
      apply (StronglySorted_fmap planned
               (fun a b => priority a <= priority b)); [auto|].
      apply sorted_ordered.
    + intros [= <- <-]. right. left. simpl. auto.
Qed.

Lemma insert_sorted_fmap {A} (key : A -> Z) (f : A -> A) x l :
  (forall a, key (f a) = key a) ->
  insert_sorted key (f x) (f <$> l) = f <$> insert_sorted key x l.
Proof.
  intros Hkey. induction l as [|y l IH]; [reflexivity|].
  cbn [fmap list_fmap insert_sorted]. rewrite !Hkey.
  destruct (key x <=? key y); [reflexivity|].
  cbn [fmap list_fmap]. f_equal. exact IH.
Qed.

(** X24.  The order of a plan depends on the priorities and on the order
    of the decomposition, and on nothing else: whatever is changed in
    the tasks while the priorities stay, the dependencies for one, the
    tasks come out in the same order.  So a task can be planned before a
    task it depends on. *)
Theorem plan_order_ignores_dependencies (tasks : list AgentTask)
    (f : AgentTask -> AgentTask) :
  (forall t, priority (f t) = priority t) ->
  prioritize_tasks (f <$> tasks) = f <$> prioritize_tasks tasks.
Proof.
  intros Hkey. unfold prioritize_tasks, sorted.
  induction tasks as [|t rest IH]; [reflexivity|].
  rewrite fmap_cons. cbn [foldr]. rewrite IH.
  apply insert_sorted_fmap. exact Hkey.
Qed.

Lemma total_minutes_perm (l l' : list AgentTask) :
  Permutation l l' ->
  foldr Z.add 0 ((fun t => time_estimates (task_type t)) <$> l)
  = foldr Z.add 0 ((fun t => time_estimates (task_type t)) <$> l').
Proof.
  induction 1 as [|x l l' _ IH|x y l|l l' l'' _ IH1 _ IH2].
  - reflexivity.
  - rewrite !fmap_cons. cbn [foldr]. rewrite IH. reflexivity.
  - rewrite !fmap_cons. cbn [foldr]. lia.
  - congruence.
Qed.

Lemma total_minutes_bounds (l : list AgentTask) :
  Z.of_nat (length l)
  <= foldr Z.add 0 ((fun t => time_estimates (task_type t)) <$> l)
  <= 3 * Z.of_nat (length l).
Proof.
  induction l as [|t l IH]; [simpl; lia|].
  rewrite fmap_cons. cbn [foldr length].
  destruct (task_type t); cbn [time_estimates]; lia.
Qed.

(** X25.  The time estimate of a plan does not depend on the order of
    its tasks, so prioritising does not change it; and since every task
    type counts for one to three minutes, the number of tasks alone
    settles the estimate at both ends: at most one task is "Less than 5
    minutes", fifteen tasks or more are "15+ minutes", five tasks or
    more are never "Less than 5 minutes" and four tasks or fewer never
    "15+ minutes". *)
Theorem estimate_follows_task_count (tasks : list AgentTask) :
  _estimate_time (prioritize_tasks tasks) = _estimate_time tasks
  /\ ((length tasks <= 1)%nat -> _estimate_time tasks = "Less than 5 minutes")
  /\ ((15 <= length tasks)%nat -> _estimate_time tasks = "15+ minutes")
  /\ ((5 <= length tasks)%nat -> _estimate_time tasks <> "Less than 5 minutes")
  /\ ((length tasks <= 4)%nat -> _estimate_time tasks <> "15+ minutes").
Proof.
  split.
  - unfold _estimate_time, prioritize_tasks.
    rewrite (total_minutes_perm _ _ (sorted_perm priority tasks)). reflexivity.
  - pose proof (total_minutes_bounds tasks) as Hb.
    unfold _estimate_time.
    set (total := foldr Z.add 0 _) in *.
    repeat split; intros Hn;
      destruct (Z.ltb_spec total 5); destruct (Z.ltb_spec total 15);
      try lia; try reflexivity; discriminate.
Qed.

(** ** Further properties of the orchestrator *)

Lemma filter_none_existsb {A} (f : A -> bool) (l : list A) :
  existsb f l = false -> List.filter f l = [].
Proof.
  induction l as [|x l IH]; simpl; [reflexivity|].
  destruct (f x); simpl; [discriminate|exact IH].
Qed.

Lemma filter_negb_existsb {A} (f : A -> bool) (l : list A) :
  existsb f l = false -> List.filter (fun x => negb (f x)) l = l.
Proof.
  induction l as [|x l IH]; simpl; [reflexivity|].
  destruct (f x); simpl; [discriminate|]. intros H. rewrite IH by exact H.
  reflexivity.
Qed.

Lemma filter_some_existsb {A} (f : A -> bool) (l : list A) x k :
  List.filter f l = x :: k -> existsb f l = true.
Proof.
  intros H. destruct (existsb f l) eqn:He; [reflexivity|].
  rewrite (filter_none_existsb f l He) in H. discriminate.
Qed.

(** X26.  The response built from the task results has the success flag
    exactly when some task succeeded.  When none did, the response is the
    failure message with the error of every result in the order of the
    results; it is returned for an empty result list as well.  Whatever
    is returned carries no suggestions, never an empty data dict, and at
    most five next actions. *)
Theorem response_reflects_results (um : string)
    (results : list (gmap string pyval)) (ia : pyval) :
  (existsb succeeded results = false ->
   _generate_response um results ia
   = Returned (mkAgentResponse false
                 "I encountered some issues processing your request:"
                 (Some {[ "errors"
                          := VList ((fun r => Py.get r "error") <$> results) ]})
                 None None))
  /\ (forall resp,
        _generate_response um results ia = Returned resp ->
        success resp = existsb succeeded results
        /\ suggestions resp = None
        /\ data resp <> Some ∅
        /\ (forall acts, next_actions resp = Some acts ->
              (length acts <= 5)%nat)).
Proof.
  split.
  - intros Hnone. unfold _generate_response.
    rewrite (filter_none_existsb _ _ Hnone), (filter_negb_existsb _ _ Hnone).
    reflexivity.
  - intros resp. unfold _generate_response.
    destruct (List.filter succeeded results) as [|r0 rs] eqn:Hf.
    + intros [= <-]. cbn [success suggestions data next_actions].
      assert (existsb succeeded results = false) as ->.
      { destruct (existsb succeeded results) eqn:He; [|reflexivity].
        apply existsb_exists in He as (r & Hin & Hr).
        assert (In r (List.filter succeeded results)) as Hin'
          by (apply filter_In; auto).
        rewrite Hf in Hin'. destruct Hin'. }
      repeat split; discriminate.
    + rewrite (filter_some_existsb _ _ _ _ Hf).
      destruct (response_loop (r0 :: rs) [] [] ∅) as [[[msgs acts] rd]|];
        [|discriminate].
      destruct (mapM Py.as_str msgs) as [texts|]; [|discriminate].
      assert (forall d : option (gmap string pyval),
                d = (if bool_decide (rd = ∅) then None else Some rd) ->
                d <> Some ∅) as Hdata.
      { intros d ->. case_bool_decide; congruence. }
      destruct acts as [|a acts].
      * intros [= <-]. cbn [success suggestions data next_actions].
        repeat split; try discriminate. apply Hdata. reflexivity.
      * destruct (existsb unhashable (a :: acts)); [discriminate|].
        destruct (mapM Py.as_str (a :: acts)) as [actions|]; [|discriminate].
        intros [= <-]. cbn [success suggestions data next_actions].
        repeat split.
        -- apply Hdata. reflexivity.
        -- intros acts' [= <-]. apply slice_to_5.
Qed.



Lemma add_message_last st sid r c md :
  0 < max_history st ->
  exists st' earlier m,
    add_message sid r c md st = (Returned tt, st')
    /\ ledger st' sid = earlier ++ [m]
    /\ shown m = (r, c, default ∅ md)
    /\ llm_calls_within 0 st st'
    /\ short_term_memory st' = short_term_memory st
    /\ context_cache st' = context_cache st
    /\ max_history st' = max_history st.
Proof.
  intros Hh.
  destruct (add_message_spec st sid r c md Hh) as (Hret & Hmax & _ & Hled & _).
  destruct (add_message_returns sid r c md st) as (st' & Hrun & Hwithin).
  rewrite Hrun in Hret, Hmax, Hled. simpl in Hmax, Hled.
  destruct (Z.to_nat (max_history st)) as [|h] eqn:Hk; [lia|].
  rewrite lastn_snoc in Hled. apply fmap_app_inv in Hled.
  destruct Hled as (l1 & l2 & _ & Hl2 & Happ).
  destruct l2 as [|m [|? ?]]; try discriminate.
  exists st', l1, m. split; [exact Hrun|]. split; [exact Happ|].
  split; [simpl in Hl2; congruence|]. split; [exact Hwithin|].
  assert (st' = (add_message sid r c md st).2) as -> by (rewrite Hrun; reflexivity).
  unfold add_message, get_session, bind, gets.
  destruct (sessions st !! sid); simpl; auto.
Qed.

(** X28.  When the intent analysis asks for clarification,
    [process_request] answers with the questions as suggestions and
    stops there: the endpoint is not called again, so no decomposition
    is made, no handler is run and nothing is written to the short-term
    memory, and the answer is the last message of the session's
    ledger. *)
Theorem clarification_short_circuits (um sid : string)
    (context : option (gmap string pyval)) (st st1 st2 : State)
    (full intent : gmap string pyval) (qs : option (list string)) :
  gather_context um sid context st = (Returned full, st1) ->
  analyze_intent um st1 = (Returned (VDict intent), st2) ->
  Py.truthy (Py.get intent "requires_clarification") = true ->
  validate_opt_str_list (Py.get_or intent "clarification_questions" (VList []))
  = Some qs ->
  0 < max_history st2 ->
  let text := "I need some clarification to help you better:" in
  exists st3 earlier m,
    process_request um sid context st
    = (Returned (mkAgentResponse true text None qs None), st3)
    /\ api_calls st3 = api_calls st2
    /\ handler_calls st3 = handler_calls st
    /\ short_term_memory st3 = short_term_memory st2
    /\ ledger st3 sid = earlier ++ [m]
    /\ shown m = ("assistant", text, ∅).
Proof.
  intros Hgather Hintent Hclar Hqs Hh text.
  destruct (add_message_last st2 sid "assistant" text None Hh)
    as (st3 & earlier & m & Hadd & Hled & Hm & Hw & Hmem & _ & _).
  exists st3, earlier, m.
  destruct (gather_context_returns um sid context st)
    as (full' & st1' & Hg' & Hw1).
  rewrite Hgather in Hg'. injection Hg' as <- <-.
  assert (handler_calls st2 = handler_calls st1) as Hcalls.
  { unfold analyze_intent in Hintent.
    destruct (generate_structured_output_within st1) as (o & st2' & Ho & Hw2).
    rewrite Hintent in Ho. injection Ho as <- <-. apply Hw2. }
  split.
  - rewrite process_request_phases.
    rewrite (bind_returned _ _ _ _ _ Hgather). unfold answer_request.
    rewrite (bind_returned _ _ _ _ _ Hintent).
    unfold bind at 1. unfold ret at 1. rewrite Hclar.
    unfold clarification_response. rewrite Hqs.
    unfold or_raise. unfold bind at 2. unfold ret at 1.
    unfold bind at 1. unfold ret at 1. cbn [message].
    rewrite (bind_returned _ _ _ _ _ Hadd). reflexivity.
  - destruct Hw as (_ & Hapi & Hhc & _). destruct Hw1 as (_ & _ & Hhc1 & _).
    repeat split; try assumption; try lia; congruence.
Qed.

(** ** The ledger over a whole request *)

Lemma kept_refl st : conversations_kept st st.
Proof. split; reflexivity. Qed.

Lemma kept_trans st1 st2 st3 :
  conversations_kept st1 st2 -> conversations_kept st2 st3 ->
  conversations_kept st1 st3.
Proof. intros [? ?] [? ?]. split; congruence. Qed.

Lemma bind_kept {A B} (c : M A) (k : A -> M B) :
  (forall st, conversations_kept st (c st).2) ->
  (forall a st, conversations_kept st (k a st).2) ->
  forall st, conversations_kept st (bind c k st).2.
Proof.
  intros Hc Hk st. unfold bind. specialize (Hc st).
  destruct (c st) as [[a|e] st1]; simpl in Hc.
  - apply (kept_trans _ st1); [exact Hc|apply Hk].
  - exact Hc.
Qed.

Lemma or_raise_kept {A} (o : option A) e st :
  conversations_kept st (or_raise o e st).2.
Proof. destruct o; (split; reflexivity). Qed.

Lemma lift_outcome_kept {A} (o : outcome A) st :
  conversations_kept st (lift_outcome o st).2.
Proof. (split; reflexivity). Qed.

Lemma get_short_term_kept sid key st :
  conversations_kept st (get_short_term sid key st).2.
Proof.
  destruct (short_term_memory st !! sid) as [es|] eqn:Hes.
  - rewrite (get_short_term_present st sid key es Hes). (split; reflexivity).
  - rewrite (get_short_term_absent st sid key Hes). (split; reflexivity).
Qed.

Lemma get_relevant_context_kept sid q st :
  conversations_kept st (get_relevant_context sid q st).2.
Proof.
  revert st. unfold get_relevant_context.
  apply bind_kept; [apply get_short_term_kept|]. intros recent.
  apply bind_kept.
  - intros st. destruct (Py.truthy recent); [|(split; reflexivity)].
    destruct recent; (split; reflexivity).
  - intros with_recent. apply bind_kept; [intros st; (split; reflexivity)|].
    intros [c|] st; [|(split; reflexivity)].
    destruct (bool_decide (c = ∅)); (split; reflexivity).
Qed.

Lemma store_short_term_kept sid k v ttl st :
  conversations_kept st (store_short_term sid k v ttl st).2.
Proof.
  destruct (expires_after (utcnow_readings st (S (clock_reads st))) ttl)
    as [expires|] eqn:Hexp.
  - rewrite (store_short_term_spec st sid k v ttl expires Hexp).
    (split; reflexivity).
  - destruct (store_short_term_raises st sid k v ttl Hexp) as [msg ->].
    (split; reflexivity).
Qed.

Lemma generate_response_loop_kept max_retries todo : forall attempt st,
  conversations_kept st (generate_response_loop max_retries attempt todo st).2.
Proof.
  induction todo as [|todo IH]; intros attempt st; [(split; reflexivity)|].
  cbn [generate_response_loop]. unfold bind, generate_content.
  destruct (api_outcomes st (api_calls st)) as [text|msg]; [(split; reflexivity)|].
  destruct (Py.contains "429" msg || Py.contains "RESOURCE_EXHAUSTED" msg);
    destruct (attempt <? max_retries - 1);
    try (split; reflexivity);
    apply (kept_trans _ (set_api_calls (S (api_calls st)) st));
    try (split; reflexivity); apply IH.
Qed.

Lemma generate_structured_output_kept st :
  conversations_kept st (generate_structured_output st).2.
Proof.
  revert st. unfold generate_structured_output.
  apply bind_kept; [intros st; apply generate_response_loop_kept|].
  intros response st. repeat case_match; (split; reflexivity).
Qed.

Lemma decompose_kept ur ctx st :
  conversations_kept st (decompose ur ctx st).2.
Proof.
  revert st. unfold decompose.
  apply bind_kept; [apply generate_structured_output_kept|].
  intros result. destruct result; try (intros st; (split; reflexivity)).
  apply bind_kept; [intros st; apply or_raise_kept|]. intros items.
  apply bind_kept; [intros st; apply lift_outcome_kept|]. intros built st.
  destruct (Py.truthy _); (split; reflexivity).
Qed.

Lemma generate_execution_plan_kept um full st :
  conversations_kept st (generate_execution_plan um full st).2.
Proof.
  revert st. unfold generate_execution_plan.
  apply bind_kept; [apply decompose_kept|]. intros d.
  destruct (requires_clarification d).
  - apply bind_kept; [intros st; apply or_raise_kept|].
    intros qs st. (split; reflexivity).
  - apply bind_kept; [intros st; apply lift_outcome_kept|].
    intros valid st. destruct (negb valid); (split; reflexivity).
Qed.

Lemma execute_loop_kept todo : forall ctx results st,
  conversations_kept st (_execute_tasks_loop todo ctx results st).2.
Proof.
  induction todo as [|task rest IH]; intros ctx results st; [(split; reflexivity)|].
  destruct (TaskType_of_value (p_type task)) as [ty|] eqn:Hty;
    [|cbn [_execute_tasks_loop]; rewrite Hty; (split; reflexivity)].
  destruct (agents_get ty) as [agent|] eqn:Hagent.
  - destruct (agent (task_view ctx) (external st)) as [o x] eqn:Ho.
    rewrite (loop_agent _ _ _ _ _ _ _ _ _ Hty Hagent Ho).
    match goal with
    | |- conversations_kept st (_ ?s).2 => apply (kept_trans _ s)
    end; [(split; reflexivity)|].
    destruct o; apply IH.
  - rewrite (loop_no_agent _ _ _ _ _ _ Hty Hagent). apply IH.
Qed.

Lemma kept_of_run {A} (c : M A) st o st' :
  (forall st, conversations_kept st (c st).2) ->
  c st = (o, st') -> conversations_kept st st'.
Proof. intros H Hrun. specialize (H st). rewrite Hrun in H. exact H. Qed.

Lemma bind_ret {A B} (a : A) (k : A -> M B) st : bind (ret a) k st = k a st.
Proof. reflexivity. Qed.

(** What [answer_request] does to the conversation manager when it
    returns: nothing but the final [add_message] of the response. *)
Lemma answer_request_appends um sid full st resp st' :
  answer_request um sid full st = (Returned resp, st') ->
  exists st0,
    conversations_kept st st0
    /\ add_message sid "assistant" (message resp) None st0 = (Returned tt, st').
Proof.
  assert (forall response st0,
            (add_message sid "assistant" (message response) None ;;;
             ret response) st0 = (Returned resp, st') ->
            add_message sid "assistant" (message resp) None st0
            = (Returned tt, st')) as Hlast.
  { intros response st0. unfold bind.
    destruct (add_message_returns sid "assistant" (message response) None st0)
      as (st1 & Hadd & _).
    rewrite Hadd. intros [= <- <-]. exact Hadd. }
  assert (forall text qs st0,
            (response <- clarification_response text qs ;;
             add_message sid "assistant" (message response) None ;;;
             ret response) st0 = (Returned resp, st') ->
            add_message sid "assistant" (message resp) None st0
            = (Returned tt, st')) as Hclar.
  { intros text qs st0. unfold clarification_response, or_raise.
    destruct (validate_opt_str_list qs) as [q|].
    - intros H. apply (Hlast (mkAgentResponse true text None q None) st0).
      exact H.
    - intros H.
      change ((Raised (ValidationError "suggestions") : outcome AgentResponse,
               st0) = (Returned resp, st')) in H.
      discriminate H. }
  unfold answer_request. unfold bind at 1.
  destruct (analyze_intent um st) as [[ia|e] st2] eqn:Hia; [|discriminate].
  assert (conversations_kept st st2) as K2
    by (apply (kept_of_run _ _ _ _ (generate_structured_output_kept) Hia)).
  destruct ia as [| | | | | |intent]; try discriminate.
  rewrite bind_ret.
  destruct (Py.truthy (Py.get intent "requires_clarification")).
  - intros H. exists st2. split; [exact K2|]. exact (Hclar _ _ _ H).
  - unfold bind at 1.
    destruct (generate_execution_plan um full st2) as [[plan|e] st3] eqn:Hplan;
      [|discriminate].
    assert (conversations_kept st st3) as K3.
    { apply (kept_trans _ st2); [exact K2|].
      apply (kept_of_run _ _ _ _ (generate_execution_plan_kept um full) Hplan). }
    destruct (String.eqb (ep_status plan) "needs_clarification").
    + unfold or_raise. destruct (ep_questions plan) as [qs|]; [|discriminate].
      rewrite bind_ret. intros H. exists st3. split; [exact K3|].
      exact (Hclar _ _ _ H).
    + unfold or_raise at 1. destruct (ep_tasks plan) as [plan_tasks|];
        [|discriminate].
      rewrite bind_ret. unfold bind at 1.
      destruct (_execute_tasks plan_tasks sid full st3) as [[executed|e] st4]
        eqn:Hexec; [|discriminate].
      assert (conversations_kept st st4) as K4.
      { apply (kept_trans _ st3); [exact K3|].
        apply (kept_of_run _ _ _ _ (execute_loop_kept plan_tasks full []) Hexec). }
      unfold lift_outcome at 1. unfold bind at 1.
      destruct (_generate_response um executed.1 (VDict intent))
        as [final_response|e]; [|discriminate].
      unfold or_raise. destruct (intent !! "intent") as [intent_name|];
        [|discriminate].
      rewrite bind_ret. unfold bind at 1.
      destruct (store_short_term sid "last_action" _ 60 st4) as [[[]|e] st5]
        eqn:Hstore; [|discriminate].
      assert (conversations_kept st st5) as K5.
      { apply (kept_trans _ st4); [exact K4|].
        apply (kept_of_run _ _ _ _
                 (store_short_term_kept sid "last_action" _ 60) Hstore). }
      intros H. exists st5. split; [exact K5|]. exact (Hlast _ _ H).
Qed.

Lemma ledger_kept st st' sid :
  conversations_kept st st' -> ledger st' sid = ledger st sid.
Proof. intros [Hs _]. unfold ledger. rewrite Hs. reflexivity. Qed.

Lemma process_request_ledger um sid context st resp st' :
  0 < max_history st ->
  process_request um sid context st = (Returned resp, st') ->
  shown <$> ledger st' sid
  = lastn (Z.to_nat (max_history st))
      ((shown <$> ledger st sid)
       ++ [("user", um, ∅); ("assistant", message resp, ∅)])
  /\ max_history st' = max_history st
  /\ (forall sid', sid' <> sid -> sessions st' !! sid' = sessions st !! sid').
Proof.
  intros Hh. rewrite process_request_phases. unfold bind at 1.
  destruct (gather_context um sid context st) as [[full|e] st1] eqn:Hg;
    [|discriminate].
  intros Hanswer.
  destruct (answer_request_appends _ _ _ _ _ _ Hanswer) as (st0 & K0 & Hadd).
  (* the gathering phase: the user's message, then reads *)
  unfold gather_context in Hg. unfold bind at 1 in Hg.
  destruct (add_message_spec st sid "user" um None Hh)
    as (Hret & Hmax & _ & Hled & Hothers).
  destruct (add_message sid "user" um None st) as [o sta] eqn:Hfirst.
  simpl in Hret, Hmax, Hled, Hothers. subst o.
  assert (conversations_kept sta st1) as K1.
  { revert Hg. unfold bind at 1.
    destruct (get_messages_returns sid (Some 5) sta) as [l Hl]. rewrite Hl.
    unfold bind at 1.
    pose proof (get_relevant_context_kept sid um sta) as K.
    destruct (get_relevant_context sid um sta) as [[m|e] stb]; [|discriminate].
    intros [= _ <-]. exact K. }
  assert (conversations_kept sta st0) as Ka
    by (apply (kept_trans _ st1); assumption).
  destruct Ka as [Ksess Kmax].
  assert (0 < max_history st0) as Hh0 by lia.
  destruct (add_message_spec st0 sid "assistant" (message resp) None Hh0)
    as (_ & Hmax' & _ & Hled' & Hothers').
  rewrite Hadd in Hmax', Hled', Hothers'. simpl in Hmax', Hled', Hothers'.
  split; [|split].
  - rewrite Hled'. unfold ledger at 1. rewrite Ksess. fold (ledger sta sid).
    rewrite Hled, Kmax, Hmax. simpl default.
    rewrite lastn_app_lastn, <- app_assoc. reflexivity.
  - lia.
  - intros sid' Hne. rewrite Hothers' by exact Hne. rewrite Ksess.
    apply Hothers. exact Hne.
Qed.

(** X29.  Whenever [process_request] returns a response, the ledger of
    the session has gained the user's message and then the message of
    the response, and nothing else: it is the earlier ledger with these
    two at the end, cut to the history limit.  Nothing in between, the
    handlers included, writes to the conversation manager, and the
    ledgers of the other sessions are as they were. *)
Theorem exchange_is_recorded (st st' : State) (um sid : string)
    (context : option (gmap string pyval)) (resp : AgentResponse) :
  0 < max_history st ->
  process_request um sid context st = (Returned resp, st') ->
  shown <$> ledger st' sid
  = lastn (Z.to_nat (max_history st))
      ((shown <$> ledger st sid)
       ++ [("user", um, ∅); ("assistant", message resp, ∅)])
  /\ Z.of_nat (length (ledger st' sid)) <= max_history st
  /\ max_history st' = max_history st
  /\ (forall sid', sid' <> sid -> sessions st' !! sid' = sessions st !! sid').
Proof.
  intros Hh Hrun.
  destruct (process_request_ledger _ _ _ _ _ _ Hh Hrun) as (Hled & Hmax & Hothers).
  split; [exact Hled|]. split; [|split; assumption].
  rewrite <- (length_fmap shown), Hled, length_lastn. lia.
Qed.

(** X30.  The first request on a session made by [create_session], as
    the command-line and the web front end issue it: when it returns a
    response and the history limit is at least two, the ledger of the
    session is exactly the user's message followed by the message of the
    response. *)
Theorem first_exchange_on_created_session (st st' : State)
    (fresh um : string) (context : option (gmap string pyval))
    (resp : AgentResponse) :
  2 <= max_history st ->
  (session <- create_session fresh ;; process_request um session context) st
  = (Returned resp, st') ->
  shown <$> ledger st' fresh
  = [("user", um, ∅); ("assistant", message resp, ∅)].
Proof.
  intros Hh.
  destruct (created_session_is_empty st fresh)
    as (st0 & Hcreate & _ & Hempty & _).
  assert (max_history st0 = max_history st) as Hmax.
  { assert (st0 = (create_session fresh st).2) as ->
      by (rewrite Hcreate; reflexivity).
    reflexivity. }
  rewrite (bind_returned _ _ _ _ _ Hcreate). intros Hrun.
  assert (0 < max_history st0) as Hh0 by lia.
  destruct (process_request_ledger _ _ _ _ _ _ Hh0 Hrun) as (Hled & _).
  rewrite Hled, Hempty. simpl app. apply lastn_all. simpl. lia.
Qed.

End HRCopilot.

(** ** The model at work: concrete requests *)

Local Abbreviation request :=
  (process_request Fixture.json_loads Fixture.validate_int
     Fixture.format_TaskType Fixture.retry_seconds_text Fixture.list_set
     Fixture.jd_generator_agent Fixture.screening_agent Fixture.interview_agent).

Local Abbreviation dispatch :=
  (_execute_tasks Fixture.format_TaskType
     Fixture.jd_generator_agent Fixture.screening_agent Fixture.interview_agent).

Local Abbreviation registry :=
  (agents Fixture.jd_generator_agent Fixture.screening_agent
     Fixture.interview_agent).

Example slice_from_last_two : Py.slice_from (-2) [1; 2; 3] = [2; 3].
Proof. reflexivity. Qed.

Example slice_from_minus_zero : Py.slice_from (-0) [1; 2; 3] = [1; 2; 3].
Proof. reflexivity. Qed.

Example strip_spaces : Py.strip "  ab c  " = "ab c".
Proof. reflexivity. Qed.

Example contains_429 : Py.contains "429" "HTTP 429 Too Many" = true.
Proof. reflexivity. Qed.

Example search_braces_greedy : Py.search_braces "x {a} y } z" = Some "{a} y }".
Proof. reflexivity. Qed.

Example clean_fenced_response :
  clean_response "  ```json intent ```  " = "intent".
Proof. reflexivity. Qed.

Example sorted_by_priority_is_stable :
  sorted snd [("a", 3); ("b", 1); ("c", 3); ("d", 1)]
  = [("b", 1); ("d", 1); ("a", 3); ("c", 3)].
Proof. reflexivity. Qed.

(** A history limit of zero does not bound the ledger: [messages[-0:]] is
    the whole list. *)
Example zero_limit_keeps_everything :
  length (ledger (run_appends [mkAppendOp "s1" "user" "a" None;
                               mkAppendOp "s1" "user" "b" None]
                    (Fixture.start (Fixture.answers []) 0)) "s1") = 2%nat.
Proof. vm_compute. reflexivity. Qed.

(** An empty key selects the listing, not the value stored under it. *)
Example empty_key_reads_listing :
  (get_short_term "s1" (Some "")
     (run_stores [mkStoreOp "s1" "" (VInt 7) 60]
        (Fixture.start (Fixture.answers []) 20))).1
  = Returned (VList [entry_view (mkMemEntry "" (VInt 7) 0 (1 + 60 * minute))]).
Proof. vm_compute. reflexivity. Qed.

(** A request that goes through: the plan of two tasks is run in the order
    of the priorities, and the response joins the two messages. *)
Example two_task_request_succeeds :
  match (request "Hire an engineer" "s1" None
           (Fixture.start
              (Fixture.answers [ApiText "intent"; ApiText "plan-two"]) 20)).1 with
  | Returned resp =>
      success resp = true
      /\ message resp
         = "Job description created #0" +:+ Py.nl +:+ "Screening completed"
           +:+ Py.nl +:+ Py.nl +:+ "Completed 2 tasks."
  | Raised _ => False
  end.
Proof. vm_compute. split; reflexivity. Qed.

(** *** C6 *)

Lemma ledger_bounded_fifo_witness :
  let st := Fixture.start (Fixture.answers []) 2 in
  let ops := [mkAppendOp "s1" "user" "one" None;
              mkAppendOp "s2" "user" "other" None;
              mkAppendOp "s1" "assistant" "two" None;
              mkAppendOp "s1" "user" "three" None] in
  0 < max_history st
  /\ appended_to "s1" ops <> []
  /\ is_Some (sessions (run_appends ops st) !! "s1")
  /\ shown <$> ledger (run_appends ops st) "s1"
     = [("assistant", "two", ∅); ("user", "three", ∅)]
  /\ Z.of_nat (length (ledger (run_appends ops st) "s1")) <= 2.
Proof.
  intros st ops.
  assert (H1 : 0 < max_history st) by (vm_compute; reflexivity).
  assert (H2 : appended_to "s1" ops <> []) by (vm_compute; discriminate).
  destruct (ledger_bounded_fifo st ops "s1" H1 H2) as (Hsome & Hfifo & Hlen).
  split; [exact H1|]. split; [exact H2|]. split; [exact Hsome|].
  split; [rewrite Hfifo; reflexivity | exact Hlen].
Defined.

(** *** C7 *)

(** Session [s1] holds an entry written with a time to live of zero
    minutes and a later entry under the same key that is still alive; the
    clock stands beyond the expiry of the first.  A write with the
    default time to live sweeps the stale entry; a write whose expiry is
    beyond the last date raises and leaves the list as it was. *)
Lemma expired_entry_absent_witness :
  let stale := mkMemEntry "draft" (VInt 1) 0 1 in
  let fresh := mkMemEntry "note" (VInt 2) 3 (4 + 60 * minute) in
  let st := set_clock_reads 6
              (set_short_term_memory {[ "s1" := [stale; fresh] ]}
                 (Fixture.start (Fixture.answers []) 20)) in
  short_term_memory st !! "s1" = Some [stale; fresh]
  /\ stale ∈ [stale; fresh]
  /\ monotone_clock st
  /\ entry_expires_at stale <= now st
  /\ (get_short_term "s1" None st).1 = Returned (VList [entry_view fresh])
  /\ (get_short_term "s1" (Some "draft") st).1 = Returned VNone
  /\ entries (get_short_term "s1" (Some "note") st).2 "s1" = [fresh]
  /\ (store_short_term "s1" "k" (VInt 3) 60 st).1 = Returned tt
  /\ (stale ∉ entries (store_short_term "s1" "k" (VInt 3) 60 st).2 "s1")
  /\ (store_short_term "s1" "k" (VInt 3) (2 ^ 40) st).1
     = Raised (OverflowError "date value out of range")
  /\ entries (store_short_term "s1" "k" (VInt 3) (2 ^ 40) st).2 "s1"
     = [stale; fresh]
  /\ short_term_memory (get_short_term "s2" None st).2 !! "s1"
     = Some [stale; fresh].
Proof.
  intros stale fresh st.
  assert (H1 : short_term_memory st !! "s1" = Some [stale; fresh])
    by (vm_compute; reflexivity).
  assert (H2 : stale ∈ [stale; fresh]) by (left).
  assert (H3 : monotone_clock st) by (intros i j Hij; cbn; lia).
  assert (H4 : entry_expires_at stale <= now st) by (vm_compute; discriminate).
  assert (H5 : (store_short_term "s1" "k" (VInt 3) 60 st).1 = Returned tt)
    by (vm_compute; reflexivity).
  assert (H6 : (store_short_term "s1" "k" (VInt 3) (2 ^ 40) st).1
               = Raised (OverflowError "date value out of range"))
    by (vm_compute; reflexivity).
  destruct (expired_entry_absent st "s1" [stale; fresh] stale H1 H2 H3 H4)
    as (_ & Hlist & _ & Hnone & Hread & Hswept & Hkept & Hlazy & _).
  split; [exact H1|]. split; [exact H2|]. split; [exact H3|]. split; [exact H4|].
  split; [rewrite Hlist; reflexivity|].
  split.
  { apply Hnone; [discriminate|].
    intros e' [->|[->|Hin]%elem_of_cons]%elem_of_cons Hkey;
      [exact H4 | discriminate | by apply elem_of_nil in Hin]. }
  split; [rewrite Hread; reflexivity|].
  split; [exact H5|]. split; [exact (Hswept "k" (VInt 3) 60 H5)|].
  split; [exact H6|]. split; [exact (Hkept "k" (VInt 3) (2 ^ 40) _ H6)|].
  apply Hlazy. discriminate.
Defined.

(** *** C10 *)

(** Writes for [s1]: key [k] twice and another key in between, with the
    default time to live, then key [k] once more with a time to live
    whose expiry is beyond the last date, a call that raises; the read
    returns the value of the last write that was carried out. *)
Lemma latest_unexpired_value_witness :
  let st := Fixture.start (Fixture.answers []) 20 in
  let ops := [mkStoreOp "s1" "k" (VStr "old") 60;
              mkStoreOp "s1" "other" (VInt 0) 60;
              mkStoreOp "s2" "k" (VStr "elsewhere") 60;
              mkStoreOp "s1" "k" (VStr "new") 60;
              mkStoreOp "s1" "k" (VStr "never") (2 ^ 40)] in
  monotone_clock st
  /\ short_term_memory st !! "s1" = None
  /\ "k" <> ""
  /\ (get_short_term "s1" (Some "k") (run_stores ops st)).1
     = Returned (VStr "new")
  /\ entry_value <$> stored_for "s1" (utcnow_readings st) (clock_reads st) ops
     = [VStr "old"; VInt 0; VStr "new"].
Proof.
  intros st ops.
  assert (H1 : monotone_clock st) by (intros i j Hij; cbn; lia).
  assert (H2 : short_term_memory st !! "s1" = None) by reflexivity.
  assert (H3 : "k" <> "") by discriminate.
  destruct (latest_unexpired_value st ops "s1" "k" H1 H2 H3) as (Hread & _ & _).
  split; [exact H1|]. split; [exact H2|]. split; [exact H3|].
  split; [rewrite Hread|]; vm_compute; reflexivity.
Defined.

(** *** C4 *)

(** Five tasks: two job descriptions and a screening, whose handlers
    return, an interview scheduling, whose handler raises, and an e-mail,
    for which there is no handler.  The four tasks with a handler are
    invoked once each, in the order of the plan: the task after the two
    failures as well.  The two failures stand at the positions of the
    tasks that failed. *)
Lemma one_result_per_task_witness :
  let t3 := mkPlannedTask "task_3" "interview_scheduling" "Schedule" 3 in
  let t4 := mkPlannedTask "task_4" "email_communication" "Notify" 4 in
  let plan := [mkPlannedTask "task_1" "job_description" "Write the posting" 1;
               mkPlannedTask "task_2" "resume_screening" "Screen" 2;
               t3; t4;
               mkPlannedTask "task_5" "job_description" "Second posting" 5] in
  let st := Fixture.start (Fixture.answers []) 20 in
  Forall well_typed plan
  /\ exists results ctx' calls,
       (dispatch plan "s1" ∅ st).1 = Returned (results, ctx')
       /\ length results = 5%nat
       /\ handler_calls (dispatch plan "s1" ∅ st).2 = calls
       /\ call_id <$> calls = ["task_1"; "task_2"; "task_3"; "task_5"]
       /\ results !! 2%nat
          = Some (raised_result t3 (Exception "calendar unavailable"))
       /\ results !! 3%nat
          = Some (no_agent_result Fixture.format_TaskType t4 EMAIL_COMMUNICATION).
Proof.
  intros t3 t4 plan st.
  assert (H1 : Forall well_typed plan)
    by (repeat constructor; vm_compute; eexists; reflexivity).
  split; [exact H1|].
  destruct (one_result_per_task Fixture.format_TaskType
              Fixture.jd_generator_agent Fixture.screening_agent
              Fixture.interview_agent plan "s1" ∅ st H1)
    as (results & ctx' & calls & st' & Hrun & Hlen & Hcalls & Hids & _ & _ & _
        & Hpos & _).
  exists results, ctx', calls. rewrite Hrun. cbn [fst snd].
  split; [reflexivity|]. split; [exact Hlen|]. split; [exact Hcalls|].
  split; [rewrite Hids; vm_compute; reflexivity|].
  split.
  - destruct (Hpos 2%nat t3 eq_refl) as (ty & Hty & Hcase).
    assert (ty = INTERVIEW_SCHEDULING) as -> by (vm_compute in Hty; congruence).
    destruct Hcase as [[Hn _]|(agent & v & o & y & y' & Ha & _ & Hag & Hr)];
      [discriminate Hn|].
    assert (agent = Fixture.interview_agent) as ->.
    { change (Some Fixture.interview_agent = Some agent) in Ha. congruence. }
    assert (o = HRaise (Exception "calendar unavailable")) as ->
      by (unfold Fixture.interview_agent in Hag; congruence).
    exact Hr.
  - destruct (Hpos 3%nat t4 eq_refl) as (ty & Hty & Hcase).
    assert (ty = EMAIL_COMMUNICATION) as -> by (vm_compute in Hty; congruence).
    destruct Hcase as [[_ Hr]|(agent & v & o & y & y' & Ha & _)];
      [exact Hr | discriminate Ha].
Defined.

(** The same plan, run: the ids of the results follow the plan, and the
    two failures stand at the positions of the tasks that failed. *)
Example five_task_plan_results :
  match (dispatch
           [mkPlannedTask "task_1" "job_description" "Write the posting" 1;
            mkPlannedTask "task_2" "resume_screening" "Screen" 2;
            mkPlannedTask "task_3" "interview_scheduling" "Schedule" 3;
            mkPlannedTask "task_4" "email_communication" "Notify" 4;
            mkPlannedTask "task_5" "job_description" "Second posting" 5]
           "s1" ∅ (Fixture.start (Fixture.answers []) 20)).1 with
  | Returned (results, _) =>
      (fun r => r !! "task_id") <$> results
      = [Some (VStr "task_1"); Some (VStr "task_2"); Some (VStr "task_3");
         Some (VStr "task_4"); Some (VStr "task_5")]
      /\ succeeded <$> results = [true; true; false; false; true]
      /\ (fun r => r !! "error") <$> results
         = [None; None; Some (VStr "calendar unavailable");
            Some (VStr "No agent found for task type: email_communication");
            None]
  | Raised _ => False
  end.
Proof. vm_compute. repeat split. Qed.

(** *** C5 *)

(** The handler of [task_1] raises.  The view handed to the handler of
    [task_2] holds nothing under the key of [task_1]: the statement that
    every earlier invocation has left an entry fails. *)
Lemma raised_task_leaves_no_entry :
  let plan := [mkPlannedTask "task_1" "interview_scheduling" "Schedule" 1;
               mkPlannedTask "task_2" "job_description" "Write the posting" 2] in
  let calls := handler_calls
                 (dispatch plan "s1" ∅ (Fixture.start (Fixture.answers []) 20)).2 in
  call_id <$> calls = ["task_1"; "task_2"]
  /\ ~ (forall (i j : nat) c_i c_j,
          (i < j)%nat -> calls !! i = Some c_i -> calls !! j = Some c_j ->
          is_Some (c_j.1.2 !! result_key (call_id c_i))).
Proof.
  intros plan calls. split; [vm_compute; reflexivity|].
  intros H.
  pose (none := ("", (∅ : gmap string pyval), HRaise (Exception ""))).
  pose (c_i := default none (calls !! 0%nat)).
  pose (c_j := default none (calls !! 1%nat)).
  assert (Hi : calls !! 0%nat = Some c_i)
    by (apply lookup_eta; vm_compute; reflexivity).
  assert (Hj : calls !! 1%nat = Some c_j)
    by (apply lookup_eta; vm_compute; reflexivity).
  assert (Hnone : c_j.1.2 !! result_key (call_id c_i) = None)
    by (vm_compute; reflexivity).
  destruct (H 0%nat 1%nat c_i c_j ltac:(lia) Hi Hj) as [v Hv].
  rewrite Hnone in Hv. discriminate.
Qed.

(** Three tasks with a handler each; the handler of the second raises.
    The views of the later handlers hold the dict the first handler
    returned under its key, and nothing under the key of the task whose
    handler raised. *)
Lemma earlier_results_in_view_witness :
  let plan := [mkPlannedTask "task_1" "job_description" "Write the posting" 1;
               mkPlannedTask "task_2" "interview_scheduling" "Schedule" 2;
               mkPlannedTask "task_3" "resume_screening" "Screen" 3] in
  let st := Fixture.start (Fixture.answers []) 20 in
  Forall well_typed plan
  /\ NoDup (p_task_id <$> plan)
  /\ exists calls,
       handler_calls (dispatch plan "s1" ∅ st).2 = handler_calls st ++ calls
       /\ call_id <$> calls = ["task_1"; "task_2"; "task_3"]
       /\ (forall (i j : nat) id_i v_i res_i id_j v_j o_j,
             (i < j)%nat ->
             calls !! i = Some (id_i, v_i, HReturn res_i) ->
             calls !! j = Some (id_j, v_j, o_j) ->
             v_j !! result_key id_i = Some (VDict res_i))
       /\ (forall (i j : nat) id_i v_i e id_j v_j o_j,
             calls !! i = Some (id_i, v_i, HRaise e) ->
             calls !! j = Some (id_j, v_j, o_j) ->
             v_j !! result_key id_i = None).
Proof.
  intros plan st.
  assert (H1 : Forall well_typed plan)
    by (repeat constructor; vm_compute; eexists; reflexivity).
  assert (H2 : NoDup (p_task_id <$> plan)).
  { cbn. repeat constructor; [| |by intros Hin%elem_of_nil].
    - intros [Heq|[Heq|Hin]%elem_of_cons]%elem_of_cons;
        [discriminate | discriminate | by apply elem_of_nil in Hin].
    - intros [Heq|Hin]%elem_of_cons; [discriminate|by apply elem_of_nil in Hin]. }
  split; [exact H1|]. split; [exact H2|].
  destruct (earlier_results_in_view Fixture.format_TaskType
              Fixture.jd_generator_agent Fixture.screening_agent
              Fixture.interview_agent plan "s1" ∅ st H1 H2)
    as (results & ctx' & calls & st' & Hrun & Hcalls & Hids & _ & _ & Hview
        & Hraised & _).
  exists calls. rewrite Hrun. cbn [snd].
  split; [exact Hcalls|]. split; [rewrite Hids; vm_compute; reflexivity|].
  split; [exact Hview|].
  intros i j id_i v_i e id_j v_j o_j Hi Hj.
  destruct (Hraised i j id_i v_i e id_j v_j o_j Hi Hj) as [Hv _].
  rewrite Hv. apply lookup_empty.
Defined.

(** The same plan, run: the second handler finds the dict the first one
    returned under the key [task_task_1_result]. *)
Example second_view_holds_first_result :
  match handler_calls
          (dispatch
             [mkPlannedTask "task_1" "job_description" "Write the posting" 1;
              mkPlannedTask "task_2" "resume_screening" "Screen" 2]
             "s1" ∅ (Fixture.start (Fixture.answers []) 20)).2 with
  | [(id_1, _, HReturn res_1); (id_2, v_2, _)] =>
      id_1 = "task_1" /\ id_2 = "task_2"
      /\ v_2 !! "task_task_1_result" = Some (VDict res_1)
  | _ => False
  end.
Proof. vm_compute. repeat split. Qed.

(** *** C3 *)

(** The registry has no handler for e-mail tasks, so it does not hold
    exactly one handler for every task type. *)
Lemma registry_lacks_email_handler :
  ~ (forall ty, ty ∈ all_task_types ->
       length (List.filter (fun kv => bool_decide (kv.1 = ty)) registry) = 1%nat).
Proof.
  intros H.
  specialize (H EMAIL_COMMUNICATION).
  assert (Hin : EMAIL_COMMUNICATION ∈ all_task_types).
  { unfold all_task_types. do 3 right. left. }
  specialize (H Hin). vm_compute in H. discriminate.
Qed.

(** *** C9 *)

Lemma remove_dups_enumerates : enumerates_set Fixture.list_set.
Proof.
  intros l. split; [apply NoDup_remove_dups|].
  intros x. apply elem_of_remove_dups.
Qed.

(** The plan of five tasks of which two fail.  The message of the response
    is not the three messages joined by newlines: the line that counts the
    completed tasks follows them. *)
Lemma summary_line_follows_messages :
  match (dispatch
           [mkPlannedTask "task_1" "job_description" "Write the posting" 1;
            mkPlannedTask "task_2" "resume_screening" "Screen" 2;
            mkPlannedTask "task_3" "interview_scheduling" "Schedule" 3;
            mkPlannedTask "task_4" "email_communication" "Notify" 4;
            mkPlannedTask "task_5" "job_description" "Second posting" 5]
           "s1" ∅ (Fixture.start (Fixture.answers []) 20)).1 with
  | Returned (results, _) =>
      succeeded <$> results = [true; true; false; false; true]
      /\ message_of <$> List.filter succeeded results
         = [Some "Job description created #0"; Some "Screening completed";
            Some "Job description created #3"]
      /\ match _generate_response Fixture.list_set "Hire an engineer" results VNone with
         | Returned resp =>
             message resp
             <> Py.join Py.nl ["Job description created #0"; "Screening completed";
                               "Job description created #3"]
             /\ message resp
                = Py.join Py.nl ["Job description created #0"; "Screening completed";
                                 "Job description created #3"]
                  +:+ Py.nl +:+ Py.nl +:+ "Completed 3 tasks."
         | Raised _ => False
         end
  | Raised _ => False
  end.
Proof. vm_compute. repeat split. discriminate. Qed.

Lemma response_for_three_successes_witness :
  let plan := [mkPlannedTask "task_1" "job_description" "Write the posting" 1;
               mkPlannedTask "task_2" "resume_screening" "Screen" 2;
               mkPlannedTask "task_3" "interview_scheduling" "Schedule" 3;
               mkPlannedTask "task_4" "email_communication" "Notify" 4;
               mkPlannedTask "task_5" "job_description" "Second posting" 5] in
  let st := Fixture.start (Fixture.answers []) 20 in
  let results := (returned_or ([], ∅) (dispatch plan "s1" ∅ st).1).1 in
  enumerates_set Fixture.list_set
  /\ length plan = 5%nat
  /\ succeeded <$> results = [true; true; false; false; true]
  /\ exists resp,
       _generate_response Fixture.list_set "Hire an engineer" results VNone
       = Returned resp
       /\ message resp
          = Py.join Py.nl ["Job description created #0"; "Screening completed";
                           "Job description created #3"]
            +:+ completed_line 3
       /\ forall acts, next_actions resp = Some acts ->
                       (length acts <= 5)%nat /\ NoDup acts.
Proof.
  intros plan st results.
  split; [exact remove_dups_enumerates|]. split; [reflexivity|].
  split; [vm_compute; reflexivity|].
  pose (ctx' := (returned_or ([], ∅) (dispatch plan "s1" ∅ st).1).2).
  pose (r1 := nth 0 (List.filter succeeded results) ∅).
  pose (r2 := nth 1 (List.filter succeeded results) ∅).
  pose (r3 := nth 2 (List.filter succeeded results) ∅).
  assert (Hrun : (dispatch plan "s1" ∅ st).1 = Returned (results, ctx')).
  { rewrite (returned_eta ([], ∅) (dispatch plan "s1" ∅ st).1)
      by (vm_compute; reflexivity).
    subst results ctx'. by destruct (returned_or _ _). }
  assert (Hsucc : List.filter succeeded results = [r1; r2; r3])
    by (apply list3_eta; vm_compute; reflexivity).
  assert (C1 : follows_contract r1).
  { split; [exists "Job description created #0"; vm_compute; reflexivity|].
    right. right.
    exists ["Review and edit the job description"; "Post to job boards";
            "Start screening candidates"]. vm_compute. reflexivity. }
  assert (C2 : follows_contract r2).
  { split; [exists "Screening completed"; vm_compute; reflexivity|].
    right. right.
    exists ["Post to job boards"; "Schedule interviews";
            "Send rejection emails"; "Review top candidates"].
    vm_compute. reflexivity. }
  assert (C3 : follows_contract r3).
  { split; [exists "Job description created #3"; vm_compute; reflexivity|].
    right. right.
    exists ["Review and edit the job description"; "Post to job boards";
            "Start screening candidates"]. vm_compute. reflexivity. }
  assert (Hcontract : Forall follows_contract [r1; r2; r3]).
  { apply Forall_cons_2; [exact C1|]. apply Forall_cons_2; [exact C2|].
    apply Forall_cons_2; [exact C3|]. apply Forall_nil_2. }
  assert (Hmsgs : message_of <$> [r1; r2; r3]
                  = [Some "Job description created #0"; Some "Screening completed";
                     Some "Job description created #3"])
    by (vm_compute; reflexivity).
  destruct (response_for_three_successes Fixture.format_TaskType Fixture.list_set
              Fixture.jd_generator_agent Fixture.screening_agent
              Fixture.interview_agent plan "s1" "Hire an engineer" ∅ ctx' st
              results r1 r2 r3 _ _ _ VNone
              remove_dups_enumerates eq_refl Hrun Hsucc Hcontract Hmsgs)
    as (_ & resp & Hresp & _ & Hmessage & Hactions).
  exists resp. split; [exact Hresp|]. split; [exact Hmessage|].
  intros acts Hacts. destruct (Hactions acts Hacts) as (Hlen & Hnd & _). auto.
Defined.

(** *** C1 *)

(** The request whose decomposition is the single task
    [{task_type: job_description, description: ..., priority: 1,
      dependencies: [task_7]}]; the only id of the plan is [task_1]. *)
Lemma invalid_plan_raises_KeyError_witness :
  let st := Fixture.start
              (Fixture.answers [ApiText "intent"; ApiText "plan-dangling"]) 20 in
  (request "Create a posting" "s1" None st).1 = Raised (KeyError "tasks")
  /\ handler_calls (request "Create a posting" "s1" None st).2 = handler_calls st
  /\ api_calls (request "Create a posting" "s1" None st).2 = 2%nat
  /\ fmap content
       <$> (messages <$> sessions (request "Create a posting" "s1" None st).2 !! "s1")
     = Some ["Create a posting"].
Proof.
  intros st.
  (* what the three stages do, by running them *)
  assert (E1 : is_returned (gather_context "Create a posting" "s1" None st).1 = true)
    by (vm_compute; reflexivity).
  assert (E2 : is_dict
                 (returned_or VNone
                    (analyze_intent Fixture.json_loads Fixture.retry_seconds_text
                       "Create a posting"
                       (gather_context "Create a posting" "s1" None st).2).1)
               = true)
    by (vm_compute; reflexivity).
  assert (E3 : Py.truthy
                 (Py.get
                    (dict_or_empty
                       (returned_or VNone
                          (analyze_intent Fixture.json_loads
                             Fixture.retry_seconds_text "Create a posting"
                             (gather_context "Create a posting" "s1" None st).2).1))
                    "requires_clarification") = false)
    by (vm_compute; reflexivity).
  assert (E4 : let d := returned_or (mkDecomposition [] false None)
                 (decompose Fixture.json_loads Fixture.validate_int
                    Fixture.retry_seconds_text "Create a posting"
                    (returned_or ∅ (gather_context "Create a posting" "s1" None st).1)
                    (analyze_intent Fixture.json_loads Fixture.retry_seconds_text
                       "Create a posting"
                       (gather_context "Create a posting" "s1" None st).2).2).1 in
               is_returned
                 (decompose Fixture.json_loads Fixture.validate_int
                    Fixture.retry_seconds_text "Create a posting"
                    (returned_or ∅ (gather_context "Create a posting" "s1" None st).1)
                    (analyze_intent Fixture.json_loads Fixture.retry_seconds_text
                       "Create a posting"
                       (gather_context "Create a posting" "s1" None st).2).2).1
               = true
               /\ requires_clarification d = false
               /\ dangling (tasks d) = true)
    by (vm_compute; repeat split).
  (* the same facts about the stages as they follow one another *)
  destruct (gather_context "Create a posting" "s1" None st) as [o1 st1] eqn:Hgather.
  cbn [fst snd] in E1, E2, E3, E4.
  destruct o1 as [full|]; [|discriminate]. cbn [returned_or] in E4.
  destruct (analyze_intent Fixture.json_loads Fixture.retry_seconds_text
              "Create a posting" st1) as [o2 st2] eqn:Hintent.
  cbn [fst snd] in E2, E3, E4.
  destruct o2 as [[| | | | | |intent]|]; try discriminate.
  cbn [returned_or dict_or_empty] in E3.
  destruct (decompose Fixture.json_loads Fixture.validate_int
              Fixture.retry_seconds_text "Create a posting" full st2)
    as [o3 st3] eqn:Hdec.
  cbn [fst snd] in E4. destruct E4 as (E4 & Hnoclar & Hdangling).
  destruct o3 as [d|]; [|discriminate]. cbn [returned_or] in Hnoclar, Hdangling.
  destruct (invalid_plan_raises_KeyError Fixture.json_loads Fixture.validate_int
              Fixture.format_TaskType Fixture.retry_seconds_text Fixture.list_set
              Fixture.jd_generator_agent Fixture.screening_agent
              Fixture.interview_agent
              "Create a posting" "s1" None st st1 st2 st3 full intent d
              Hgather Hintent E3 Hdec Hnoclar (dangling_sound _ Hdangling))
    as [Hraise Hcalls].
  split; [rewrite Hraise; reflexivity|].
  split; [rewrite Hraise; exact Hcalls|].
  split; vm_compute; reflexivity.
Defined.

(** *** C2 *)

(** The endpoint fails at every call.  The intent analysis gives up after
    its three attempts, and [process_request] returns no response. *)
Lemma upstream_failure_yields_no_response :
  let st := Fixture.start (Fixture.answers []) 20 in
  (forall k, api_outcomes st k = ApiError "connection reset")
  /\ ~ exists resp,
         (request "Create a posting" "s1" None st).1 = Returned resp.
Proof.
  intros st. split.
  - intros k. cbn. unfold Fixture.answers. by destruct k.
  - intros [resp Hresp].
    assert (Hraised : (request "Create a posting" "s1" None st).1
                      = Raised (Exception
                                  "Error generating response: connection reset"))
      by (vm_compute; reflexivity).
    rewrite Hraised in Hresp. discriminate.
Qed.

(** The same when the endpoint answers with text that is not a JSON
    document. *)
Example unparseable_answer_yields_no_response :
  is_returned
    (request "Create a posting" "s1" None
       (Fixture.start (Fixture.answers [ApiText "Sure, here is the plan"]) 20)).1
  = false.
Proof. vm_compute. reflexivity. Qed.

Lemma upstream_failure_propagates_witness :
  let st := Fixture.start (Fixture.answers []) 20 in
  let r := request "Create a posting" "s1" None st in
  r.1 = Raised (Exception "Error generating response: connection reset")
  /\ (api_calls r.2 <= 3)%nat
  /\ handler_calls r.2 = [].
Proof.
  intros st r.
  destruct (upstream_failure_propagates Fixture.json_loads Fixture.validate_int
              Fixture.format_TaskType Fixture.retry_seconds_text Fixture.list_set
              Fixture.jd_generator_agent Fixture.screening_agent
              Fixture.interview_agent "Create a posting" "s1" None st)
    as (full & st1 & Hgather & _ & Hintent & _).
  assert (Hst1 : st1 = (gather_context "Create a posting" "s1" None st).2)
    by (rewrite Hgather; reflexivity).
  pose (i := analyze_intent Fixture.json_loads Fixture.retry_seconds_text
               "Create a posting" st1).
  assert (Hraised : analyze_intent Fixture.json_loads Fixture.retry_seconds_text
                      "Create a posting" st1
                    = (Raised (Exception
                                 "Error generating response: connection reset"),
                       i.2)).
  { fold i. rewrite (surjective_pairing i). f_equal.
    subst i. rewrite Hst1. vm_compute. reflexivity. }
  destruct (Hintent _ _ Hraised) as (Hrun & Hcalls & Hhandlers).
  subst r. rewrite Hrun. cbn [fst snd].
  split; [reflexivity|]. split; [exact Hcalls | exact Hhandlers].
Defined.

(** ** Further properties at work *)

(** *** The conversation manager *)

(** With a history limit of two, a third message is read back as the
    last one of the two that remain. *)
Lemma appended_message_is_read_back_witness :
  let st := run_appends [mkAppendOp "s1" "user" "one" None;
                         mkAppendOp "s1" "assistant" "two" None]
              (Fixture.start (Fixture.answers []) 2) in
  0 < max_history st
  /\ 0 < 5
  /\ exists earlier m st',
       (add_message "s1" "user" "three" None ;;; get_messages "s1" (Some 5)) st
       = (Returned (earlier ++ [m]), st')
       /\ shown m = ("user", "three", ∅)
       /\ Z.of_nat (length (earlier ++ [m])) <= 5
       /\ Z.of_nat (length (earlier ++ [m])) <= max_history st.
Proof.
  intros st.
  assert (H1 : 0 < max_history st) by (vm_compute; reflexivity).
  assert (H2 : 0 < 5) by lia.
  split; [exact H1|]. split; [exact H2|].
  exact (appended_message_is_read_back st "s1" "user" "three" None 5 H1 H2).
Defined.

(** A limit of [-1] on a ledger of three messages returns the last two. *)
Lemma nonpositive_limit_drops_prefix_witness :
  let st := run_appends [mkAppendOp "s1" "user" "one" None;
                         mkAppendOp "s1" "assistant" "two" None;
                         mkAppendOp "s1" "user" "three" None]
              (Fixture.start (Fixture.answers []) 20) in
  -1 <= 0
  /\ get_messages "s1" (Some (-1)) st
     = (Returned (drop 1 (ledger st "s1")), st)
  /\ content <$> drop 1 (ledger st "s1") = ["two"; "three"].
Proof.
  intros st.
  assert (H1 : -1 <= 0) by lia.
  split; [exact H1|].
  split; [exact (nonpositive_limit_drops_prefix st "s1" (-1) H1)|].
  vm_compute. reflexivity.
Defined.

(** A session with one active task: a second task is added, added once
    more, and removed again. *)
Lemma add_active_task_idempotent_witness :
  let st := (add_active_task "s1" "t1"
               (create_session "s1" (Fixture.start (Fixture.answers []) 20)).2).2 in
  ("t2" ∉ active_of st "s1")
  /\ (add_active_task "s1" "t2" (add_active_task "s1" "t2" st).2).2
     = (add_active_task "s1" "t2" st).2
  /\ (add_active_task "s1" "t2" ;;; remove_active_task "s1" "t2") st
     = (Returned tt, st).
Proof.
  intros st.
  assert (E : active_of st "s1" = ["t1"]) by (vm_compute; reflexivity).
  assert (H1 : "t2" ∉ active_of st "s1").
  { rewrite E. intros Hin. apply list_elem_of_singleton in Hin. discriminate. }
  destruct (add_active_task_idempotent st "s1" "t2") as (Hidem & _ & _ & _ & _ & Hundo).
  split; [exact H1|]. split; [exact Hidem|]. exact (Hundo H1).
Defined.

(** Two active tasks, of which the first is removed. *)
Lemma remove_active_task_removes_witness :
  let st := (add_active_task "s1" "t2"
               (add_active_task "s1" "t1"
                  (create_session "s1"
                     (Fixture.start (Fixture.answers []) 20)).2).2).2 in
  NoDup (active_of st "s1")
  /\ active_of (remove_active_task "s1" "t1" st).2 "s1" = ["t2"]
  /\ ("t1" ∉ active_of (remove_active_task "s1" "t1" st).2 "s1").
Proof.
  intros st.
  assert (E : active_of st "s1" = ["t1"; "t2"]) by (vm_compute; reflexivity).
  assert (H1 : NoDup (active_of st "s1")).
  { rewrite E. apply NoDup_cons. split; [|apply NoDup_singleton].
    intros Hin. apply list_elem_of_singleton in Hin. discriminate. }
  destruct (remove_active_task_removes st "s1" "t1" H1) as (Hact & Hnot & _).
  split; [exact H1|]. split; [|exact Hnot].
  rewrite Hact, E. reflexivity.
Defined.

(** *** The memory service *)

(** A write with a time to live of zero minutes into an empty session:
    the call returns and the entry is swept at once. *)
Lemma nonpositive_ttl_is_never_stored_witness :
  let st := Fixture.start (Fixture.answers []) 20 in
  monotone_clock st
  /\ 0 <= 0
  /\ (store_short_term "s1" "draft" (VInt 1) 0 st).1 = Returned tt
  /\ entries (store_short_term "s1" "draft" (VInt 1) 0 st).2 "s1" = []
  /\ (get_short_term "s1" (Some "draft")
        (store_short_term "s1" "draft" (VInt 1) 0 st).2).1
     = Returned VNone.
Proof.
  intros st.
  assert (H1 : monotone_clock st) by (intros i j Hij; cbn; lia).
  assert (H2 : 0 <= 0) by lia.
  assert (E : expires_after (utcnow_readings st (S (clock_reads st))) 0 = Some 1)
    by (vm_compute; reflexivity).
  pose proof (nonpositive_ttl_is_never_stored st "s1" "draft" (VInt 1) 0 H1 H2)
    as H.
  cbv zeta in H. rewrite E in H. destruct H as [[Hret Hent] Hget].
  split; [exact H1|]. split; [exact H2|]. split; [exact Hret|].
  split; [rewrite Hent; reflexivity|].
  apply Hget; [discriminate|].
  intros e He. apply elem_of_nil in He. contradiction.
Defined.

(** A write with a time to live so far below zero that the expiry is
    before the first date: the call raises and nothing is stored. *)
Example negative_ttl_out_of_range_raises :
  let st := Fixture.start (Fixture.answers []) 20 in
  (store_short_term "s1" "draft" (VInt 1) (- 2 ^ 20) st).1
  = Raised (OverflowError "date value out of range")
  /\ entries (store_short_term "s1" "draft" (VInt 1) (- 2 ^ 20) st).2 "s1" = []
  /\ (store_short_term "s1" "draft" (VInt 1) (-1439999998561) st).1
     = Raised (OverflowError "days=-1000000000; must have magnitude <= 999999999")
  /\ (store_short_term "s1" "draft" (VInt 1) (- 2 ^ 60) st).1
     = Raised (OverflowError "Python int too large to convert to C int").
Proof. vm_compute. repeat split. Qed.

(** A write with the default time to live, read three clock readings
    later. *)
Lemma stored_value_is_read_back_witness :
  let st := Fixture.start (Fixture.answers []) 20 in
  monotone_clock st
  /\ "note" <> ""
  /\ expires_after (utcnow_readings st (1 + clock_reads st)) 60
     = Some (1 + 60 * minute)
  /\ utcnow_readings st (3 + clock_reads st) < 1 + 60 * minute
  /\ ((store_short_term "s1" "note" (VStr "call back") 60 ;;;
       get_short_term "s1" (Some "note")) st).1
     = Returned (VStr "call back").
Proof.
  intros st.
  assert (H1 : monotone_clock st) by (intros i j Hij; cbn; lia).
  assert (H2 : "note" <> "") by discriminate.
  assert (E : expires_after (utcnow_readings st (1 + clock_reads st)) 60
              = Some (1 + 60 * minute))
    by (vm_compute; reflexivity).
  assert (H3 : utcnow_readings st (3 + clock_reads st) < 1 + 60 * minute)
    by (vm_compute; reflexivity).
  split; [exact H1|]. split; [exact H2|]. split; [exact E|]. split; [exact H3|].
  pose proof (stored_value_is_read_back st "s1" "note" (VStr "call back") 60 H1 H2)
    as H.
  rewrite E in H. destruct H as [_ H]. exact (H H3).
Defined.

(** The same write with a time to live whose expiry is beyond the last
    date: the store raises and the read is not reached. *)
Example store_beyond_last_date_raises :
  ((store_short_term "s1" "note" (VStr "call back") (2 ^ 40) ;;;
    get_short_term "s1" (Some "note"))
     (Fixture.start (Fixture.answers []) 20)).1
  = Raised (OverflowError "date value out of range").
Proof. vm_compute. reflexivity. Qed.

(** The context type [job] is written into a fresh cache. *)
Lemma stored_context_is_read_back_witness :
  let st := Fixture.start (Fixture.answers []) 20 in
  let data : gmap string pyval := {[ "position" := VStr "Engineer" ]} in
  "job" <> ""
  /\ exists st',
       store_context "s1" "job" data st = (Returned tt, st')
       /\ MemoryService_get_context "s1" (Some "job") st'
          = (Returned (VDict data), st').
Proof.
  intros st data.
  assert (H1 : "job" <> "") by discriminate.
  destruct (stored_context_is_read_back st "s1" "job" data H1)
    as (st' & Hrun & Hread & _).
  split; [exact H1|]. exists st'. split; [exact Hrun | exact Hread].
Defined.

(** *** The text-generation service *)

(** Two failures, one of them a rate-limit error, then a text. *)
Lemma generate_response_first_answer_witness :
  let st := Fixture.start
              (Fixture.answers [ApiError "connection reset";
                                ApiError "429 Too Many Requests";
                                ApiText "ok"]) 20 in
  fails_next 2 st
  /\ api_outcomes st (api_calls st + 2)%nat = ApiText "ok"
  /\ Z.of_nat 2 < 3
  /\ generate_response Fixture.retry_seconds_text 3 st
     = (Returned "ok", set_api_calls 3 st).
Proof.
  intros st.
  assert (H1 : fails_next 2 st).
  { intros i Hi. destruct i as [|[|i]]; [eexists; reflexivity ..|lia]. }
  assert (H2 : api_outcomes st (api_calls st + 2)%nat = ApiText "ok")
    by reflexivity.
  assert (H3 : Z.of_nat 2 < 3) by lia.
  split; [exact H1|]. split; [exact H2|]. split; [exact H3|].
  exact (generate_response_first_answer Fixture.retry_seconds_text st 3 2 "ok"
           H1 H2 H3).
Defined.

(** Three failures, the last of them a rate-limit error: the quota
    message is raised, although the first two failures were of another
    kind. *)
Lemma generate_response_gives_up_witness :
  let st := Fixture.start
              (Fixture.answers [ApiError "connection reset";
                                ApiError "connection reset";
                                ApiError "429 RESOURCE_EXHAUSTED"]) 20 in
  0 < 3
  /\ fails_next (Z.to_nat 3 - 1) st
  /\ api_outcomes st (api_calls st + (Z.to_nat 3 - 1))%nat
     = ApiError "429 RESOURCE_EXHAUSTED"
  /\ generate_response Fixture.retry_seconds_text 3 st
     = (Raised (Exception
                  ("Rate limit exceeded. Your Gemini API quota is exhausted. "
                   +:+ "Please wait ~60s or check your quota at: "
                   +:+ "https://aistudio.google.com/app/apikey")),
        set_api_calls 3 st).
Proof.
  intros st.
  assert (H1 : 0 < 3) by lia.
  assert (H2 : fails_next (Z.to_nat 3 - 1) st).
  { intros i Hi. destruct i as [|[|i]]; [eexists; reflexivity ..|].
    change (Z.to_nat 3 - 1)%nat with 2%nat in Hi. lia. }
  assert (H3 : api_outcomes st (api_calls st + (Z.to_nat 3 - 1))%nat
               = ApiError "429 RESOURCE_EXHAUSTED") by reflexivity.
  split; [exact H1|]. split; [exact H2|]. split; [exact H3|].
  rewrite (generate_response_gives_up Fixture.retry_seconds_text st 3
             "429 RESOURCE_EXHAUSTED" H1 H2 H3).
  reflexivity.
Defined.

(** An empty object between fences, with a newline on either side of it
    and blanks around the fences. *)
Lemma fenced_document_is_unwrapped_witness :
  blank " " /\ blank Py.nl /\ blank "  " /\ trimmed "{}"
  /\ clean_response
       (" " +:+ "```json" +:+ Py.nl +:+ "{}" +:+ Py.nl +:+ "```" +:+ "  ")
     = "{}".
Proof.
  assert (H1 : blank " ") by (repeat constructor).
  assert (H2 : blank Py.nl) by (repeat constructor).
  assert (H3 : blank "  ") by (repeat constructor).
  assert (H4 : trimmed "{}") by (split; reflexivity).
  split; [exact H1|]. split; [exact H2|]. split; [exact H3|]. split; [exact H4|].
  exact (fenced_document_is_unwrapped " " Py.nl "{}" Py.nl "  " H1 H2 H2 H3 H4).
Defined.

(** An answer with a sentence before and after an empty object, and a
    decoder that accepts the object only. *)
Lemma text_around_object_is_ignored_witness :
  let loads := fun s : string =>
                 if String.eqb s "{}" then inr (VDict ∅)
                 else inl "Expecting value: line 1 column 1 (char 0)" in
  let text := "Here it is: {} Anything else?" in
  let st := Fixture.start (Fixture.answers [ApiText text]) 20 in
  api_outcomes st (api_calls st) = ApiText text
  /\ loads (clean_response text) = inl "Expecting value: line 1 column 1 (char 0)"
  /\ Py.chars (clean_response text)
     = Py.chars "Here it is: " ++ "{"%char :: [] ++ "}"%char
         :: Py.chars " Anything else?"
  /\ ("{"%char ∉ Py.chars "Here it is: ")
  /\ ("}"%char ∉ Py.chars " Anything else?")
  /\ loads (Py.of_chars ("{"%char :: [] ++ ["}"%char])) = inr (VDict ∅)
  /\ generate_structured_output loads Fixture.retry_seconds_text st
     = (Returned (VDict ∅), set_api_calls 1 st).
Proof.
  intros loads text st.
  assert (H1 : api_outcomes st (api_calls st) = ApiText text) by reflexivity.
  assert (H2 : loads (clean_response text)
               = inl "Expecting value: line 1 column 1 (char 0)")
    by (vm_compute; reflexivity).
  assert (H3 : Py.chars (clean_response text)
               = Py.chars "Here it is: " ++ "{"%char :: [] ++ "}"%char
                   :: Py.chars " Anything else?")
    by (vm_compute; reflexivity).
  assert (H4 : "{"%char ∉ Py.chars "Here it is: ")
    by (apply (bool_decide_unpack _); vm_compute; exact I).
  assert (H5 : "}"%char ∉ Py.chars " Anything else?")
    by (apply (bool_decide_unpack _); vm_compute; exact I).
  assert (H6 : loads (Py.of_chars ("{"%char :: [] ++ ["}"%char])) = inr (VDict ∅))
    by reflexivity.
  split; [exact H1|]. split; [exact H2|]. split; [exact H3|].
  split; [exact H4|]. split; [exact H5|]. split; [exact H6|].
  exact (text_around_object_is_ignored loads Fixture.retry_seconds_text st text
           _ _ _ _ _ H1 H2 H3 H4 H5 H6).
Defined.

(** *** The task decomposer *)

(** The decomposition of the two-task answer. *)
Lemma decomposition_ids_are_sequential_witness :
  let st := Fixture.start (Fixture.answers [ApiText "plan-two"]) 20 in
  exists d st',
    decompose Fixture.json_loads Fixture.validate_int Fixture.retry_seconds_text
      "Hire an engineer" ∅ st = (Returned d, st')
    /\ task_id <$> tasks d = ["task_1"; "task_2"]
    /\ NoDup (task_id <$> tasks d).
Proof.
  intros st.
  assert (E1 : is_returned
                 (decompose Fixture.json_loads Fixture.validate_int
                    Fixture.retry_seconds_text "Hire an engineer" ∅ st).1 = true)
    by (vm_compute; reflexivity).
  assert (E2 : length
                 (tasks
                    (returned_or (mkDecomposition [] false None)
                       (decompose Fixture.json_loads Fixture.validate_int
                          Fixture.retry_seconds_text "Hire an engineer" ∅ st).1))
               = 2%nat)
    by (vm_compute; reflexivity).
  destruct (decompose Fixture.json_loads Fixture.validate_int
              Fixture.retry_seconds_text "Hire an engineer" ∅ st)
    as [o st'] eqn:Hrun.
  cbn [fst] in E1, E2. destruct o as [d|]; [|discriminate].
  cbn [returned_or] in E2.
  destruct (decomposition_ids_are_sequential Fixture.json_loads
              Fixture.validate_int Fixture.retry_seconds_text
              "Hire an engineer" ∅ st st' d Hrun) as (Hids & Hnodup & _).
  exists d, st'. split; [reflexivity|]. split; [|exact Hnodup].
  rewrite Hids, E2. reflexivity.
Defined.

(** Two tasks, the first of which depends on itself and on the second,
    the second on the first. *)
Lemma validate_accepts_known_dependencies_witness :
  let task := fun id deps =>
                mkAgentTask id JOB_DESCRIPTION "Write the posting"
                  {[ "dependencies" := VList (VStr <$> deps) ]} 1 in
  let plan := [task "task_1" ["task_1"; "task_2"]; task "task_2" ["task_1"]] in
  dependencies_listed plan
  /\ (validate_task_sequence plan = Returned true <-> dependencies_known plan)
  /\ validate_task_sequence plan = Returned true.
Proof.
  intros task plan.
  assert (H1 : dependencies_listed plan).
  { intros t Ht. apply elem_of_cons in Ht as [->|Ht]; [eexists; reflexivity|].
    apply list_elem_of_singleton in Ht as ->. eexists; reflexivity. }
  destruct (validate_accepts_known_dependencies plan H1) as [Hiff _].
  split; [exact H1|]. split; [exact Hiff|]. reflexivity.
Defined.

(** The plan of the two-task answer is a ready plan. *)
Lemma plan_has_one_of_three_shapes_witness :
  let st := Fixture.start (Fixture.answers [ApiText "plan-two"]) 20 in
  exists plan st',
    generate_execution_plan Fixture.json_loads Fixture.validate_int
      Fixture.retry_seconds_text "Hire an engineer" ∅ st = (Returned plan, st')
    /\ ep_status plan = "ready"
    /\ exists planned_tasks,
         ep_tasks plan = Some planned_tasks
         /\ ep_total_tasks plan = Some (length planned_tasks)
         /\ Forall well_typed planned_tasks
         /\ NoDup (p_task_id <$> planned_tasks).
Proof.
  intros st.
  assert (E1 : is_returned
                 (generate_execution_plan Fixture.json_loads Fixture.validate_int
                    Fixture.retry_seconds_text "Hire an engineer" ∅ st).1 = true)
    by (vm_compute; reflexivity).
  assert (E2 : ep_status
                 (returned_or (mkExecutionPlan "" None None None None None None)
                    (generate_execution_plan Fixture.json_loads
                       Fixture.validate_int Fixture.retry_seconds_text
                       "Hire an engineer" ∅ st).1) = "ready")
    by (vm_compute; reflexivity).
  destruct (generate_execution_plan Fixture.json_loads Fixture.validate_int
              Fixture.retry_seconds_text "Hire an engineer" ∅ st)
    as [o st'] eqn:Hrun.
  cbn [fst] in E1, E2. destruct o as [plan|]; [|discriminate].
  cbn [returned_or] in E2.
  exists plan, st'. split; [reflexivity|]. split; [exact E2|].
  destruct (plan_has_one_of_three_shapes Fixture.json_loads Fixture.validate_int
              Fixture.retry_seconds_text "Hire an engineer" ∅ st st' plan Hrun)
    as [(Hs & _)|[(Hs & _)|(_ & _ & _ & l & Hl & Htotal & Htyped & Hnodup & _)]].
  - rewrite E2 in Hs. discriminate.
  - rewrite E2 in Hs. discriminate.
  - exists l. auto.
Defined.

(** Three tasks, and the change that empties every task's input, the
    dependencies with it. *)
Lemma plan_order_ignores_dependencies_witness :
  let f := fun t => mkAgentTask (task_id t) (task_type t) (description t) ∅
                      (priority t) in
  let plan := [mkAgentTask "task_1" RESUME_SCREENING "Screen the applicants"
                 {[ "dependencies" := VList [VStr "task_2"] ]} 3;
               mkAgentTask "task_2" JOB_DESCRIPTION "Write the posting" ∅ 1;
               mkAgentTask "task_3" INTERVIEW_SCHEDULING "Plan the interviews"
                 {[ "dependencies" := VList [VStr "task_1"] ]} 3] in
  (forall t, priority (f t) = priority t)
  /\ prioritize_tasks (f <$> plan) = f <$> prioritize_tasks plan
  /\ task_id <$> prioritize_tasks plan = ["task_2"; "task_1"; "task_3"].
Proof.
  intros f plan.
  assert (H1 : forall t, priority (f t) = priority t) by reflexivity.
  split; [exact H1|].
  split; [exact (plan_order_ignores_dependencies plan f H1)|].
  reflexivity.
Defined.

(** *** The orchestrator *)


(** A request whose intent analysis asks which position is meant. *)
Lemma clarification_short_circuits_witness :
  let st := Fixture.start (Fixture.answers [ApiText "clarify"]) 20 in
  let run := process_request clarifying_json_loads Fixture.validate_int
               Fixture.format_TaskType Fixture.retry_seconds_text
               Fixture.list_set Fixture.jd_generator_agent
               Fixture.screening_agent Fixture.interview_agent
               "Hire someone" "s1" None st in
  run.1 = Returned (mkAgentResponse true
                      "I need some clarification to help you better:" None
                      (Some ["Which position is the posting for?"]) None)
  /\ api_calls run.2 = 1%nat
  /\ handler_calls run.2 = []
  /\ content <$> ledger run.2 "s1"
     = ["Hire someone"; "I need some clarification to help you better:"].
Proof.
  intros st run.
  assert (E1 : is_returned (gather_context "Hire someone" "s1" None st).1 = true)
    by (vm_compute; reflexivity).
  assert (E2 : is_dict
                 (returned_or VNone
                    (analyze_intent clarifying_json_loads
                       Fixture.retry_seconds_text "Hire someone"
                       (gather_context "Hire someone" "s1" None st).2).1) = true)
    by (vm_compute; reflexivity).
  assert (E3 : let intent :=
                 dict_or_empty
                   (returned_or VNone
                      (analyze_intent clarifying_json_loads
                         Fixture.retry_seconds_text "Hire someone"
                         (gather_context "Hire someone" "s1" None st).2).1) in
               Py.truthy (Py.get intent "requires_clarification") = true
               /\ validate_opt_str_list
                    (Py.get_or intent "clarification_questions" (VList []))
                  = Some (Some ["Which position is the posting for?"]))
    by (vm_compute; split; reflexivity).
  assert (E4 : 0 < max_history
                     (analyze_intent clarifying_json_loads
                        Fixture.retry_seconds_text "Hire someone"
                        (gather_context "Hire someone" "s1" None st).2).2)
    by (vm_compute; reflexivity).
  assert (E5 : api_calls
                 (analyze_intent clarifying_json_loads
                    Fixture.retry_seconds_text "Hire someone"
                    (gather_context "Hire someone" "s1" None st).2).2 = 1%nat)
    by (vm_compute; reflexivity).
  destruct (gather_context "Hire someone" "s1" None st) as [o1 st1] eqn:Hgather.
  cbn [fst snd] in E1, E2, E3, E4, E5.
  destruct o1 as [full|]; [|discriminate E1].
  destruct (analyze_intent clarifying_json_loads Fixture.retry_seconds_text
              "Hire someone" st1) as [o2 st2] eqn:Hintent.
  cbn [fst snd] in E2, E3, E4, E5.
  destruct o2 as [[| | | | | |intent]|]; try discriminate E2.
  cbn [returned_or dict_or_empty] in E3. destruct E3 as [Hclar Hqs].
  destruct (clarification_short_circuits clarifying_json_loads
              Fixture.validate_int Fixture.format_TaskType
              Fixture.retry_seconds_text Fixture.list_set
              Fixture.jd_generator_agent Fixture.screening_agent
              Fixture.interview_agent "Hire someone" "s1" None st st1 st2
              full intent _ Hgather Hintent Hclar Hqs E4)
    as (st3 & earlier & m & Hrun & Hapi & Hcalls & _).
  assert (E6 : content <$> ledger run.2 "s1"
               = ["Hire someone"; "I need some clarification to help you better:"])
    by (vm_compute; reflexivity).
  subst run. split; [rewrite Hrun; reflexivity|].
  split; [rewrite Hrun; cbn [snd]; congruence|].
  split; [rewrite Hrun; exact Hcalls|exact E6].
Defined.

(** *** The ledger over a whole request *)

(** The request that goes through with two tasks, on a session that is
    not yet known. *)
Lemma exchange_is_recorded_witness :
  let st := Fixture.start
              (Fixture.answers [ApiText "intent"; ApiText "plan-two"]) 20 in
  0 < max_history st
  /\ exists resp st',
       request "Hire an engineer" "s1" None st = (Returned resp, st')
       /\ shown <$> ledger st' "s1"
          = [("user", "Hire an engineer", ∅); ("assistant", message resp, ∅)].
Proof.
  intros st.
  assert (H1 : 0 < max_history st) by (vm_compute; reflexivity).
  assert (E1 : is_returned (request "Hire an engineer" "s1" None st).1 = true)
    by (vm_compute; reflexivity).
  destruct (request "Hire an engineer" "s1" None st) as [o st'] eqn:Hrun.
  cbn [fst] in E1. destruct o as [resp|]; [|discriminate E1].
  destruct (exchange_is_recorded Fixture.json_loads Fixture.validate_int
              Fixture.format_TaskType Fixture.retry_seconds_text
              Fixture.list_set Fixture.jd_generator_agent
              Fixture.screening_agent Fixture.interview_agent
              st st' "Hire an engineer" "s1" None resp H1 Hrun) as (Hled & _).
  split; [exact H1|]. exists resp, st'. split; [reflexivity|].
  rewrite Hled. reflexivity.
Defined.

(** The same request as the first one of a session made by
    [create_session]. *)
Lemma first_exchange_on_created_session_witness :
  let st := Fixture.start
              (Fixture.answers [ApiText "intent"; ApiText "plan-two"]) 20 in
  2 <= max_history st
  /\ exists resp st',
       (session <- create_session "s1" ;;
        request "Hire an engineer" session None) st = (Returned resp, st')
       /\ shown <$> ledger st' "s1"
          = [("user", "Hire an engineer", ∅); ("assistant", message resp, ∅)].
Proof.
  intros st.
  assert (H1 : 2 <= max_history st) by (vm_compute; discriminate).
  assert (E1 : is_returned
                 ((session <- create_session "s1" ;;
                   request "Hire an engineer" session None) st).1 = true)
    by (vm_compute; reflexivity).
  destruct ((session <- create_session "s1" ;;
             request "Hire an engineer" session None) st) as [o st'] eqn:Hrun.
  cbn [fst] in E1. destruct o as [resp|]; [|discriminate E1].
  split; [exact H1|]. exists resp, st'. split; [reflexivity|].
  exact (first_exchange_on_created_session Fixture.json_loads
           Fixture.validate_int Fixture.format_TaskType
           Fixture.retry_seconds_text Fixture.list_set
           Fixture.jd_generator_agent Fixture.screening_agent
           Fixture.interview_agent st st' "s1" "Hire an engineer" None resp
           H1 Hrun).
Defined.
